(** * AG-UI middleware pipe: request transcoding and response relaying

    A shallow embedding of [src/owui-pipe/pipe.py] (class [Pipe]):
    - [transform_openwebui_to_ag_ui]: OpenWebUI chat body to AG-UI
      RunAgentInput,
    - [stream_ag_ui_request]: the server-sent-event loop that turns AG-UI
      events into text chunks,
    - [non_stream_ag_ui_request]: the single-shot variant,
    together with the fragment of the Python runtime they rest on (dicts,
    truthiness, [str()], [json.loads], [json.dumps], UTF-8 decoding) and of
    [open_webui.utils.misc] ([pop_system_message]).

    Conventions.
    - A Python [str] is a Rocq [string] holding its UTF-8 bytes (a lone
      surrogate, which only a JSON [\u] escape can create, is written as its
      three-byte form).  Byte strings read from the network are Rocq
      [string]s as well; [bytes_decode_utf8] is the check between the two.
    - A Python value is a [json] term.  Dicts are association lists in
      insertion order with pairwise distinct keys.
    - Python integers are [Z].  The functions are modelled with a decoder
      that has no limit on nesting or on the digits of an integer;
      [json_loads_limited] is the decoder with the limits of the
      interpreter, and the two agree wherever no limit is met.
    - A float is carried by a decimal literal denoting it; what [repr]
      prints for it is a parameter of the development ([float_repr]).
    - Console output ([print]) and [time.sleep] have no effect on any value
      the functions produce and are left out. *)

From Stdlib Require Import ZArith List Ascii String Lia Bool.
From stdpp Require Import base option list strings pretty.

Set Warnings "-register-all".

Open Scope string_scope.
Open Scope list_scope.

(** ** Python values *)

Inductive json : Type :=
| JNull
| JBool (b : bool)
| JInt (n : Z)
| JFloat (literal : string)
| JStr (s : string)
| JList (items : list json)
| JObj (fields : list (string * json)).

Abbreviation dict := (list (string * json)).

(** [d.get(k)] as an option; [d.get(k, default)]; [k in d]. *)
Fixpoint dict_lookup (k : string) (d : dict) : option json :=
  match d with
  | [] => None
  | (k', v) :: d' => if String.eqb k k' then Some v else dict_lookup k d'
  end.

Definition dict_get (d : dict) (k : string) (default : json) : json :=
  match dict_lookup k d with
  | Some v => v
  | None => default
  end.

Definition dict_contains (k : string) (d : dict) : bool :=
  match dict_lookup k d with
  | Some _ => true
  | None => false
  end.

(** [d[k] = v]: an existing key keeps its position, a new key goes last. *)
Fixpoint dict_set (k : string) (v : json) (d : dict) : dict :=
  match d with
  | [] => [(k, v)]
  | (k', v') :: d' =>
      if String.eqb k k' then (k, v) :: d' else (k', v') :: dict_set k v d'
  end.

(** ** Strings *)

Definition startswith (p s : string) : bool := String.prefix p s.

(** [s[n:]] *)
Fixpoint str_drop (n : nat) (s : string) : string :=
  match n, s with
  | O, _ => s
  | S n', String _ s' => str_drop n' s'
  | S _, EmptyString => EmptyString
  end.

(** [sep.join(parts)] *)
Fixpoint str_join (sep : string) (parts : list string) : string :=
  match parts with
  | [] => ""
  | [p] => p
  | p :: ps => p +:+ sep +:+ str_join sep ps
  end.

(** [s.split(c, 1)] for a one-character separator: [None] when [c] does not
    occur, otherwise the text before and after its first occurrence. *)
Fixpoint split_once (c : ascii) (s : string) : option (string * string) :=
  match s with
  | EmptyString => None
  | String a s' =>
      if Ascii.eqb a c then Some ("", s')
      else match split_once c s' with
           | Some (l, r) => Some (String a l, r)
           | None => None
           end
  end.

(** ** Exceptions

    The exceptions the three functions can meet.  Their message text
    ([str(e)]) is a parameter of the development: no property below depends
    on it. *)

Inductive exn : Type :=
| AttributeError (receiver : json) (attr : string)
| TypeError (operation : string) (operand : json)
| KeyError (key : string)
| UnicodeDecodeError (raw : string)
| JSONDecodeError (doc : string).

Inductive result (A : Type) : Type :=
| Ok (a : A)
| Raise (e : exn).
Arguments Ok {A} a.
Arguments Raise {A} e.

#[global] Instance result_ret : MRet result := fun A a => Ok a.

#[global] Instance result_bind : MBind result := fun A B f m =>
  match m with
  | Ok a => f a
  | Raise e => Raise e
  end.

(** What the interpreter prints: [repr] of a float, [repr] of a [str]
    (quoting and escaping), and the message of an exception. *)
Class PyRuntime := {
  float_repr : string -> string;
  str_repr : string -> string;
  exn_text : exn -> string
}.

(** ** Truthiness, type names, equality with a string *)

Definition float_is_zero `{PyRuntime} (lit : string) : bool :=
  String.eqb (float_repr lit) "0.0" || String.eqb (float_repr lit) "-0.0".

Definition truthy `{PyRuntime} (v : json) : bool :=
  match v with
  | JNull => false
  | JBool b => b
  | JInt n => negb (n =? 0)%Z
  | JFloat lit => negb (float_is_zero lit)
  | JStr s => negb (String.eqb s "")
  | JList l => match l with [] => false | _ => true end
  | JObj d => match d with [] => false | _ => true end
  end.

(** [v == "text"] for a string constant: only a [str] can be equal to it. *)
Definition eq_str (v : json) (text : string) : bool :=
  match v with
  | JStr s => String.eqb s text
  | _ => false
  end.

(** ** [repr] and [str] *)

Fixpoint py_repr `{PyRuntime} (v : json) : string :=
  match v with
  | JNull => "None"
  | JBool true => "True"
  | JBool false => "False"
  | JInt n => pretty n
  | JFloat lit => float_repr lit
  | JStr s => str_repr s
  | JList l => "[" +:+ str_join ", " (map py_repr l) +:+ "]"
  | JObj d =>
      "{" +:+ str_join ", "
               (map (fun kv => str_repr (fst kv) +:+ ": " +:+ py_repr (snd kv)) d)
          +:+ "}"
  end.

(** [str(v)], which is also what an f-string field [{v}] prints. *)
Definition py_str `{PyRuntime} (v : json) : string :=
  match v with
  | JStr s => s
  | _ => py_repr v
  end.

(** Iterating over a value, as the [for] statement does: the items of a
    list, the keys of a dict, the characters of a string. *)
Definition is_continuation (a : ascii) : bool :=
  let n := nat_of_ascii a in (128 <=? n)%nat && (n <? 192)%nat.

Fixpoint utf8_chars (s : string) : list string :=
  match s with
  | EmptyString => []
  | String a s' =>
      match utf8_chars s' with
      | (String b _ as c) :: cs =>
          if is_continuation b then String a c :: cs
          else String a "" :: c :: cs
      | cs => String a "" :: cs
      end
  end.

Definition py_iter (v : json) : result (list json) :=
  match v with
  | JList l => Ok l
  | JObj d => Ok (map (fun kv => JStr (fst kv)) d)
  | JStr s => Ok (map JStr (utf8_chars s))
  | _ => Raise (TypeError "iter" v)
  end.

(** ** UTF-8

    [bytes.decode("utf-8")]: the well-formed byte sequences of the Unicode
    standard (no overlong forms, no surrogates, nothing above U+10FFFF). *)

Definition byte_in (lo hi : N) (a : ascii) : bool :=
  let n := N_of_ascii a in (lo <=? n)%N && (n <=? hi)%N.

Definition lead3_ok (a b : ascii) : bool :=
  (byte_in 224 224 a && byte_in 160 191 b)
  || (byte_in 225 236 a && byte_in 128 191 b)
  || (byte_in 237 237 a && byte_in 128 159 b)
  || (byte_in 238 239 a && byte_in 128 191 b).

Definition lead4_ok (a b : ascii) : bool :=
  (byte_in 240 240 a && byte_in 144 191 b)
  || (byte_in 241 243 a && byte_in 128 191 b)
  || (byte_in 244 244 a && byte_in 128 143 b).

Fixpoint utf8_valid (s : string) : bool :=
  match s with
  | EmptyString => true
  | String a s1 =>
      if byte_in 0 127 a then utf8_valid s1
      else
        match s1 with
        | EmptyString => false
        | String b s2 =>
            if byte_in 194 223 a then byte_in 128 191 b && utf8_valid s2
            else
              match s2 with
              | EmptyString => false
              | String c s3 =>
                  if lead3_ok a b then byte_in 128 191 c && utf8_valid s3
                  else
                    match s3 with
                    | EmptyString => false
                    | String d s4 =>
                        lead4_ok a b && byte_in 128 191 c
                        && byte_in 128 191 d && utf8_valid s4
                    end
              end
        end
  end.

Definition bytes_decode_utf8 (raw : string) : result string :=
  if utf8_valid raw then Ok raw else Raise (UnicodeDecodeError raw).

(** Code point of one encoded character, and the encoding of a code point. *)
Definition codepoint (c : string) : N :=
  match map N_of_ascii (list_ascii_of_string c) with
  | [b0] => b0
  | [b0; b1] => (b0 mod 32) * 64 + b1 mod 64
  | [b0; b1; b2] => (b0 mod 16) * 4096 + (b1 mod 64) * 64 + b2 mod 64
  | [b0; b1; b2; b3] =>
      (b0 mod 8) * 262144 + (b1 mod 64) * 4096 + (b2 mod 64) * 64 + b3 mod 64
  | _ => 0
  end%N.

Definition chr (n : N) : string := String (ascii_of_N n) EmptyString.

Definition utf8_encode (cp : N) : string :=
  (if cp <? 128 then chr cp
   else if cp <? 2048 then chr (192 + cp / 64) +:+ chr (128 + cp mod 64)
   else if cp <? 65536 then
     chr (224 + cp / 4096) +:+ chr (128 + (cp / 64) mod 64)
     +:+ chr (128 + cp mod 64)
   else
     chr (240 + cp / 262144) +:+ chr (128 + (cp / 4096) mod 64)
     +:+ chr (128 + (cp / 64) mod 64) +:+ chr (128 + cp mod 64))%N.

Definition dquote : string := chr 34.
Definition backslash : string := chr 92.
Definition newline : string := chr 10.

(** ** [json.loads]

    The decoder of the standard library on a [str]: RFC 8259 grammar in
    strict mode, plus the tokens NaN, Infinity and -Infinity; whitespace is
    space, tab, line feed and carriage return; a later duplicate key of an
    object replaces the value of the earlier one.  [None] stands for
    [json.JSONDecodeError], the one exception the decoder raises on a text
    that stays within the limits of the interpreter (see
    [json_loads_limited] below). *)

Definition is_ws (a : ascii) : bool :=
  let n := N_of_ascii a in
  (n =? 32)%N || (n =? 9)%N || (n =? 10)%N || (n =? 13)%N.

Fixpoint skip_ws (s : string) : string :=
  match s with
  | String a s' => if is_ws a then skip_ws s' else s
  | EmptyString => s
  end.

Definition is_digit (a : ascii) : bool := byte_in 48 57 a.

Fixpoint take_digits (s : string) : string * string :=
  match s with
  | String a s' =>
      if is_digit a then let '(ds, r) := take_digits s' in (String a ds, r)
      else ("", s)
  | EmptyString => ("", s)
  end.

Fixpoint digits_value (acc : Z) (ds : string) : Z :=
  match ds with
  | String a ds' => digits_value (10 * acc + Z.of_N (N_of_ascii a) - 48)%Z ds'
  | EmptyString => acc
  end.

Definition hex_value (a : ascii) : option N :=
  let n := N_of_ascii a in
  (if byte_in 48 57 a then Some (n - 48)
   else if byte_in 97 102 a then Some (n - 87)
   else if byte_in 65 70 a then Some (n - 55)
   else None)%N.

Definition hex4 (s : string) : option (N * string) :=
  match s with
  | String a (String b (String c (String d r))) =>
      match hex_value a, hex_value b, hex_value c, hex_value d with
      | Some x, Some y, Some z, Some w =>
          Some (x * 4096 + y * 256 + z * 16 + w, r)%N
      | _, _, _, _ => None
      end
  | _ => None
  end.

(** A [\uXXXX] escape whose four digits are [hi]; a high surrogate directly
    followed by an escaped low surrogate makes one character. *)
Definition unicode_escape (hi : N) (r : string) : N * string :=
  if ((55296 <=? hi) && (hi <=? 56319))%N then
    match r with
    | String b (String u r') =>
        if Ascii.eqb b "\" && Ascii.eqb u "u" then
          match hex4 r' with
          | Some (lo, r'') =>
              if ((56320 <=? lo) && (lo <=? 57343))%N
              then (65536 + (hi - 55296) * 1024 + (lo - 56320), r'')%N
              else (hi, r)
          | None => (hi, r)
          end
        else (hi, r)
    | _ => (hi, r)
    end
  else (hi, r).

Definition simple_escape (a : ascii) : option string :=
  if Ascii.eqb a "034" then Some dquote
  else if Ascii.eqb a "\" then Some backslash
  else if Ascii.eqb a "/" then Some "/"
  else if Ascii.eqb a "b" then Some (chr 8)
  else if Ascii.eqb a "f" then Some (chr 12)
  else if Ascii.eqb a "n" then Some (chr 10)
  else if Ascii.eqb a "r" then Some (chr 13)
  else if Ascii.eqb a "t" then Some (chr 9)
  else None.

(** The text of a string literal after its opening quote. *)
Fixpoint scanstring (fuel : nat) (s : string) : option (string * string) :=
  match fuel with
  | O => None
  | S fuel' =>
      match s with
      | EmptyString => None
      | String a s' =>
          if Ascii.eqb a "034" then Some ("", s')
          else if Ascii.eqb a "\" then
            match s' with
            | EmptyString => None
            | String e s'' =>
                if Ascii.eqb e "u" then
                  match hex4 s'' with
                  | Some (hi, r) =>
                      let '(cp, r') := unicode_escape hi r in
                      match scanstring fuel' r' with
                      | Some (text, rest) => Some (utf8_encode cp +:+ text, rest)
                      | None => None
                      end
                  | None => None
                  end
                else
                  match simple_escape e with
                  | Some c =>
                      match scanstring fuel' s'' with
                      | Some (text, rest) => Some (c +:+ text, rest)
                      | None => None
                      end
                  | None => None
                  end
            end
          else if byte_in 0 31 a then None
          else
            match scanstring fuel' s' with
            | Some (text, rest) => Some (String a text, rest)
            | None => None
            end
      end
  end.

(** A number: an optional minus sign, then 0 or a digit string without
    leading zero, then optionally a point with at least one digit, then
    optionally e or E with an optional sign and at least one digit.  It is an
    [int] without fraction and exponent and a [float] otherwise. *)
Definition number_sign (s : string) : string * string :=
  match s with
  | String a r => if Ascii.eqb a "-" then ("-", r) else ("", s)
  | EmptyString => ("", s)
  end.

Definition number_int (s : string) : option (string * string) :=
  match s with
  | String a r =>
      if Ascii.eqb a "0" then Some ("0", r)
      else if is_digit a then
        let '(ds, r') := take_digits r in Some (String a ds, r')
      else None
  | EmptyString => None
  end.

Definition number_frac (s : string) : string * string :=
  match s with
  | String a r =>
      if Ascii.eqb a "." then
        match take_digits r with
        | (String d ds, r') => ("." +:+ String d ds, r')
        | _ => ("", s)
        end
      else ("", s)
  | EmptyString => ("", s)
  end.

Definition number_exp (s : string) : string * string :=
  match s with
  | String a r =>
      if Ascii.eqb a "e" || Ascii.eqb a "E" then
        let '(esign, r1) :=
          match r with
          | String b r' =>
              if Ascii.eqb b "-" || Ascii.eqb b "+"
              then (String b "", r') else ("", r)
          | EmptyString => ("", r)
          end in
        match take_digits r1 with
        | (String d ds, r') => (String a esign +:+ String d ds, r')
        | _ => ("", s)
        end
      else ("", s)
  | EmptyString => ("", s)
  end.

Definition match_number (s : string) : option (json * string) :=
  let '(sign, s1) := number_sign s in
  match number_int s1 with
  | None => None
  | Some (ip, s2) =>
      let '(frac, s3) := number_frac s2 in
      let '(expo, s4) := number_exp s3 in
      match frac, expo with
      | EmptyString, EmptyString =>
          Some (JInt (if String.eqb sign "-" then - digits_value 0 ip
                      else digits_value 0 ip)%Z, s4)
      | _, _ => Some (JFloat (sign +:+ ip +:+ frac +:+ expo), s4)
      end
  end.

Definition expect (c : ascii) (s : string) : option string :=
  match s with
  | String a r => if Ascii.eqb a c then Some r else None
  | EmptyString => None
  end.

Fixpoint scan_once (fuel : nat) (s : string) : option (json * string) :=
  match fuel with
  | O => None
  | S fuel' =>
      match s with
      | EmptyString => None
      | String a r =>
          if Ascii.eqb a "034" then
            match scanstring (String.length s) r with
            | Some (text, rest) => Some (JStr text, rest)
            | None => None
            end
          else if Ascii.eqb a "{" then
            match skip_ws r with
            | String b r' as body =>
                if Ascii.eqb b "}" then Some (JObj [], r')
                else
                  match parse_members fuel' [] body with
                  | Some (d, rest) => Some (JObj d, rest)
                  | None => None
                  end
            | EmptyString => None
            end
          else if Ascii.eqb a "[" then
            match skip_ws r with
            | String b r' as body =>
                if Ascii.eqb b "]" then Some (JList [], r')
                else
                  match parse_items fuel' body with
                  | Some (l, rest) => Some (JList l, rest)
                  | None => None
                  end
            | EmptyString => None
            end
          else if startswith "null" s then Some (JNull, str_drop 4 s)
          else if startswith "true" s then Some (JBool true, str_drop 4 s)
          else if startswith "false" s then Some (JBool false, str_drop 5 s)
          else if startswith "NaN" s then Some (JFloat "NaN", str_drop 3 s)
          else if startswith "Infinity" s
          then Some (JFloat "Infinity", str_drop 8 s)
          else if startswith "-Infinity" s
          then Some (JFloat "-Infinity", str_drop 9 s)
          else match_number s
      end
  end

(** Items of an array, from the first character of an item. *)
with parse_items (fuel : nat) (s : string) : option (list json * string) :=
  match fuel with
  | O => None
  | S fuel' =>
      match scan_once fuel' s with
      | None => None
      | Some (v, rest) =>
          match skip_ws rest with
          | String a r =>
              if Ascii.eqb a "]" then Some ([v], r)
              else if Ascii.eqb a "," then
                match parse_items fuel' (skip_ws r) with
                | Some (l, rest') => Some (v :: l, rest')
                | None => None
                end
              else None
          | EmptyString => None
          end
      end
  end

(** Members of an object, from the opening quote of a key. *)
with parse_members (fuel : nat) (acc : dict) (s : string)
  : option (dict * string) :=
  match fuel with
  | O => None
  | S fuel' =>
      match expect "034" s with
      | None => None
      | Some r =>
          match scanstring (String.length s) r with
          | None => None
          | Some (key, r1) =>
              match expect ":" (skip_ws r1) with
              | None => None
              | Some r2 =>
                  match scan_once fuel' (skip_ws r2) with
                  | None => None
                  | Some (v, rest) =>
                      let acc' := dict_set key v acc in
                      match skip_ws rest with
                      | String a r3 =>
                          if Ascii.eqb a "}" then Some (acc', r3)
                          else if Ascii.eqb a "," then
                            parse_members fuel' acc' (skip_ws r3)
                          else None
                      | EmptyString => None
                      end
                  end
              end
          end
      end
  end.

Definition utf8_bom : string := chr 239 +:+ chr 187 +:+ chr 191.

Definition json_loads (s : string) : option json :=
  if startswith utf8_bom s then None
  else
    match scan_once (2 * String.length s + 2) (skip_ws s) with
    | Some (v, rest) =>
        match skip_ws rest with
        | EmptyString => Some v
        | _ => None
        end
    | None => None
    end.

(** ** [json.loads] within the limits of the interpreter

    Two limits of the interpreter make [json.loads] raise an exception that
    is not a [json.JSONDecodeError]: the decoder enters one level of
    recursion for every array or object it opens and raises
    [RecursionError] past the depth the interpreter allows, and the
    conversion of an integer literal raises [ValueError] when the literal
    has more digits than [sys.get_int_max_str_digits()] (0 lifts that
    limit).  [json_loads] above is the decoder without them; the decoder
    below stops where the interpreter does, reading the same way from left
    to right. *)

Record DecoderLimits := {
  nesting_limit : nat;        (* arrays and objects that can be open at once *)
  int_max_str_digits : nat    (* digits of an integer literal; 0: no limit *)
}.

Inductive limit_error : Type :=
| RecursionError
| ValueError.

Inductive decoded (A : Type) : Type :=
| Decoded (a : A)
| Rejected                        (* json.JSONDecodeError *)
| OverLimit (e : limit_error).
Arguments Decoded {A} a.
Arguments Rejected {A}.
Arguments OverLimit {A} e.

(** The digits of the integer part of the number that starts [s]. *)
Definition int_literal_digits (s : string) : nat :=
  match number_int (snd (number_sign s)) with
  | Some (ip, _) => String.length ip
  | None => 0
  end.

Definition match_number_limited (limits : DecoderLimits) (s : string)
  : decoded (json * string) :=
  match match_number s with
  | None => Rejected
  | Some (JInt n, rest) =>
      if ((0 <? int_max_str_digits limits)
          && (int_max_str_digits limits <? int_literal_digits s))%nat
      then OverLimit ValueError
      else Decoded (JInt n, rest)
  | Some other => Decoded other
  end.

(** [depth] is the number of arrays and objects that can still be opened. *)
Fixpoint scan_once_limited (limits : DecoderLimits) (fuel depth : nat)
  (s : string) : decoded (json * string) :=
  match fuel with
  | O => Rejected
  | S fuel' =>
      match s with
      | EmptyString => Rejected
      | String a r =>
          if Ascii.eqb a "034" then
            match scanstring (String.length s) r with
            | Some (text, rest) => Decoded (JStr text, rest)
            | None => Rejected
            end
          else if Ascii.eqb a "{" then
            match depth with
            | O => OverLimit RecursionError
            | S depth' =>
                match skip_ws r with
                | String b r' as body =>
                    if Ascii.eqb b "}" then Decoded (JObj [], r')
                    else
                      match parse_members_limited limits fuel' depth' [] body
                      with
                      | Decoded (d, rest) => Decoded (JObj d, rest)
                      | Rejected => Rejected
                      | OverLimit e => OverLimit e
                      end
                | EmptyString => Rejected
                end
            end
          else if Ascii.eqb a "[" then
            match depth with
            | O => OverLimit RecursionError
            | S depth' =>
                match skip_ws r with
                | String b r' as body =>
                    if Ascii.eqb b "]" then Decoded (JList [], r')
                    else
                      match parse_items_limited limits fuel' depth' body with
                      | Decoded (l, rest) => Decoded (JList l, rest)
                      | Rejected => Rejected
                      | OverLimit e => OverLimit e
                      end
                | EmptyString => Rejected
                end
            end
          else if startswith "null" s then Decoded (JNull, str_drop 4 s)
          else if startswith "true" s then Decoded (JBool true, str_drop 4 s)
          else if startswith "false" s then Decoded (JBool false, str_drop 5 s)
          else if startswith "NaN" s then Decoded (JFloat "NaN", str_drop 3 s)
          else if startswith "Infinity" s
          then Decoded (JFloat "Infinity", str_drop 8 s)
          else if startswith "-Infinity" s
          then Decoded (JFloat "-Infinity", str_drop 9 s)
          else match_number_limited limits s
      end
  end

with parse_items_limited (limits : DecoderLimits) (fuel depth : nat)
  (s : string) : decoded (list json * string) :=
  match fuel with
  | O => Rejected
  | S fuel' =>
      match scan_once_limited limits fuel' depth s with
      | Rejected => Rejected
      | OverLimit e => OverLimit e
      | Decoded (v, rest) =>
          match skip_ws rest with
          | String a r =>
              if Ascii.eqb a "]" then Decoded ([v], r)
              else if Ascii.eqb a "," then
                match parse_items_limited limits fuel' depth (skip_ws r) with
                | Decoded (l, rest') => Decoded (v :: l, rest')
                | Rejected => Rejected
                | OverLimit e => OverLimit e
                end
              else Rejected
          | EmptyString => Rejected
          end
      end
  end

with parse_members_limited (limits : DecoderLimits) (fuel depth : nat)
  (acc : dict) (s : string) : decoded (dict * string) :=
  match fuel with
  | O => Rejected
  | S fuel' =>
      match expect "034" s with
      | None => Rejected
      | Some r =>
          match scanstring (String.length s) r with
          | None => Rejected
          | Some (key, r1) =>
              match expect ":" (skip_ws r1) with
              | None => Rejected
              | Some r2 =>
                  match scan_once_limited limits fuel' depth (skip_ws r2) with
                  | Rejected => Rejected
                  | OverLimit e => OverLimit e
                  | Decoded (v, rest) =>
                      let acc' := dict_set key v acc in
                      match skip_ws rest with
                      | String a r3 =>
                          if Ascii.eqb a "}" then Decoded (acc', r3)
                          else if Ascii.eqb a "," then
                            parse_members_limited limits fuel' depth acc'
                              (skip_ws r3)
                          else Rejected
                      | EmptyString => Rejected
                      end
                  end
              end
          end
      end
  end.

Definition json_loads_limited (limits : DecoderLimits) (s : string)
  : decoded json :=
  if startswith utf8_bom s then Rejected
  else
    match scan_once_limited limits (2 * String.length s + 2)
            (nesting_limit limits) (skip_ws s) with
    | Decoded (v, rest) =>
        match skip_ws rest with
        | EmptyString => Decoded v
        | _ => Rejected
        end
    | Rejected => Rejected
    | OverLimit e => OverLimit e
    end.

(** What the decoder within limits says of a text against what the decoder
    without them says of it. *)
Definition agrees {A} (d : decoded A) (o : option A) : Prop :=
  match d with
  | Decoded a => o = Some a
  | Rejected => o = None
  | OverLimit _ => True
  end.

(** The limits examples are run with: those of an interpreter with its
    default settings, where the pipe calls the decoder. *)
Definition example_limits : DecoderLimits :=
  {| nesting_limit := 994; int_max_str_digits := 4300 |}.

(** Test documents are written with an apostrophe where JSON has a double
    quote; [q] puts the double quotes back. *)
Fixpoint q (s : string) : string :=
  match s with
  | String a s' => String (if Ascii.eqb a "'" then "034"%char else a) (q s')
  | EmptyString => EmptyString
  end.

(** ** [json.dumps]

    With the default [ensure_ascii]: inside a string everything but the
    printable ASCII characters is escaped.  [indent] is [None] for the
    one-line form and [Some k] for the pretty-printed one. *)

Definition hex_digit (n : N) : string :=
  chr (if n <? 10 then 48 + n else 87 + n)%N.

Definition hex4_text (n : N) : string :=
  (hex_digit (n / 4096) +:+ hex_digit ((n / 256) mod 16)
   +:+ hex_digit ((n / 16) mod 16) +:+ hex_digit (n mod 16))%N.

Definition escape_char (c : string) : string :=
  let cp := codepoint c in
  (if cp =? 34 then backslash +:+ dquote
   else if cp =? 92 then backslash +:+ backslash
   else if cp =? 10 then backslash +:+ "n"
   else if cp =? 13 then backslash +:+ "r"
   else if cp =? 9 then backslash +:+ "t"
   else if cp =? 8 then backslash +:+ "b"
   else if cp =? 12 then backslash +:+ "f"
   else if (32 <=? cp) && (cp <=? 126) then c
   else if cp <? 65536 then backslash +:+ "u" +:+ hex4_text cp
   else
     backslash +:+ "u" +:+ hex4_text (55296 + (cp - 65536) / 1024)
     +:+ backslash +:+ "u" +:+ hex4_text (56320 + (cp - 65536) mod 1024))%N.

Definition encode_basestring_ascii (s : string) : string :=
  dquote +:+ str_join "" (map escape_char (utf8_chars s)) +:+ dquote.

Definition float_json_text `{PyRuntime} (lit : string) : string :=
  let r := float_repr lit in
  if String.eqb r "nan" then "NaN"
  else if String.eqb r "inf" then "Infinity"
  else if String.eqb r "-inf" then "-Infinity"
  else r.

Fixpoint spaces (n : nat) : string :=
  match n with
  | O => ""
  | S n' => String " " (spaces n')
  end.

(** Opening text, separator and closing text of a non-empty container at
    nesting depth [level]. *)
Definition layout (indent : option nat) (level : nat)
  : string * string * string :=
  match indent with
  | None => ("", ", ", "")
  | Some k =>
      (newline +:+ spaces (k * S level),
       "," +:+ newline +:+ spaces (k * S level),
       newline +:+ spaces (k * level))
  end.

Fixpoint dumps_at `{PyRuntime} (indent : option nat) (level : nat) (v : json)
  : string :=
  match v with
  | JNull => "null"
  | JBool true => "true"
  | JBool false => "false"
  | JInt n => pretty n
  | JFloat lit => float_json_text lit
  | JStr s => encode_basestring_ascii s
  | JList [] => "[]"
  | JList l =>
      let '(op, sep, cl) := layout indent level in
      "[" +:+ op +:+ str_join sep (map (dumps_at indent (S level)) l)
      +:+ cl +:+ "]"
  | JObj [] => "{}"
  | JObj d =>
      let '(op, sep, cl) := layout indent level in
      "{" +:+ op
      +:+ str_join sep
            (map (fun kv => encode_basestring_ascii (fst kv) +:+ ": "
                            +:+ dumps_at indent (S level) (snd kv)) d)
      +:+ cl +:+ "}"
  end.

Definition json_dumps `{PyRuntime} (indent : option nat) (v : json) : string :=
  dumps_at indent 0 v.

(** An instance to run examples with: floats print as written, strings are
    put between apostrophes, an exception prints its class name. *)
Definition example_runtime : PyRuntime :=
  {| float_repr := fun lit => lit;
     str_repr := fun s => "'" +:+ s +:+ "'";
     exn_text := fun e =>
       match e with
       | AttributeError _ _ => "AttributeError"
       | TypeError _ _ => "TypeError"
       | KeyError _ => "KeyError"
       | UnicodeDecodeError _ => "UnicodeDecodeError"
       | JSONDecodeError _ => "JSONDecodeError"
       end |}.

(** ** Operations on values that can raise *)

(** [v.get(k, default)]: only a dict has the method. *)
Definition py_get (v : json) (k : string) (default : json) : result json :=
  match v with
  | JObj d => Ok (dict_get d k default)
  | _ => Raise (AttributeError v "get")
  end.

(** [v[k]] for a string [k]. *)
Definition py_getitem (v : json) (k : string) : result json :=
  match v with
  | JObj d =>
      match dict_lookup k d with
      | Some x => Ok x
      | None => Raise (KeyError k)
      end
  | _ => Raise (TypeError "getitem" v)
  end.

(** [v[k] = x] for a string [k]. *)
Definition py_setitem (v : json) (k : string) (x : json) : result json :=
  match v with
  | JObj d => Ok (JObj (dict_set k x d))
  | _ => Raise (TypeError "setitem" v)
  end.

(** ["." in v]: a substring of a string, an item of a list, a key of a
    dict. *)
Definition contains_dot (v : json) : result bool :=
  match v with
  | JStr s =>
      Ok (match split_once "." s with Some _ => true | None => false end)
  | JList l => Ok (existsb (fun x => eq_str x ".") l)
  | JObj d => Ok (dict_contains "." d)
  | _ => Raise (TypeError "contains" v)
  end.

(** [v.split(".", 1)[1]], evaluated only where ["." in v] holds. *)
Definition after_first_dot (v : json) : result string :=
  match v with
  | JStr s =>
      match split_once "." s with
      | Some (_, r) => Ok r
      | None => Raise (TypeError "getitem" v)
      end
  | _ => Raise (AttributeError v "split")
  end.

(** [mapping.get(key, default)] for an arbitrary key: lists and dicts cannot
    be hashed, and only a [str] can be equal to one of the keys. *)
Definition mapping_get (mapping : dict) (key default : json) : result json :=
  match key with
  | JList _ | JObj _ => Raise (TypeError "hash" key)
  | JStr s => Ok (dict_get mapping s default)
  | _ => Ok default
  end.

(** ** [open_webui.utils.misc]

    The helper the pipe imports from the host application:
    [get_system_message] returns the first message whose role is "system"
    (or [None]), [remove_system_message] keeps the messages whose role is
    not "system", and [pop_system_message] returns the pair. *)

Fixpoint get_system_message_loop (messages : list json) : result json :=
  match messages with
  | [] => Ok JNull
  | message :: rest =>
      role ← py_getitem message "role";
      if eq_str role "system" then Ok message
      else get_system_message_loop rest
  end.

Definition get_system_message (messages : json) : result json :=
  items ← py_iter messages; get_system_message_loop items.

Fixpoint remove_system_message_loop (messages : list json)
  : result (list json) :=
  match messages with
  | [] => Ok []
  | message :: rest =>
      role ← py_getitem message "role";
      kept ← remove_system_message_loop rest;
      Ok (if negb (eq_str role "system") then message :: kept else kept)
  end.

Definition remove_system_message (messages : json) : result (list json) :=
  items ← py_iter messages; remove_system_message_loop items.

Definition pop_system_message (messages : json)
  : result (json * list json) :=
  system_message ← get_system_message messages;
  others ← remove_system_message messages;
  Ok (system_message, others).

(** ** Identifiers

    [uuid.uuid4()] draws from the operating system's randomness.  A
    [uuid_source] is the sequence of texts the successive calls of one
    execution return; a computation that draws identifiers and may raise is
    a function of that sequence. *)

Definition uuid_source := nat -> string.

Definition gen (A : Type) : Type := uuid_source -> result A * uuid_source.

#[global] Instance gen_ret : MRet gen := fun A a g => (Ok a, g).

#[global] Instance gen_bind : MBind gen := fun A B f m g =>
  match m g with
  | (Ok a, g') => f a g'
  | (Raise e, g') => (Raise e, g')
  end.

Definition lift {A} (r : result A) : gen A := fun g => (r, g).

Definition uuid4 : gen string := fun g => (Ok (g 0%nat), fun n => g (S n)).

(** ** The pipe *)

Record Valves := {
  AG_UI_ENDPOINT_URL : string;
  THREAD_ID_PREFIX : string;
  DEFAULT_MODEL : string
}.

Record Pipe := {
  type : string;
  id : string;
  name : string;
  valves : Valves
}.

(** [Pipe.__init__]: the valves come from the environment. *)
Definition getenv (environ : string -> option string) (k fallback : string)
  : string :=
  default fallback (environ k).

Definition Pipe_init (environ : string -> option string) : Pipe :=
  {| type := "manifold";
     id := "aguimiddleware";
     name := "ag-ui/";
     valves :=
       {| AG_UI_ENDPOINT_URL :=
            getenv environ "AG_UI_ENDPOINT_URL" "http://host.docker.internal:8000";
          THREAD_ID_PREFIX := getenv environ "THREAD_ID_PREFIX" "openwebui";
          DEFAULT_MODEL := getenv environ "DEFAULT_MODEL" "agui-agent" |} |}.

Definition get_model_mapping (self : Pipe) : dict :=
  [("agui-agent", JStr "agui-agent")].

Definition get_ag_ui_models (self : Pipe) : list json :=
  [JObj [("id", JStr "agui-agent"); ("name", JStr "agui-agent")]].

Definition pipes (self : Pipe) : list json := get_ag_ui_models self.

(** [transform_openwebui_to_ag_ui], lines 92-103: the model the request
    names, without the pipe prefix, mapped to the name the endpoint knows. *)
Definition resolve_model `{PyRuntime} (self : Pipe) (body : dict)
  : result json :=
  let requested_model :=
    dict_get body "model" (JStr (DEFAULT_MODEL (valves self))) in
  prefixed ←
    (if truthy requested_model then contains_dot requested_model
     else Ok false);
  if prefixed : bool then
    model_id ← after_first_dot requested_model;
    let model_mapping := get_model_mapping self in
    mapping_get model_mapping (JStr model_id)
      (JStr (DEFAULT_MODEL (valves self)))
  else
    let model_mapping := get_model_mapping self in
    mapping_get model_mapping requested_model requested_model.

(** The loop of lines 84-90. *)
Fixpoint transform_messages (messages : list json) : gen (list json) :=
  match messages with
  | [] => mret []
  | msg :: rest =>
      u ← uuid4;
      role ← lift (py_get msg "role" (JStr "user"));
      content ← lift (py_get msg "content" (JStr ""));
      let ag_ui_msg :=
        JObj [("id", JStr ("msg_" +:+ u)); ("role", role);
              ("content", content)] in
      tail ← transform_messages rest;
      mret (ag_ui_msg :: tail)
  end.

Definition opt_get (body : dict) (k : string) : json :=
  dict_get body k JNull.

(** Lines 106-138: the RunAgentInput dict. *)
Definition run_agent_input `{PyRuntime} (body : dict) (thread_id run_id : string)
  (ag_ui_messages : list json) (requested_model : json) : json :=
  JObj
    [("threadId", JStr thread_id);
     ("runId", JStr run_id);
     ("state", JObj []);
     ("messages", JList ag_ui_messages);
     ("tools", JList []);
     ("context",
      JList
        [JObj
           [("description", JStr "OpenWebUI request metadata");
            ("value",
             JStr
               (json_dumps None
                  (JObj
                     [("original_model", opt_get body "model");
                      ("requested_model", requested_model);
                      ("user_preferences", dict_get body "user" (JObj []));
                      ("source", JStr "openwebui_pipe");
                      ("temperature", opt_get body "temperature");
                      ("max_tokens", opt_get body "max_tokens");
                      ("stream", dict_get body "stream" (JBool true))])))]]);
     ("forwardedProps",
      JObj
        [("openwebui_request", JBool true);
         ("model", requested_model);
         ("original_params",
          JObj
            [("temperature", opt_get body "temperature");
             ("top_p", opt_get body "top_p");
             ("top_k", opt_get body "top_k");
             ("stop", opt_get body "stop");
             ("stream", opt_get body "stream");
             ("max_tokens", opt_get body "max_tokens")])])].

(** Lines 76-81: the system message, when there is one. *)
Definition transform_system `{PyRuntime} (system_message : json)
  : gen (list json) :=
  if truthy system_message then
    u ← uuid4;
    mret [JObj [("id", JStr ("msg_" +:+ u)); ("role", JStr "system");
                ("content", JStr (py_str system_message))]]
  else mret [].

Definition transform_openwebui_to_ag_ui `{PyRuntime} (self : Pipe)
  (body : dict) : gen json :=
  '(system_message, messages) ←
    lift (pop_system_message (dict_get body "messages" (JList [])));
  u_thread ← uuid4;
  let thread_id := THREAD_ID_PREFIX (valves self) +:+ "_" +:+ u_thread in
  u_run ← uuid4;
  let run_id := "run_" +:+ u_run in
  head ← transform_system system_message;
  tail ← transform_messages messages;
  let ag_ui_messages := head ++ tail in
  requested_model ← lift (resolve_model self body);
  mret (run_agent_input body thread_id run_id ag_ui_messages requested_model).

(** A source to run examples with: the n-th draw is the decimal text of n. *)
Definition example_source : uuid_source := fun n => pretty n.

Definition example_body : dict :=
  [("messages",
    JList
      [JObj [("role", JStr "user"); ("content", JStr "Hello!")];
       JObj [("role", JStr "system"); ("content", JStr "Be brief.")];
       JObj [("content", JStr "ok"); ("role", JStr "assistant")]]);
   ("model", JStr "aguimiddleware.openaigpt4omini");
   ("temperature", JFloat "0.8");
   ("max_tokens", JInt 1000);
   ("stream", JBool true);
   ("top_p", JFloat "0.9")].

(** ** The HTTP exchange

    [requests.post] either fails or hands back a response: its status, its
    body as text, and, for a streamed body, the lines [iter_lines()] yields,
    possibly cut short by a transport failure.  The endpoint is a function
    of the URL, the JSON payload and the headers. *)

Inductive transport_error : Type :=
| ConnectionError
| RequestException (message : string).

Record Response := {
  status_code : Z;
  text : string;
  iter_lines : list string;
  stream_failure : option transport_error
}.

Inductive post_outcome : Type :=
| Responded (response : Response)
| PostFailed (failure : transport_error).

Definition endpoint : Type :=
  string -> json -> list (string * string) -> post_outcome.

Definition stream_headers : list (string * string) :=
  [("Content-Type", "application/json"); ("Accept", "text/event-stream")].

Definition json_headers : list (string * string) :=
  [("Content-Type", "application/json"); ("Accept", "application/json")].

(** Lines 193-197 and 316-320: one rendered line per validation error. *)
Fixpoint validation_loop `{PyRuntime} (validation_errors : list string)
  (error_data : list json) : result (list string) :=
  match error_data with
  | [] => Ok validation_errors
  | error :: rest =>
      loc ← py_get error "loc" (JList []);
      locs ← py_iter loc;
      let field := str_join "." (map py_str locs) in
      msg ← py_get error "msg" (JStr "Unknown error");
      validation_loop (validation_errors ++ [field +:+ ": " +:+ py_str msg])
        rest
  end.

Definition generic_error (response : Response) : string :=
  "Error: AG-UI endpoint returned " +:+ pretty (status_code response)
  +:+ ": " +:+ text response.

(** Lines 185-204 and 308-325: the message for a response whose status is
    not 200. *)
Definition error_response_message `{PyRuntime} (response : Response)
  : result string :=
  let error_text := text response in
  if (status_code response =? 422)%Z then
    match json_loads error_text with
    | Some (JList error_data) =>
        validation_errors ← validation_loop [] error_data;
        Ok ("Validation Error: " +:+ str_join "; " validation_errors)
    | _ => Ok (generic_error response)
    end
  else Ok (generic_error response).

(** What one line of the stream does to the loop. *)
Inductive step : Type :=
| Continue (chunks : list json)
| Break (chunks : list json)
| Throw (e : exn).

(** Lines 215-269: dispatch on the type of a parsed event. *)
Definition dispatch_event `{PyRuntime} (event_data : dict) : step :=
  let event_type := dict_get event_data "type" (JStr "") in
  if eq_str event_type "TEXT_MESSAGE_CONTENT" then
    let delta := dict_get event_data "delta" (JStr "") in
    if truthy delta then Continue [delta] else Continue []
  else if eq_str event_type "TEXT_MESSAGE_START" then Continue []
  else if eq_str event_type "TEXT_MESSAGE_END" then Continue []
  else if eq_str event_type "RUN_STARTED" then Continue []
  else if eq_str event_type "RUN_FINISHED" then Break []
  else if eq_str event_type "RUN_ERROR" then
    let error_msg := dict_get event_data "message" (JStr "Unknown error") in
    Break [JStr ("Error from AG-UI endpoint: " +:+ py_str error_msg)]
  else if eq_str event_type "TOOL_CALL_START" then
    let tool_name := dict_get event_data "toolCallName" (JStr "unknown") in
    Continue
      [JStr (newline +:+ "**🔧 Calling tool: `" +:+ py_str tool_name
             +:+ "`**" +:+ newline)]
  else if eq_str event_type "TOOL_CALL_ARGS" then
    let args_delta := dict_get event_data "delta" (JStr "") in
    if truthy args_delta then Continue [args_delta] else Continue []
  else if eq_str event_type "TOOL_CALL_END" then Continue [JStr newline]
  else if eq_str event_type "TOOL_CALL_RESULT" then
    let tool_result := dict_get event_data "content" (JStr "") in
    if truthy tool_result then
      Continue
        [JStr ("**📋 Tool result:**" +:+ newline +:+ "```" +:+ newline
               +:+ py_str tool_result +:+ newline +:+ "```" +:+ newline
               +:+ newline)]
    else Continue []
  else Continue [].

(** A parsed event that is not an object has no [get]. *)
Definition handle_event `{PyRuntime} (event_data : json) : step :=
  match event_data with
  | JObj d => dispatch_event d
  | _ => Throw (AttributeError event_data "get")
  end.

(** Lines 210-276: one raw line. *)
Definition handle_line `{PyRuntime} (raw : string) : step :=
  if String.eqb raw "" then Continue []
  else
    match bytes_decode_utf8 raw with
    | Raise e => Throw e
    | Ok line =>
        if startswith "data: " line then
          match json_loads (str_drop 6 line) with
          | None => Continue []
          | Some event_data => handle_event event_data
          end
        else Continue []
    end.

(** How the body of the generator ends. *)
Inductive ending : Type :=
| Returned
| Raised (e : exn)
| Failed (failure : transport_error).

(** Lines 209-276: the loop over [response.iter_lines()]. *)
Fixpoint read_events `{PyRuntime} (lines : list string)
  (failure : option transport_error) : list json * ending :=
  match lines with
  | [] =>
      ([], match failure with Some t => Failed t | None => Returned end)
  | raw :: rest =>
      match handle_line raw with
      | Continue chunks =>
          let '(later, e) := read_events rest failure in (chunks ++ later, e)
      | Break chunks => (chunks, Returned)
      | Throw e => ([], Raised e)
      end
  end.

Definition connection_failed (self : Pipe) : string :=
  "Error: Failed to connect to AG-UI endpoint at "
  +:+ AG_UI_ENDPOINT_URL (valves self)
  +:+ ". Please check if the AG-UI endpoint is running.".

(** The three [except] clauses that close both functions. *)
Definition transport_message (self : Pipe) (failure : transport_error)
  : string :=
  match failure with
  | ConnectionError => connection_failed self
  | RequestException message =>
      "Error: Failed to connect to AG-UI endpoint: " +:+ message
  end.

Definition exception_message `{PyRuntime} (e : exn) : string :=
  "Error: " +:+ exn_text e.

(** Lines 278-287: what the generator still yields when its body ends. *)
Definition close_generator `{PyRuntime} (self : Pipe)
  (run : list json * ending) : list json :=
  let '(chunks, e) := run in
  match e with
  | Returned => chunks
  | Raised e => chunks ++ [JStr (exception_message e)]
  | Failed failure => chunks ++ [JStr (transport_message self failure)]
  end.

(** [stream_ag_ui_request]: the chunks the generator yields, in order. *)
Definition stream_ag_ui_request `{PyRuntime} (self : Pipe)
  (requests_post : endpoint) (ag_ui_request : json) : list json :=
  let headers := stream_headers in
  match requests_post (AG_UI_ENDPOINT_URL (valves self)) ag_ui_request headers
  with
  | PostFailed failure => [JStr (transport_message self failure)]
  | Responded response =>
      if negb (status_code response =? 200)%Z then
        match error_response_message response with
        | Ok message => [JStr message]
        | Raise e => [JStr (exception_message e)]
        end
      else
        close_generator self
          (read_events (iter_lines response) (stream_failure response))
  end.

(** Lines 307-345: the value made of the answer of the endpoint.
    [response.json()] reports a body that is not JSON as a [requests]
    exception. *)
Definition non_stream_result `{PyRuntime} (self : Pipe)
  (outcome : post_outcome) : json :=
  match outcome with
  | PostFailed failure => JStr (transport_message self failure)
  | Responded response =>
      if negb (status_code response =? 200)%Z then
        match error_response_message response with
        | Ok message => JStr message
        | Raise e => JStr (exception_message e)
        end
      else
        match json_loads (text response) with
        | None =>
            JStr
              (transport_message self
                 (RequestException
                    (exn_text (JSONDecodeError (text response)))))
        | Some (JObj result) =>
            if dict_contains "content" result
            then dict_get result "content" JNull
            else if dict_contains "message" result
            then dict_get result "message" JNull
            else if dict_contains "text" result
            then dict_get result "text" JNull
            else if dict_contains "result" result
            then JStr (py_str (dict_get result "result" JNull))
            else JStr (json_dumps (Some 2%nat) (JObj result))
        | Some result => JStr (py_str result)
        end
  end.

(** Line 298: [ag_ui_request["state"]["stream"] = False]. *)
Definition set_non_streaming (ag_ui_request : json) : result json :=
  state ← py_getitem ag_ui_request "state";
  state' ← py_setitem state "stream" (JBool false);
  py_setitem ag_ui_request "state" state'.

(** [non_stream_ag_ui_request]: the value the function returns. *)
Definition non_stream_ag_ui_request `{PyRuntime} (self : Pipe)
  (requests_post : endpoint) (ag_ui_request : json) : json :=
  let headers := json_headers in
  match set_non_streaming ag_ui_request with
  | Raise e => JStr (exception_message e)
  | Ok ag_ui_request' =>
      non_stream_result self
        (requests_post (AG_UI_ENDPOINT_URL (valves self)) ag_ui_request'
           headers)
  end.

(** [pipe]: a generator of chunks for a streamed request, a single value
    otherwise. *)
Inductive pipe_result : Type :=
| Chunks (chunks : list json)
| Value (v : json).

Definition pipe `{PyRuntime} (self : Pipe) (requests_post : endpoint)
  (body : dict) (g : uuid_source) : pipe_result * uuid_source :=
  match transform_openwebui_to_ag_ui self body g with
  | (Ok ag_ui_request, g') =>
      (if truthy (dict_get body "stream" (JBool true))
       then Chunks (stream_ag_ui_request self requests_post ag_ui_request)
       else Value (non_stream_ag_ui_request self requests_post ag_ui_request),
       g')
  | (Raise e, g') => (Value (JStr (exception_message e)), g')
  end.

(** ** Vocabulary of the statements *)

(** A field of a dict, [None] on anything else. *)
Definition field (k : string) (v : json) : option json :=
  match v with
  | JObj d => dict_lookup k d
  | _ => None
  end.

Definition forwarded_model (r : json) : option json :=
  field "forwardedProps" r ≫= field "model".

Definition original_params (r : json) : option json :=
  field "forwardedProps" r ≫= field "original_params".

Definition messages_of (r : json) : list json :=
  match field "messages" r with
  | Some (JList l) => l
  | _ => []
  end.

Definition message_ids (r : json) : list json :=
  map (fun m => default JNull (field "id" m)) (messages_of r).

(** The message whose role is "system". *)
Definition is_system (m : json) : bool :=
  match field "role" m with
  | Some role => eq_str role "system"
  | None => false
  end.

Definition has_role (m : json) : bool :=
  match field "role" m with
  | Some _ => true
  | None => false
  end.

(** A chat request as the host sends it: the messages, when given, are a
    list of dicts that each have a role, and the model, when given, is a
    string. *)
Definition well_formed_request (body : dict) : bool :=
  match dict_lookup "messages" body with
  | None => true
  | Some (JList msgs) => forallb has_role msgs
  | Some _ => false
  end
  &&
  match dict_lookup "model" body with
  | None | Some (JStr _) => true
  | Some _ => false
  end.

(** The resolved model of a request that names a string. *)
Definition resolved (self : Pipe) (s : string) : json :=
  match split_once "." s with
  | Some (_, model_id) =>
      dict_get (get_model_mapping self) model_id
        (JStr (DEFAULT_MODEL (valves self)))
  | None => dict_get (get_model_mapping self) s (JStr s)
  end.

(** The source after [k] draws. *)
Fixpoint advance (k : nat) (g : uuid_source) : uuid_source :=
  match k with
  | O => g
  | S k' => advance k' (fun n => g (S n))
  end.

(** What line 85-89 make of message [m] with the drawn identifier [u]. *)
Definition ag_ui_msg (u : string) (m : json) : json :=
  JObj [("id", JStr ("msg_" +:+ u));
        ("role", default (JStr "user") (field "role" m));
        ("content", default (JStr "") (field "content" m))].

(** What lines 77-81 make of the system message with the drawn
    identifier [u]. *)
Definition ag_ui_system_msg `{PyRuntime} (u : string) (system_message : json)
  : json :=
  JObj [("id", JStr ("msg_" +:+ u)); ("role", JStr "system");
        ("content", JStr (py_str system_message))].

(** The messages of the RunAgentInput, given what [pop_system_message]
    returned and the identifiers drawn. *)
Definition expected_messages `{PyRuntime} (g : uuid_source)
  (system_message : json) (others : list json) : list json :=
  if truthy system_message then
    ag_ui_system_msg (g 2%nat) system_message
    :: imap (fun i m => ag_ui_msg (g (3 + i)%nat) m) others
  else imap (fun i m => ag_ui_msg (g (2 + i)%nat) m) others.

(** The number of identifiers one call draws. *)
Definition draws `{PyRuntime} (system_message : json) (others : list json)
  : nat :=
  if truthy system_message then (3 + length others)%nat
  else (2 + length others)%nat.

(** An endpoint that answers every request the same way. *)
Definition always (outcome : post_outcome) : endpoint :=
  fun _ _ _ => outcome.

(** A response with status 200 and the given stream. *)
Definition streaming (body_text : string) (lines : list string)
  (failure : option transport_error) : Response :=
  {| status_code := 200; text := body_text; iter_lines := lines;
     stream_failure := failure |}.

(** The raw line [raw] is a data line whose payload parses to the object
    [event]. *)
Definition carries (raw : string) (event : dict) : Prop :=
  utf8_valid raw = true
  /\ startswith "data: " raw = true
  /\ json_loads (str_drop 6 raw) = Some (JObj event).

Definition event_type_is (event : dict) (kind : string) : Prop :=
  dict_lookup "type" event = Some (JStr kind).

(** The raw line [raw] carries an event of type [kind] with the given
    fields (and possibly others). *)
Definition event_line (raw kind : string) (fields : dict) : Prop :=
  exists event,
    carries raw event
    /\ event_type_is event kind
    /\ Forall (fun kv => dict_lookup (fst kv) event = Some (snd kv)) fields.

(** A response with status 422 and the given body. *)
Definition unprocessable (body_text : string) (lines : list string)
  (failure : option transport_error) : Response :=
  {| status_code := 422; text := body_text; iter_lines := lines;
     stream_failure := failure |}.

(** The list item [item] is a validation error with location [loc] and
    message [msg]. *)
Definition validation_item (item : json) (loc : list json) (msg : json)
  : Prop :=
  exists d,
    item = JObj d
    /\ dict_lookup "loc" d = Some (JList loc)
    /\ dict_lookup "msg" d = Some msg.

(** One validation error as the claim words it. *)
Definition rendered_error `{PyRuntime} (e : list json * json) : string :=
  str_join "." (map py_str (fst e)) +:+ ": " +:+ py_str (snd e).

(** A field that is absent or holds the empty string. *)
Definition absent_or_empty (k : string) (event : dict) : Prop :=
  dict_lookup k event = None \/ dict_lookup k event = Some (JStr "").

(** A request whose state is a dict, as [transform_openwebui_to_ag_ui]
    builds it. *)
Definition has_state (ag_ui_request : json) : Prop :=
  exists d st, ag_ui_request = JObj d /\ dict_lookup "state" d = Some (JObj st).

(** The event is one of the three kinds that relay a text field, and that
    field is absent or holds the empty string. *)
Definition nothing_to_relay (event : dict) : Prop :=
  ((event_type_is event "TEXT_MESSAGE_CONTENT"
    \/ event_type_is event "TOOL_CALL_ARGS")
   /\ absent_or_empty "delta" event)
  \/ (event_type_is event "TOOL_CALL_RESULT"
      /\ absent_or_empty "content" event).

(** The block a tool result is shown in. *)
Definition tool_result_block (content : string) : string :=
  "**📋 Tool result:**" +:+ newline +:+ "```" +:+ newline +:+ content
  +:+ newline +:+ "```" +:+ newline +:+ newline.

(** Message [out] of the RunAgentInput renders message [m] of the request:
    same role, same content (the empty string when [m] has none). *)
Definition renders (out m : json) : Prop :=
  field "role" out = field "role" m
  /\ field "content" out = Some (default (JStr "") (field "content" m)).

Definition sampling_parameters : list string :=
  ["temperature"; "top_p"; "top_k"; "stop"; "stream"; "max_tokens"].

(** The example request transcoded with the example source, and transcoded
    once more with what the first run left of the source. *)
Definition example_run : json :=
  Eval vm_compute in
    match fst (transform_openwebui_to_ag_ui (H := example_runtime)
                 (Pipe_init (fun _ => None)) example_body example_source)
    with
    | Ok r => r
    | Raise _ => JNull
    end.

Definition example_rerun : json :=
  Eval vm_compute in
    match fst (transform_openwebui_to_ag_ui (H := example_runtime)
                 (Pipe_init (fun _ => None)) example_body
                 (advance 5 example_source))
    with
    | Ok r => r
    | Raise _ => JNull
    end.

(** Lines of an event stream to run examples with. *)
Definition wire_run_started : string :=
  q "data: {'type':'RUN_STARTED','threadId':'t1','runId':'r1'}".
Definition wire_message_start : string :=
  q "data: {'type':'TEXT_MESSAGE_START','messageId':'m1','role':'assistant'}".
Definition wire_hi : string :=
  q "data: {'type':'TEXT_MESSAGE_CONTENT','messageId':'m1','delta':'Hi'}".
Definition wire_there : string :=
  q "data: {'type': 'TEXT_MESSAGE_CONTENT', 'messageId': 'm1', 'delta': ' there'}".
Definition wire_message_end : string :=
  q "data: {'type':'TEXT_MESSAGE_END','messageId':'m1'}".
Definition wire_run_finished : string :=
  q "data: {'type':'RUN_FINISHED','threadId':'t1','runId':'r1'}".
Definition wire_truncated : string :=
  q "data: {'type':'TEXT_MESSAGE_CONTENT','messageId':'m1','del".
Definition wire_empty_delta : string :=
  q "data: {'type':'TEXT_MESSAGE_CONTENT','messageId':'m1','delta':''}".
Definition wire_tool_start : string :=
  q "data: {'type':'TOOL_CALL_START','toolCallId':'c1','toolCallName':'calculate'}".
Definition wire_tool_args : string :=
  q "data: {'type':'TOOL_CALL_ARGS','toolCallId':'c1','delta':'{\'expression\': \'6*7\'}'}".
Definition wire_tool_end : string :=
  q "data: {'type':'TOOL_CALL_END','toolCallId':'c1'}".
Definition wire_tool_result : string :=
  q "data: {'type':'TOOL_CALL_RESULT','toolCallId':'c1','content':'42'}".
Definition wire_run_error : string :=
  q "data: {'type':'RUN_ERROR','message':'boom'}".

Definition example_pipe : Pipe := Pipe_init (fun _ => None).

(** Deciding [carries] and [event_line] on concrete lines. *)
Ltac solve_carries :=
  split; [vm_compute; reflexivity|];
  split; vm_compute; reflexivity.

Ltac solve_event_line :=
  eexists; split; [solve_carries|];
  split; [reflexivity | repeat constructor].

(** ** The game agent

    [src/pydantic_ai_agent/main.py]: the state of the math game and the
    tools that change it.  A tool receives the state through its run
    context and mutates it in place; here it returns what it returns
    together with the state it leaves. *)

Record GameState := {
  score : Z;
  problems_solved : Z;
  current_streak : Z;
  best_streak : Z;
  player_name : string
}.

(** [GameState()] *)
Definition GameState_default : GameState :=
  {| score := 0; problems_solved := 0; current_streak := 0; best_streak := 0;
     player_name := "Player" |}.

(** [state.model_dump()] *)
Definition model_dump (state : GameState) : json :=
  JObj [("score", JInt (score state));
        ("problems_solved", JInt (problems_solved state));
        ("current_streak", JInt (current_streak state));
        ("best_streak", JInt (best_streak state));
        ("player_name", JStr (player_name state))].

Definition get_game_state (state : GameState) : json * GameState :=
  (model_dump state, state).

Definition update_score (state : GameState) (points_earned : Z)
  (problem_correct : bool) : string * GameState :=
  if problem_correct then
    let state1 :=
      {| score := score state + points_earned;
         problems_solved := problems_solved state + 1;
         current_streak := current_streak state + 1;
         best_streak := best_streak state;
         player_name := player_name state |}%Z in
    let state2 :=
      if (best_streak state1 <? current_streak state1)%Z then
        {| score := score state1;
           problems_solved := problems_solved state1;
           current_streak := current_streak state1;
           best_streak := current_streak state1;
           player_name := player_name state1 |}
      else state1 in
    ("Great job! You earned " +:+ pretty points_earned
     +:+ " points. Current score: " +:+ pretty (score state2)
     +:+ ", Streak: " +:+ pretty (current_streak state2),
     state2)
  else
    let state1 :=
      {| score := score state;
         problems_solved := problems_solved state;
         current_streak := 0;
         best_streak := best_streak state;
         player_name := player_name state |} in
    ("Oops! Your streak was reset. Current score: "
     +:+ pretty (score state1) +:+ ", Problems solved: "
     +:+ pretty (problems_solved state1),
     state1).

Definition set_player_name (state : GameState) (new_name : string)
  : string * GameState :=
  ("Welcome to the math game, " +:+ new_name +:+ "! 🎉",
   {| score := score state;
      problems_solved := problems_solved state;
      current_streak := current_streak state;
      best_streak := best_streak state;
      player_name := new_name |}).

Definition reset_game (state : GameState) : string * GameState :=
  let old_best := best_streak state in
  let state1 :=
    {| score := 0;
       problems_solved := 0;
       current_streak := 0;
       best_streak := best_streak state;
       player_name := player_name state |} in
  ("Game reset! Your best streak of " +:+ pretty old_best
   +:+ " is still saved. Let's play again, " +:+ player_name state1 +:+ "!",
   state1).

(** The agent runtime calls the tools in whatever order the language model
    asks for; a [tool_call] is one such call with its arguments. *)
Inductive tool_call : Type :=
| Call_get_game_state
| Call_update_score (points_earned : Z) (problem_correct : bool)
| Call_set_player_name (new_name : string)
| Call_reset_game.

Definition run_tool (state : GameState) (call : tool_call) : GameState :=
  match call with
  | Call_get_game_state => snd (get_game_state state)
  | Call_update_score points_earned problem_correct =>
      snd (update_score state points_earned problem_correct)
  | Call_set_player_name new_name => snd (set_player_name state new_name)
  | Call_reset_game => snd (reset_game state)
  end.

Definition run_tools (state : GameState) (calls : list tool_call)
  : GameState :=
  fold_left run_tool calls state.

(** The number of correct answers among the calls since the last reset. *)
Fixpoint solved_since_reset (calls : list tool_call) (acc : Z) : Z :=
  match calls with
  | [] => acc
  | Call_update_score _ true :: rest => solved_since_reset rest (acc + 1)%Z
  | Call_reset_game :: rest => solved_since_reset rest 0%Z
  | _ :: rest => solved_since_reset rest acc
  end.

(** The points of the correct answers among the calls since the last
    reset. *)
Fixpoint score_since_reset (calls : list tool_call) (acc : Z) : Z :=
  match calls with
  | [] => acc
  | Call_update_score points_earned true :: rest =>
      score_since_reset rest (acc + points_earned)%Z
  | Call_reset_game :: rest => score_since_reset rest 0%Z
  | _ :: rest => score_since_reset rest acc
  end.

(** The name the last [set_player_name] among the calls gave. *)
Fixpoint last_name (calls : list tool_call) (acc : string) : string :=
  match calls with
  | [] => acc
  | Call_set_player_name new_name :: rest => last_name rest new_name
  | _ :: rest => last_name rest acc
  end.

(** What the streak counters of a game satisfy. *)
Definition streaks_consistent (state : GameState) : Prop :=
  (0 <= current_streak state)%Z
  /\ (current_streak state <= best_streak state)%Z
  /\ (current_streak state <= problems_solved state)%Z.

(** ** More vocabulary *)

(** The ten event types the stream loop knows. *)
Definition known_event_types : list string :=
  ["TEXT_MESSAGE_CONTENT"; "TEXT_MESSAGE_START"; "TEXT_MESSAGE_END";
   "RUN_STARTED"; "RUN_FINISHED"; "RUN_ERROR"; "TOOL_CALL_START";
   "TOOL_CALL_ARGS"; "TOOL_CALL_END"; "TOOL_CALL_RESULT"].

(** The raw line [raw] is a data line whose payload parses to [v]. *)
Definition carries_value (raw : string) (v : json) : Prop :=
  utf8_valid raw = true
  /\ startswith "data: " raw = true
  /\ json_loads (str_drop 6 raw) = Some v.

Definition is_object (v : json) : bool :=
  match v with
  | JObj _ => true
  | _ => false
  end.

Definition is_string (v : json) : bool :=
  match v with
  | JStr _ => true
  | _ => false
  end.

(** The chunks a line yields. *)
Definition step_chunks (s : step) : list json :=
  match s with
  | Continue cs | Break cs => cs
  | Throw _ => []
  end.

(** A value the [for] statement cannot iterate over. *)
Definition not_iterable (v : json) : bool :=
  match v with
  | JNull | JBool _ | JInt _ | JFloat _ => true
  | _ => false
  end.

(** One validation error as lines 195-197 render it, with the defaults for
    a missing loc and a missing msg. *)
Definition rendered_item `{PyRuntime} (loc : list json) (item : dict)
  : string :=
  str_join "." (map py_str loc) +:+ ": "
  +:+ py_str (dict_get item "msg" (JStr "Unknown error")).

(** The list item [item] is a dict whose loc, when it has one, is the list
    [loc] (and [loc] is empty when it has none). *)
Definition item_with_loc (item : json) (d : dict) (loc : list json) : Prop :=
  item = JObj d /\ dict_get d "loc" (JList []) = JList loc.

(** * Sanity checks

    The runtime fragment and the three functions evaluated on small
    inputs. *)

Example utf8_chars_ex :
  utf8_chars "a€b" = ["a"; "€"; "b"].
Proof. reflexivity. Qed.

Example py_repr_ex :
  @py_repr example_runtime
    (JObj [("role", JStr "system"); ("n", JList [JInt (-3); JNull; JBool true])])
  = "{'role': 'system', 'n': [-3, None, True]}".
Proof. reflexivity. Qed.

Example utf8_valid_ex :
  map utf8_valid ["data: {}"; "€"; "🔧"; chr 255; chr 192 +:+ chr 128;
                  chr 237 +:+ chr 160 +:+ chr 128; chr 226 +:+ chr 130]
  = [true; true; true; false; false; false; false].
Proof. vm_compute. reflexivity. Qed.

Example codepoint_ex :
  map codepoint ["A"; "€"; "🔧"] = [65; 8364; 128295]%N
  /\ map utf8_encode [65; 8364; 128295]%N = ["A"; "€"; "🔧"].
Proof. vm_compute. split; reflexivity. Qed.

Example json_loads_ex1 :
  json_loads (q "{'type':'TEXT_MESSAGE_CONTENT', 'delta' : 'Hi', 'n':[1,-2.5e3,true,null,{}], 'delta':'x'}")
  = Some (JObj [("type", JStr "TEXT_MESSAGE_CONTENT"); ("delta", JStr "x");
                ("n", JList [JInt 1; JFloat "-2.5e3"; JBool true; JNull; JObj []])]).
Proof. vm_compute. reflexivity. Qed.

Example json_loads_ex2 :
  map json_loads [""; "{"; "[1,]"; "01"; q "{'a':1,}"; "nul"; q "'a"; "1 2"; "-"; q "'\x'"; "{'a':1}"]
  = [None; None; None; None; None; None; None; None; None; None; None].
Proof. vm_compute. reflexivity. Qed.

Example json_loads_limited_ex :
  let limits := {| nesting_limit := 2; int_max_str_digits := 3 |} in
  map (json_loads_limited limits)
    ["[[1"; "[[[1"; "[{}]"; "[[{}]]"; "-123"; "1234"; "1234.5"; "[1234"; "[12,"]
  = [Rejected; OverLimit RecursionError; Decoded (JList [JObj []]);
     OverLimit RecursionError; Decoded (JInt (-123)); OverLimit ValueError;
     Decoded (JFloat "1234.5"); OverLimit ValueError; Rejected]
  /\ map json_loads ["[[[1"; "[[{}]]"; "1234"; "[1234"]
     = [None; Some (JList [JList [JObj []]]); Some (JInt 1234); None].
Proof. vm_compute. split; reflexivity. Qed.

Example json_loads_ex3 :
  map json_loads [" 12 "; "-0"; "1.5"; "1e5"; "NaN"; "-Infinity"; q "'€🔧\n\/'"; "[]"; "[ [ ] , 0 ]"]
  = [Some (JInt 12); Some (JInt 0); Some (JFloat "1.5"); Some (JFloat "1e5");
     Some (JFloat "NaN"); Some (JFloat "-Infinity");
     Some (JStr ("€🔧" +:+ newline +:+ "/")); Some (JList []);
     Some (JList [JList []; JInt 0])].
Proof. vm_compute. reflexivity. Qed.

Example json_dumps_ex1 :
  @json_dumps example_runtime (Some 2)
    (JObj [("foo", JStr "bar"); ("l", JList [JInt 1; JList []; JObj [("k", JNull)]])])
  = q "{
  'foo': 'bar',
  'l': [
    1,
    [],
    {
      'k': null
    }
  ]
}".
Proof. vm_compute. reflexivity. Qed.

Example json_dumps_ex2 :
  @json_dumps example_runtime None
    (JObj [("a", JStr ("é🔧" +:+ dquote +:+ newline)); ("b", JList [JBool true; JFloat "0.8"])])
  = q "{'a': '\u00e9\ud83d\udd27\'\n', 'b': [true, 0.8]}".
Proof. vm_compute. reflexivity. Qed.

Example transform_ex :
  fst (@transform_openwebui_to_ag_ui example_runtime (Pipe_init (fun _ => None))
         example_body example_source)
  = Ok (JObj
      [("threadId", JStr "openwebui_0");
       ("runId", JStr "run_1");
       ("state", JObj []);
       ("messages",
        JList
          [JObj [("id", JStr "msg_2"); ("role", JStr "system");
                 ("content", JStr "{'role': 'system', 'content': 'Be brief.'}")];
           JObj [("id", JStr "msg_3"); ("role", JStr "user");
                 ("content", JStr "Hello!")];
           JObj [("id", JStr "msg_4"); ("role", JStr "assistant");
                 ("content", JStr "ok")]]);
       ("tools", JList []);
       ("context",
        JList
          [JObj
             [("description", JStr "OpenWebUI request metadata");
              ("value",
               JStr (q "{'original_model': 'aguimiddleware.openaigpt4omini', 'requested_model': 'agui-agent', 'user_preferences': {}, 'source': 'openwebui_pipe', 'temperature': 0.8, 'max_tokens': 1000, 'stream': true}"))]]);
       ("forwardedProps",
        JObj
          [("openwebui_request", JBool true);
           ("model", JStr "agui-agent");
           ("original_params",
            JObj
              [("temperature", JFloat "0.8");
               ("top_p", JFloat "0.9");
               ("top_k", JNull);
               ("stop", JNull);
               ("stream", JBool true);
               ("max_tokens", JInt 1000)])])]).
Proof. vm_compute. reflexivity. Qed.

Example stream_tool_call_ex :
  stream_ag_ui_request (H := example_runtime) example_pipe
    (always
       (Responded
          (streaming ""
             [wire_run_started; ""; wire_tool_start; ""; wire_tool_args;
              wire_tool_end; wire_tool_result; ": keep-alive"; wire_hi;
              wire_run_error; wire_there]
             None)))
    example_run
  = [JStr (newline +:+ "**🔧 Calling tool: `calculate`**" +:+ newline);
     JStr (q "{'expression': '6*7'}");
     JStr newline;
     JStr ("**📋 Tool result:**" +:+ newline +:+ "```" +:+ newline +:+ "42"
           +:+ newline +:+ "```" +:+ newline +:+ newline);
     JStr "Hi";
     JStr "Error from AG-UI endpoint: boom"].
Proof. vm_compute. reflexivity. Qed.

Example stream_failures_ex :
  stream_ag_ui_request (H := example_runtime) example_pipe
    (always (Responded (streaming "" [wire_hi; "data: 5"; wire_there] None)))
    example_run
  = [JStr "Hi"; JStr "Error: AttributeError"]
  /\ stream_ag_ui_request (H := example_runtime) example_pipe
       (always (Responded (streaming "" [wire_hi; chr 255; wire_there] None)))
       example_run
     = [JStr "Hi"; JStr "Error: UnicodeDecodeError"]
  /\ stream_ag_ui_request (H := example_runtime) example_pipe
       (always (Responded (streaming "" [wire_hi] (Some ConnectionError))))
       example_run
     = [JStr "Hi";
        JStr "Error: Failed to connect to AG-UI endpoint at http://host.docker.internal:8000. Please check if the AG-UI endpoint is running."]
  /\ stream_ag_ui_request (H := example_runtime) example_pipe
       (always
          (Responded
             {| status_code := 500; text := "Internal Server Error";
                iter_lines := []; stream_failure := None |}))
       example_run
     = [JStr "Error: AG-UI endpoint returned 500: Internal Server Error"].
Proof. vm_compute. repeat split; reflexivity. Qed.

Example non_stream_ex :
  map (fun body_text =>
         non_stream_ag_ui_request (H := example_runtime) example_pipe
           (always (Responded (streaming body_text [] None))) example_run)
      [q "{'content': 'answer', 'message': 'other'}"; q "{'result': 42}";
       q "{'content': null}"; q "[1, 2]"; "oops"]
  = [JStr "answer"; JStr "42"; JNull; JStr "[1, 2]";
     JStr "Error: Failed to connect to AG-UI endpoint: JSONDecodeError"]
  /\ non_stream_ag_ui_request (H := example_runtime) example_pipe
       (always (Responded (streaming (q "{'content': 'answer'}") [] None)))
       (JObj [])
     = JStr "Error: KeyError".
Proof. vm_compute. split; reflexivity. Qed.

(** * The decoder never runs out of fuel

    [scanstring] and [scan_once] recurse on a counter.  The counters
    [json_loads] starts them with are never exhausted: a larger counter
    gives the same answer, so [None] always stands for a document the
    grammar rejects. *)

Section Decoder.

Lemma skip_ws_length s : (String.length (skip_ws s) <= String.length s)%nat.
Proof.
  induction s as [|a s IH]; simpl; [lia|].
  destruct (is_ws a); simpl; lia.
Qed.

Lemma str_drop_length n : forall s,
  String.length (str_drop n s) = (String.length s - n)%nat.
Proof.
  induction n as [|n IH]; intros [|a s]; simpl; auto with arith.
Qed.

Lemma startswith_length p : forall s,
  startswith p s = true -> (String.length p <= String.length s)%nat.
Proof.
  unfold startswith.
  induction p as [|a p IH]; intros [|b s]; simpl; try lia; try discriminate.
  destruct (ascii_dec a b); [|discriminate].
  intros Hp. apply IH in Hp. lia.
Qed.

Lemma take_digits_length s :
  (String.length (snd (take_digits s)) <= String.length s)%nat.
Proof.
  induction s as [|a s IH]; simpl; [lia|].
  destruct (is_digit a); simpl; [|lia].
  destruct (take_digits s); simpl in *; lia.
Qed.

Lemma hex4_length s n r :
  hex4 s = Some (n, r) -> String.length s = (4 + String.length r)%nat.
Proof.
  unfold hex4. destruct s as [|a [|b [|c [|d s]]]]; try discriminate.
  destruct (hex_value a), (hex_value b), (hex_value c), (hex_value d);
    try discriminate.
  now intros [= _ <-].
Qed.

Lemma unicode_escape_length hi r :
  (String.length (snd (unicode_escape hi r)) <= String.length r)%nat.
Proof.
  unfold unicode_escape.
  destruct ((55296 <=? hi)%N && (hi <=? 56319)%N); [|simpl; lia].
  destruct r as [|b [|u r']]; try (simpl; lia).
  destruct (Ascii.eqb b "\" && Ascii.eqb u "u"); [|simpl; lia].
  destruct (hex4 r') as [[lo r'']|] eqn:Hhex; [|simpl; lia].
  apply hex4_length in Hhex.
  destruct ((56320 <=? lo)%N && (lo <=? 57343)%N); simpl in *; lia.
Qed.

Lemma scanstring_rest f : forall s t r,
  scanstring f s = Some (t, r) -> (String.length r < String.length s)%nat.
Proof.
  induction f as [|f IH]; intros s t r Hscan; cbn [scanstring] in Hscan;
    [discriminate|].
  destruct s as [|a s']; [discriminate|].
  destruct (Ascii.eqb a "034").
  { injection Hscan as _ <-. simpl. lia. }
  destruct (Ascii.eqb a "\").
  { destruct s' as [|e s'']; [discriminate|].
    destruct (Ascii.eqb e "u").
    - destruct (hex4 s'') as [[hi r0]|] eqn:Hhex; [|discriminate].
      pose proof (unicode_escape_length hi r0) as Hlen.
      destruct (unicode_escape hi r0) as [cp r'].
      destruct (scanstring f r') as [[text rest]|] eqn:Hrest; [|discriminate].
      injection Hscan as _ <-. apply IH in Hrest. apply hex4_length in Hhex.
      simpl in *. lia.
    - destruct (simple_escape e); [|discriminate].
      destruct (scanstring f s'') as [[text rest]|] eqn:Hrest; [|discriminate].
      injection Hscan as _ <-. apply IH in Hrest. simpl. lia. }
  destruct (byte_in 0 31 a); [discriminate|].
  destruct (scanstring f s') as [[text rest]|] eqn:Hrest; [|discriminate].
  injection Hscan as _ <-. apply IH in Hrest. simpl. lia.
Qed.

Lemma scanstring_fuel f : forall s k,
  (String.length s < f)%nat -> scanstring (k + f) s = scanstring f s.
Proof.
  induction f as [|f IH]; intros s k Hf; [lia|].
  rewrite Nat.add_succ_r. cbn [scanstring].
  destruct s as [|a s']; [reflexivity|]. simpl in Hf.
  destruct (Ascii.eqb a "034"); [reflexivity|].
  destruct (Ascii.eqb a "\").
  { destruct s' as [|e s'']; [reflexivity|]. simpl in Hf.
    destruct (Ascii.eqb e "u").
    - destruct (hex4 s'') as [[hi r0]|] eqn:Hhex; [|reflexivity].
      pose proof (unicode_escape_length hi r0) as Hlen.
      destruct (unicode_escape hi r0) as [cp r'].
      apply hex4_length in Hhex. simpl in Hlen.
      rewrite IH by lia. reflexivity.
    - destruct (simple_escape e); [|reflexivity].
      rewrite IH by lia. reflexivity. }
  destruct (byte_in 0 31 a); [reflexivity|].
  rewrite IH by lia. reflexivity.
Qed.

Lemma number_sign_length s :
  (String.length (snd (number_sign s)) <= String.length s)%nat.
Proof.
  unfold number_sign. destruct s as [|a r]; simpl; [lia|].
  destruct (Ascii.eqb a "-"); simpl; lia.
Qed.

Lemma number_int_length s ip r :
  number_int s = Some (ip, r) -> (String.length r < String.length s)%nat.
Proof.
  unfold number_int. destruct s as [|a s']; [discriminate|].
  destruct (Ascii.eqb a "0"); [intros [= _ <-]; simpl; lia|].
  destruct (is_digit a); [|discriminate].
  pose proof (take_digits_length s') as Hlen.
  destruct (take_digits s') as [ds r']. intros [= _ <-]. simpl in *. lia.
Qed.

Lemma number_frac_length s :
  (String.length (snd (number_frac s)) <= String.length s)%nat.
Proof.
  unfold number_frac. destruct s as [|a r]; simpl; [lia|].
  destruct (Ascii.eqb a "."); simpl; [|lia].
  pose proof (take_digits_length r) as Hlen.
  destruct (take_digits r) as [[|d ds] r']; simpl in *; lia.
Qed.

Lemma number_exp_length s :
  (String.length (snd (number_exp s)) <= String.length s)%nat.
Proof.
  unfold number_exp. destruct s as [|a r]; simpl; [lia|].
  destruct (Ascii.eqb a "e" || Ascii.eqb a "E"); simpl; [|lia].
  destruct r as [|b r'].
  - simpl. lia.
  - destruct (Ascii.eqb b "-" || Ascii.eqb b "+").
    + pose proof (take_digits_length r') as Hlen.
      destruct (take_digits r') as [[|d ds] r'']; simpl in *; lia.
    + pose proof (take_digits_length (String b r')) as Hlen.
      destruct (take_digits (String b r')) as [[|d ds] r'']; simpl in *; lia.
Qed.

Lemma match_number_rest s v r :
  match_number s = Some (v, r) -> (String.length r < String.length s)%nat.
Proof.
  unfold match_number.
  pose proof (number_sign_length s) as Hsign.
  destruct (number_sign s) as [sign s1].
  destruct (number_int s1) as [[ip s2]|] eqn:Hint; [|discriminate].
  apply number_int_length in Hint.
  pose proof (number_frac_length s2) as Hfrac.
  destruct (number_frac s2) as [frac s3].
  pose proof (number_exp_length s3) as Hexp.
  destruct (number_exp s3) as [expo s4]. simpl in *.
  destruct frac, expo; intros [= _ <-]; lia.
Qed.

Lemma expect_length c s r :
  expect c s = Some r -> String.length s = S (String.length r).
Proof.
  unfold expect. destruct s as [|a s']; [discriminate|].
  destruct (Ascii.eqb a c); [|discriminate]. now intros [= <-].
Qed.

(** With at least twice the length of the input (plus one, or plus two
    inside a container) the three mutually recursive scanners give the
    answer every larger counter gives, and they consume input. *)
Lemma scan_fuel f :
  (forall s,
      (2 * String.length s + 1 <= f)%nat ->
      (forall k, scan_once (k + f) s = scan_once f s)
      /\ (forall v r, scan_once f s = Some (v, r) ->
                     (String.length r < String.length s)%nat))
  /\ (forall s,
        (2 * String.length s + 2 <= f)%nat ->
        (forall k, parse_items (k + f) s = parse_items f s)
        /\ (forall l r, parse_items f s = Some (l, r) ->
                       (String.length r < String.length s)%nat))
  /\ (forall s acc,
        (2 * String.length s + 2 <= f)%nat ->
        (forall k, parse_members (k + f) acc s = parse_members f acc s)
        /\ (forall d r, parse_members f acc s = Some (d, r) ->
                       (String.length r < String.length s)%nat)).
Proof.
  induction f as [|f (IHs & IHi & IHm)].
  { repeat split; intros; lia. }
  split; [|split].
  - (* scan_once *)
    intros s Hf. split.
    + intros k. rewrite Nat.add_succ_r. cbn [scan_once].
      destruct s as [|a r]; [reflexivity|]. cbn [String.length] in Hf.
      destruct (Ascii.eqb a "034"); [reflexivity|].
      destruct (Ascii.eqb a "{").
      { pose proof (skip_ws_length r) as Hws.
        destruct (skip_ws r) as [|b r']; [reflexivity|].
        destruct (Ascii.eqb b "}"); [reflexivity|].
        rewrite (proj1 (IHm (String b r') [] ltac:(lia)) k). reflexivity. }
      destruct (Ascii.eqb a "[").
      { pose proof (skip_ws_length r) as Hws.
        destruct (skip_ws r) as [|b r']; [reflexivity|].
        destruct (Ascii.eqb b "]"); [reflexivity|].
        rewrite (proj1 (IHi (String b r') ltac:(lia)) k). reflexivity. }
      reflexivity.
    + intros v r0. cbn [scan_once].
      destruct s as [|a r]; [discriminate|]. cbn [String.length] in Hf.
      destruct (Ascii.eqb a "034").
      { destruct (scanstring _ r) as [[text rest]|] eqn:Hstr; [|discriminate].
        intros [= _ <-]. apply scanstring_rest in Hstr. simpl. lia. }
      destruct (Ascii.eqb a "{").
      { pose proof (skip_ws_length r) as Hws.
        destruct (skip_ws r) as [|b r']; [discriminate|].
        destruct (Ascii.eqb b "}"); [intros [= _ <-]; simpl in *; lia|].
        destruct (parse_members f [] (String b r')) as [[d rest]|] eqn:Hm;
          [|discriminate].
        intros [= _ <-].
        apply (proj2 (IHm (String b r') [] ltac:(lia))) in Hm.
        simpl in *. lia. }
      destruct (Ascii.eqb a "[").
      { pose proof (skip_ws_length r) as Hws.
        destruct (skip_ws r) as [|b r']; [discriminate|].
        destruct (Ascii.eqb b "]"); [intros [= _ <-]; simpl in *; lia|].
        destruct (parse_items f (String b r')) as [[l rest]|] eqn:Hi;
          [|discriminate].
        intros [= _ <-].
        apply (proj2 (IHi (String b r') ltac:(lia))) in Hi.
        simpl in *. lia. }
      repeat match goal with
             | |- (if startswith ?p ?t then _ else _) = _ -> _ =>
                 destruct (startswith p t)
             | |- Some (_, str_drop ?n ?t) = Some (_, ?x) -> _ =>
                 let Heq := fresh in
                 intros Heq; replace x with (str_drop n t) by congruence;
                 rewrite str_drop_length; simpl; lia
             end.
      apply match_number_rest.
  - (* parse_items *)
    intros s Hf.
    assert (Hstep : forall v rest,
               scan_once f s = Some (v, rest) ->
               forall a r, skip_ws rest = String a r ->
               (2 * String.length (skip_ws r) + 2 <= f)%nat
               /\ (String.length r < String.length s)%nat).
    { intros v rest Hv a r Hws.
      apply (proj2 (IHs s ltac:(lia))) in Hv.
      pose proof (skip_ws_length rest) as H1. rewrite Hws in H1.
      pose proof (skip_ws_length r) as H2. simpl in H1. lia. }
    split.
    + intros k. rewrite Nat.add_succ_r. cbn [parse_items].
      rewrite (proj1 (IHs s ltac:(lia)) k).
      destruct (scan_once f s) as [[v rest]|] eqn:Hv; [|reflexivity].
      destruct (skip_ws rest) as [|a r] eqn:Hws; [reflexivity|].
      destruct (Ascii.eqb a "]"); [reflexivity|].
      destruct (Ascii.eqb a ","); [|reflexivity].
      destruct (Hstep _ _ eq_refl _ _ Hws) as [Hb _].
      rewrite (proj1 (IHi (skip_ws r) Hb) k). reflexivity.
    + intros l r0. cbn [parse_items].
      destruct (scan_once f s) as [[v rest]|] eqn:Hv; [|discriminate].
      destruct (skip_ws rest) as [|a r] eqn:Hws; [discriminate|].
      destruct (Hstep _ _ eq_refl _ _ Hws) as [Hb Hr].
      destruct (Ascii.eqb a "]"); [intros [= _ <-]; lia|].
      destruct (Ascii.eqb a ","); [|discriminate].
      destruct (parse_items f (skip_ws r)) as [[l' rest']|] eqn:Hi;
        [|discriminate].
      intros [= _ <-]. apply (proj2 (IHi (skip_ws r) Hb)) in Hi.
      pose proof (skip_ws_length r). lia.
  - (* parse_members *)
    intros s acc Hf.
    assert (Hkey : forall r key r1 r2,
               expect "034" s = Some r ->
               scanstring (String.length s) r = Some (key, r1) ->
               expect ":" (skip_ws r1) = Some r2 ->
               (2 * String.length (skip_ws r2) + 1 <= f)%nat
               /\ (String.length (skip_ws r2) + 3 <= String.length s)%nat).
    { intros r key r1 r2 He Hk Hc.
      apply expect_length in He. apply scanstring_rest in Hk.
      apply expect_length in Hc.
      pose proof (skip_ws_length r1). pose proof (skip_ws_length r2). lia. }
    split.
    + intros k. rewrite Nat.add_succ_r. cbn [parse_members].
      destruct (expect "034" s) as [r|] eqn:He; [|reflexivity].
      destruct (scanstring _ r) as [[key r1]|] eqn:Hk; [|reflexivity].
      destruct (expect ":" (skip_ws r1)) as [r2|] eqn:Hc; [|reflexivity].
      destruct (Hkey _ _ _ _ eq_refl Hk Hc) as [Hb Hlen].
      rewrite (proj1 (IHs (skip_ws r2) Hb) k).
      destruct (scan_once f (skip_ws r2)) as [[v rest]|] eqn:Hv;
        [|reflexivity].
      apply (proj2 (IHs (skip_ws r2) Hb)) in Hv.
      pose proof (skip_ws_length rest) as Hws.
      destruct (skip_ws rest) as [|a r3]; [reflexivity|].
      destruct (Ascii.eqb a "}"); [reflexivity|].
      destruct (Ascii.eqb a ","); [|reflexivity].
      pose proof (skip_ws_length r3). simpl in Hws.
      rewrite (proj1 (IHm (skip_ws r3) _ ltac:(lia)) k). reflexivity.
    + intros d r0. cbn [parse_members].
      destruct (expect "034" s) as [r|] eqn:He; [|discriminate].
      destruct (scanstring _ r) as [[key r1]|] eqn:Hk; [|discriminate].
      destruct (expect ":" (skip_ws r1)) as [r2|] eqn:Hc; [|discriminate].
      destruct (Hkey _ _ _ _ eq_refl Hk Hc) as [Hb Hlen].
      destruct (scan_once f (skip_ws r2)) as [[v rest]|] eqn:Hv;
        [|discriminate].
      apply (proj2 (IHs (skip_ws r2) Hb)) in Hv.
      pose proof (skip_ws_length rest) as Hws.
      destruct (skip_ws rest) as [|a r3]; [discriminate|].
      destruct (Ascii.eqb a "}"); [intros [= _ <-]; simpl in *; lia|].
      destruct (Ascii.eqb a ","); [|discriminate].
      pose proof (skip_ws_length r3). simpl in Hws.
      intros Hm. apply (proj2 (IHm (skip_ws r3) _ ltac:(lia))) in Hm. lia.
Qed.

(** The counter [json_loads] starts [scan_once] with is enough. *)
Lemma json_loads_fuel s k :
  scan_once (k + (2 * String.length s + 2)) (skip_ws s)
  = scan_once (2 * String.length s + 2) (skip_ws s).
Proof.
  apply (proj1 (scan_fuel (2 * String.length s + 2))).
  pose proof (skip_ws_length s). lia.
Qed.

(** ** The decoder within limits

    Where the decoder within limits gives a value or rejects the text, the
    decoder without limits does the same. *)
Lemma match_number_limited_agrees limits s :
  agrees (match_number_limited limits s) (match_number s).
Proof.
  unfold match_number_limited.
  destruct (match_number s) as [[[] rest]|]; try reflexivity.
  destruct (_ && _); reflexivity.
Qed.

Lemma scan_limited_agrees limits fuel :
  (forall depth s,
      agrees (scan_once_limited limits fuel depth s) (scan_once fuel s))
  /\ (forall depth s,
        agrees (parse_items_limited limits fuel depth s) (parse_items fuel s))
  /\ (forall depth acc s,
        agrees (parse_members_limited limits fuel depth acc s)
               (parse_members fuel acc s)).
Proof.
  induction fuel as [|fuel (IHs & IHi & IHm)].
  { repeat split; reflexivity. }
  split; [|split].
  - intros depth s. cbn [scan_once scan_once_limited].
    destruct s as [|a r]; [reflexivity|].
    destruct (Ascii.eqb a "034").
    { destruct (scanstring _ r) as [[text rest]|]; reflexivity. }
    destruct (Ascii.eqb a "{").
    { destruct depth as [|depth]; [exact I|].
      destruct (skip_ws r) as [|b r']; [reflexivity|].
      destruct (Ascii.eqb b "}"); [reflexivity|].
      specialize (IHm depth [] (String b r')).
      destruct (parse_members_limited _ _ _ _ _) as [[d rest]| |e];
        cbn [agrees] in *; [now rewrite IHm | now rewrite IHm | exact I]. }
    destruct (Ascii.eqb a "[").
    { destruct depth as [|depth]; [exact I|].
      destruct (skip_ws r) as [|b r']; [reflexivity|].
      destruct (Ascii.eqb b "]"); [reflexivity|].
      specialize (IHi depth (String b r')).
      destruct (parse_items_limited _ _ _ _) as [[l rest]| |e];
        cbn [agrees] in *; [now rewrite IHi | now rewrite IHi | exact I]. }
    repeat match goal with
           | |- context [if startswith ?p ?t then _ else _] =>
               destruct (startswith p t); [reflexivity|]
           end.
    apply match_number_limited_agrees.
  - intros depth s. cbn [parse_items parse_items_limited].
    specialize (IHs depth s).
    destruct (scan_once_limited _ _ _ s) as [[v rest]| |e];
      cbn [agrees] in *; [|now rewrite IHs | exact I].
    rewrite IHs.
    destruct (skip_ws rest) as [|a r]; [reflexivity|].
    destruct (Ascii.eqb a "]"); [reflexivity|].
    destruct (Ascii.eqb a ","); [|reflexivity].
    specialize (IHi depth (skip_ws r)).
    destruct (parse_items_limited _ _ _ _) as [[l rest']| |e];
      cbn [agrees] in *; [now rewrite IHi | now rewrite IHi | exact I].
  - intros depth acc s. cbn [parse_members parse_members_limited].
    destruct (expect "034" s) as [r|]; [|reflexivity].
    destruct (scanstring _ r) as [[key r1]|]; [|reflexivity].
    destruct (expect ":" (skip_ws r1)) as [r2|]; [|reflexivity].
    specialize (IHs depth (skip_ws r2)).
    destruct (scan_once_limited _ _ _ _) as [[v rest]| |e];
      cbn [agrees] in *; [|now rewrite IHs | exact I].
    rewrite IHs.
    destruct (skip_ws rest) as [|a r3]; [reflexivity|].
    destruct (Ascii.eqb a "}"); [reflexivity|].
    destruct (Ascii.eqb a ","); [|reflexivity].
    apply IHm.
Qed.

Lemma json_loads_limited_agrees limits s :
  agrees (json_loads_limited limits s) (json_loads s).
Proof.
  unfold json_loads_limited, json_loads.
  destruct (startswith utf8_bom s); [reflexivity|].
  pose proof (proj1 (scan_limited_agrees limits (2 * String.length s + 2))
                (nesting_limit limits) (skip_ws s)) as Hscan.
  destruct (scan_once_limited _ _ _ _) as [[v rest]| |e];
    cbn [agrees] in *; [|now rewrite Hscan | exact I].
  rewrite Hscan. destruct (skip_ws rest); reflexivity.
Qed.

(** A text the interpreter rejects with [json.JSONDecodeError] is a text
    the decoder without limits rejects. *)
Lemma json_loads_limited_rejected limits s :
  json_loads_limited limits s = Rejected -> json_loads s = None.
Proof.
  intros Hs. pose proof (json_loads_limited_agrees limits s) as Hagree.
  now rewrite Hs in Hagree.
Qed.

Lemma json_loads_limited_decoded limits s v :
  json_loads_limited limits s = Decoded v -> json_loads s = Some v.
Proof.
  intros Hs. pose proof (json_loads_limited_agrees limits s) as Hagree.
  now rewrite Hs in Hagree.
Qed.

(** The decoder within limits never runs out of fuel either. *)
Lemma scan_once_limited_rest limits f depth s v rest :
  (2 * String.length s + 1 <= f)%nat ->
  scan_once_limited limits f depth s = Decoded (v, rest) ->
  (String.length rest < String.length s)%nat.
Proof.
  intros Hf Hscan.
  pose proof (proj1 (scan_limited_agrees limits f) depth s) as Hagree.
  rewrite Hscan in Hagree.
  exact (proj2 (proj1 (scan_fuel f) s Hf) _ _ Hagree).
Qed.

Lemma scan_limited_fuel limits f :
  (forall s,
      (2 * String.length s + 1 <= f)%nat ->
      forall k depth,
        scan_once_limited limits (k + f) depth s
        = scan_once_limited limits f depth s)
  /\ (forall s,
        (2 * String.length s + 2 <= f)%nat ->
        forall k depth,
          parse_items_limited limits (k + f) depth s
          = parse_items_limited limits f depth s)
  /\ (forall s acc,
        (2 * String.length s + 2 <= f)%nat ->
        forall k depth,
          parse_members_limited limits (k + f) depth acc s
          = parse_members_limited limits f depth acc s).
Proof.
  induction f as [|f (IHs & IHi & IHm)].
  { repeat split; intros; lia. }
  split; [|split].
  - intros s Hf k depth. rewrite Nat.add_succ_r. cbn [scan_once_limited].
    destruct s as [|a r]; [reflexivity|]. cbn [String.length] in Hf.
    destruct (Ascii.eqb a "034"); [reflexivity|].
    destruct (Ascii.eqb a "{").
    { destruct depth as [|depth]; [reflexivity|].
      pose proof (skip_ws_length r) as Hws.
      destruct (skip_ws r) as [|b r']; [reflexivity|].
      destruct (Ascii.eqb b "}"); [reflexivity|].
      rewrite (IHm (String b r') [] ltac:(lia) k). reflexivity. }
    destruct (Ascii.eqb a "[").
    { destruct depth as [|depth]; [reflexivity|].
      pose proof (skip_ws_length r) as Hws.
      destruct (skip_ws r) as [|b r']; [reflexivity|].
      destruct (Ascii.eqb b "]"); [reflexivity|].
      rewrite (IHi (String b r') ltac:(lia) k). reflexivity. }
    reflexivity.
  - intros s Hf k depth. rewrite Nat.add_succ_r. cbn [parse_items_limited].
    rewrite (IHs s ltac:(lia) k).
    destruct (scan_once_limited limits f depth s) as [[v rest]| |e] eqn:Hv;
      [|reflexivity|reflexivity].
    apply scan_once_limited_rest in Hv; [|lia].
    pose proof (skip_ws_length rest) as Hws.
    destruct (skip_ws rest) as [|a r]; [reflexivity|].
    destruct (Ascii.eqb a "]"); [reflexivity|].
    destruct (Ascii.eqb a ","); [|reflexivity].
    pose proof (skip_ws_length r). simpl in Hws.
    rewrite (IHi (skip_ws r) ltac:(lia) k). reflexivity.
  - intros s acc Hf k depth. rewrite Nat.add_succ_r.
    cbn [parse_members_limited].
    destruct (expect "034" s) as [r|] eqn:He; [|reflexivity].
    destruct (scanstring _ r) as [[key r1]|] eqn:Hk; [|reflexivity].
    destruct (expect ":" (skip_ws r1)) as [r2|] eqn:Hc; [|reflexivity].
    apply expect_length in He. apply scanstring_rest in Hk.
    apply expect_length in Hc.
    pose proof (skip_ws_length r1). pose proof (skip_ws_length r2).
    rewrite (IHs (skip_ws r2) ltac:(lia) k).
    destruct (scan_once_limited limits f depth (skip_ws r2))
      as [[v rest]| |e] eqn:Hv; [|reflexivity|reflexivity].
    apply scan_once_limited_rest in Hv; [|lia].
    pose proof (skip_ws_length rest) as Hws.
    destruct (skip_ws rest) as [|a r3]; [reflexivity|].
    destruct (Ascii.eqb a "}"); [reflexivity|].
    destruct (Ascii.eqb a ","); [|reflexivity].
    pose proof (skip_ws_length r3). simpl in Hws.
    rewrite (IHm (skip_ws r3) _ ltac:(lia) k). reflexivity.
Qed.

Lemma json_loads_limited_fuel limits s k depth :
  scan_once_limited limits (k + (2 * String.length s + 2)) depth (skip_ws s)
  = scan_once_limited limits (2 * String.length s + 2) depth (skip_ws s).
Proof.
  apply (proj1 (scan_limited_fuel limits (2 * String.length s + 2))).
  pose proof (skip_ws_length s). lia.
Qed.

End Decoder.

(** * Request transcoding *)

Section Transform.
Context `{PyRuntime}.

Lemma advance_spec k : forall (g : uuid_source) n, advance k g n = g (k + n)%nat.
Proof.
  induction k as [|k IH]; intros g n; simpl; [reflexivity|].
  now rewrite IH.
Qed.

Lemma dict_get_field d k fallback :
  dict_get d k fallback = default fallback (field k (JObj d)).
Proof. unfold dict_get, field. destruct (dict_lookup k d); reflexivity. Qed.

(** The loop gives every message its own draw, in order, and keeps role and
    content. *)
Lemma transform_messages_inv msgs :
  forall g l g',
    transform_messages msgs g = (Ok l, g') ->
    l = imap (fun i m => ag_ui_msg (g i) m) msgs
    /\ g' = advance (length msgs) g.
Proof.
  induction msgs as [|m rest IH]; intros g l g' Hrun; simpl in Hrun.
  - inversion Hrun; subst. split; reflexivity.
  - unfold mbind, gen_bind, uuid4, lift, mret, gen_ret in Hrun.
    destruct m as [| | | | |?|d]; simpl in Hrun; try discriminate.
    fold gen_bind in Hrun.
    destruct (transform_messages rest (fun n => g (S n))) as [[tl|e] g1] eqn:Hrest;
      [|discriminate].
    inversion Hrun; subst; clear Hrun.
    destruct (IH _ _ _ Hrest) as [-> ->].
    split; [|reflexivity].
    simpl. unfold ag_ui_msg at 1. rewrite !dict_get_field. reflexivity.
Qed.

Lemma transform_messages_total msgs :
  forallb has_role msgs = true ->
  forall g, exists l g', transform_messages msgs g = (Ok l, g').
Proof.
  induction msgs as [|m rest IH]; intros Hwf g; simpl.
  - eauto.
  - simpl in Hwf. apply andb_prop in Hwf as [Hm Hrest].
    destruct m as [| | | | |?|d]; try discriminate.
    unfold mbind, gen_bind, uuid4, lift, mret, gen_ret; simpl.
    fold gen_bind.
    destruct (IH Hrest (fun n => g (S n))) as (l & g' & ->). eauto.
Qed.

Lemma is_system_obj d role :
  dict_lookup "role" d = Some role ->
  is_system (JObj d) = eq_str role "system".
Proof. intros Hrole. unfold is_system, field. now rewrite Hrole. Qed.

Lemma has_role_obj m :
  has_role m = true ->
  exists d role, m = JObj d /\ dict_lookup "role" d = Some role.
Proof.
  unfold has_role, field. destruct m as [| | | | |?|d]; try discriminate.
  destruct (dict_lookup "role" d) as [role|] eqn:Hrole; [eauto|discriminate].
Qed.

Lemma py_getitem_role_inv m role :
  py_getitem m "role" = Ok role ->
  exists d, m = JObj d /\ dict_lookup "role" d = Some role.
Proof.
  destruct m as [| | | | |?|d]; try discriminate. simpl.
  destruct (dict_lookup "role" d) as [r|] eqn:Hrole; [|discriminate].
  intros Hok. inversion Hok; subst. eauto.
Qed.

Lemma get_system_message_loop_inv msgs sys :
  get_system_message_loop msgs = Ok sys ->
  sys = default JNull (List.find is_system msgs).
Proof.
  induction msgs as [|m rest IH]; cbn [get_system_message_loop List.find];
    intros Hrun.
  - now inversion Hrun.
  - destruct (py_getitem m "role") as [role|] eqn:Hget; [|discriminate].
    apply py_getitem_role_inv in Hget as (d & -> & Hrole).
    rewrite (is_system_obj _ _ Hrole). simpl in Hrun.
    destruct (eq_str role "system"); [now inversion Hrun | auto].
Qed.

Lemma remove_system_message_loop_inv msgs :
  forall others,
    remove_system_message_loop msgs = Ok others ->
    forallb has_role msgs = true
    /\ others = List.filter (fun m => negb (is_system m)) msgs.
Proof.
  induction msgs as [|m rest IH];
    cbn [remove_system_message_loop forallb List.filter]; intros others Hrun.
  - now inversion Hrun.
  - destruct (py_getitem m "role") as [role|] eqn:Hget; [|discriminate].
    apply py_getitem_role_inv in Hget as (d & -> & Hrole).
    rewrite (is_system_obj _ _ Hrole). simpl in Hrun.
    destruct (remove_system_message_loop rest) as [kept|]; [|discriminate].
    simpl in Hrun. destruct (IH kept eq_refl) as [-> ->].
    split.
    + unfold has_role, field. now rewrite Hrole.
    + destruct (eq_str role "system"); now inversion Hrun.
Qed.

Lemma get_system_message_loop_total msgs :
  forallb has_role msgs = true ->
  get_system_message_loop msgs = Ok (default JNull (List.find is_system msgs)).
Proof.
  induction msgs as [|m rest IH];
    cbn [get_system_message_loop forallb List.find]; intros Hwf;
    [reflexivity|].
  apply andb_prop in Hwf as [Hm Hrest].
  apply has_role_obj in Hm as (d & role & -> & Hrole).
  rewrite (is_system_obj _ _ Hrole). simpl. rewrite Hrole. simpl.
  destruct (eq_str role "system"); [reflexivity | auto].
Qed.

Lemma remove_system_message_loop_total msgs :
  forallb has_role msgs = true ->
  remove_system_message_loop msgs
  = Ok (List.filter (fun m => negb (is_system m)) msgs).
Proof.
  induction msgs as [|m rest IH];
    cbn [remove_system_message_loop forallb List.filter]; intros Hwf;
    [reflexivity|].
  apply andb_prop in Hwf as [Hm Hrest].
  apply has_role_obj in Hm as (d & role & -> & Hrole).
  rewrite (is_system_obj _ _ Hrole). simpl. rewrite Hrole. simpl.
  rewrite (IH Hrest). simpl.
  destruct (eq_str role "system"); reflexivity.
Qed.

Lemma pop_system_message_list msgs :
  forallb has_role msgs = true ->
  pop_system_message (JList msgs)
  = Ok (default JNull (List.find is_system msgs),
        List.filter (fun m => negb (is_system m)) msgs).
Proof.
  intros Hwf. unfold pop_system_message, get_system_message,
    remove_system_message. simpl.
  rewrite (get_system_message_loop_total _ Hwf). simpl.
  rewrite (remove_system_message_loop_total _ Hwf). reflexivity.
Qed.

Lemma pop_system_message_list_inv msgs sys others :
  pop_system_message (JList msgs) = Ok (sys, others) ->
  forallb has_role msgs = true
  /\ sys = default JNull (List.find is_system msgs)
  /\ others = List.filter (fun m => negb (is_system m)) msgs.
Proof.
  unfold pop_system_message, get_system_message, remove_system_message.
  simpl. intros Hrun.
  destruct (get_system_message_loop msgs) as [s|] eqn:Hget; [|discriminate].
  simpl in Hrun.
  destruct (remove_system_message_loop msgs) as [o|] eqn:Hrem; [|discriminate].
  simpl in Hrun. inversion Hrun; subst.
  apply get_system_message_loop_inv in Hget.
  apply remove_system_message_loop_inv in Hrem as [? ?]. auto.
Qed.

Lemma resolve_model_requested self body s :
  dict_get body "model" (JStr (DEFAULT_MODEL (valves self))) = JStr s ->
  resolve_model self body = Ok (resolved self s).
Proof.
  intros Hreq. unfold resolve_model, resolved. rewrite Hreq. simpl.
  destruct (String.eqb s "") eqn:Hs; simpl.
  - apply String.eqb_eq in Hs. subst s. reflexivity.
  - destruct (split_once "." s) as [[pre model_id]|]; reflexivity.
Qed.

(** Every successful run has this shape. *)
Lemma transform_inv self body g r g' :
  transform_openwebui_to_ag_ui self body g = (Ok r, g') ->
  exists system_message others model,
    pop_system_message (dict_get body "messages" (JList []))
    = Ok (system_message, others)
    /\ resolve_model self body = Ok model
    /\ r = run_agent_input body
             (THREAD_ID_PREFIX (valves self) +:+ "_" +:+ g 0%nat)
             ("run_" +:+ g 1%nat)
             (expected_messages g system_message others) model
    /\ g' = advance (draws system_message others) g.
Proof.
  unfold transform_openwebui_to_ag_ui, mbind, gen_bind, lift.
  destruct (pop_system_message _) as [[system_message others]|e] eqn:Hpop;
    [|discriminate].
  cbn [uuid4]. unfold transform_system, expected_messages, draws.
  destruct (truthy system_message) eqn:Hsys.
  - unfold mbind, gen_bind, mret, gen_ret. cbn [uuid4].
    destruct (transform_messages others _) as [[tl|e] g1] eqn:Htl;
      [|discriminate].
    apply transform_messages_inv in Htl as [-> ->].
    destruct (resolve_model self body) as [model|e]; [|discriminate].
    intros [= <- <-]. exists system_message, others, model.
    rewrite Hsys. repeat split; reflexivity.
  - unfold mbind, gen_bind, mret, gen_ret.
    destruct (transform_messages others _) as [[tl|e] g1] eqn:Htl;
      [|discriminate].
    apply transform_messages_inv in Htl as [-> ->].
    destruct (resolve_model self body) as [model|e]; [|discriminate].
    intros [= <- <-]. exists system_message, others, model.
    rewrite Hsys. repeat split; reflexivity.
Qed.

Lemma forallb_has_role_filter msgs p :
  forallb has_role msgs = true ->
  forallb has_role (List.filter p msgs) = true.
Proof.
  induction msgs as [|m rest IH]; simpl; [reflexivity|].
  intros Hwf. apply andb_prop in Hwf as [Hm Hrest].
  destruct (p m); simpl; [rewrite Hm|]; auto.
Qed.

(** A well-formed request is always transcoded. *)
Lemma transform_total self body g :
  well_formed_request body = true ->
  exists r g', transform_openwebui_to_ag_ui self body g = (Ok r, g').
Proof.
  unfold well_formed_request. intros Hwf.
  apply andb_prop in Hwf as [Hmsgs Hmodel].
  assert (Hpop : exists system_message others,
             pop_system_message (dict_get body "messages" (JList []))
             = Ok (system_message, others)
             /\ forallb has_role others = true).
  { unfold dict_get. destruct (dict_lookup "messages" body) as [v|].
    - destruct v as [| | | | |msgs|?]; try discriminate.
      rewrite (pop_system_message_list _ Hmsgs).
      eexists _, _. split; [reflexivity|].
      now apply forallb_has_role_filter.
    - exists JNull, []. split; reflexivity. }
  destruct Hpop as (system_message & others & Hpop & Hothers).
  assert (Hres : exists model, resolve_model self body = Ok model).
  { destruct (dict_lookup "model" body) as [v|] eqn:Hm.
    - destruct v as [| | | |s| |]; try discriminate.
      exists (resolved self s). apply resolve_model_requested.
      unfold dict_get. now rewrite Hm.
    - exists (resolved self (DEFAULT_MODEL (valves self))).
      apply resolve_model_requested. unfold dict_get. now rewrite Hm. }
  destruct Hres as [model Hres].
  unfold transform_openwebui_to_ag_ui, mbind, gen_bind, lift.
  rewrite Hpop. cbn [uuid4]. unfold transform_system.
  destruct (truthy system_message).
  - unfold mbind, gen_bind, mret, gen_ret. cbn [uuid4].
    destruct (transform_messages_total others Hothers
                (fun n => g (S (S (S n))))) as (tl & g1 & ->).
    rewrite Hres. eauto.
  - unfold mbind, gen_bind, mret, gen_ret.
    destruct (transform_messages_total others Hothers
                (fun n => g (S (S n)))) as (tl & g1 & ->).
    rewrite Hres. eauto.
Qed.

End Transform.

Section TransformClaims.
Context `{PyRuntime}.

Lemma messages_of_run body thread_id run_id msgs model :
  messages_of (run_agent_input body thread_id run_id msgs model) = msgs.
Proof. reflexivity. Qed.

Lemma forwarded_model_run body thread_id run_id msgs model :
  forwarded_model (run_agent_input body thread_id run_id msgs model)
  = Some model.
Proof. reflexivity. Qed.

(** C1, as amended: the model id after the first separator falls back to
    the default model when unmapped; a model id without separator is looked
    up as a whole and, when unmapped, is passed through unchanged. *)
Theorem C1_model_resolution self body s g r g' :
  dict_lookup "model" body = Some (JStr s) ->
  transform_openwebui_to_ag_ui self body g = (Ok r, g') ->
  (forall pre model_id,
      split_once "." s = Some (pre, model_id) ->
      (forall v, dict_lookup model_id (get_model_mapping self) = Some v ->
                 forwarded_model r = Some v)
      /\ (dict_lookup model_id (get_model_mapping self) = None ->
          forwarded_model r = Some (JStr (DEFAULT_MODEL (valves self)))))
  /\ (split_once "." s = None ->
      (forall v, dict_lookup s (get_model_mapping self) = Some v ->
                 forwarded_model r = Some v)
      /\ (dict_lookup s (get_model_mapping self) = None ->
          forwarded_model r = Some (JStr s))).
Proof.
  intros Hmodel Hrun.
  apply transform_inv in Hrun
    as (system_message & others & model & _ & Hres & -> & _).
  rewrite forwarded_model_run.
  rewrite (resolve_model_requested self body s) in Hres
    by (unfold dict_get; now rewrite Hmodel).
  injection Hres as <-. unfold resolved, dict_get.
  split.
  - intros pre model_id ->. split.
    + intros v ->. reflexivity.
    + intros ->. reflexivity.
  - intros ->. split.
    + intros v ->. reflexivity.
    + intros ->. reflexivity.
Qed.

(** C3: forwardedProps.original_params has exactly the six sampling
    parameters, each holding the value the request body has for it, and
    null where the body has none; a well-formed request is always
    transcoded. *)
Theorem C3_sampling_parameters_mirrored self body g :
  (forall r g',
      transform_openwebui_to_ag_ui self body g = (Ok r, g') ->
      exists params,
        original_params r = Some (JObj params)
        /\ map fst params = sampling_parameters
        /\ forall k, In k sampling_parameters ->
             dict_lookup k params
             = Some (default JNull (dict_lookup k body)))
  /\ (well_formed_request body = true ->
      exists r g', transform_openwebui_to_ag_ui self body g = (Ok r, g')).
Proof.
  split; [|apply transform_total].
  intros r g' Hrun.
  apply transform_inv in Hrun
    as (system_message & others & model & _ & _ & -> & _).
  eexists. split; [reflexivity|]. split; [reflexivity|].
  intros k Hk. unfold sampling_parameters in Hk. simpl in Hk.
  unfold opt_get, dict_get.
  destruct Hk as [<-|[<-|[<-|[<-|[<-|[<-|[]]]]]]]; reflexivity.
Qed.

Lemma NoDup_map_injective {A B} (f : A -> B) (l : list A) :
  (forall x y, f x = f y -> x = y) -> NoDup l -> NoDup (map f l).
Proof.
  intros Hinj. induction 1 as [|x l Hx Hl IH]; simpl; constructor; auto.
  rewrite list_elem_of_In, in_map_iff. intros (y & Hy & Hin).
  apply Hinj in Hy. subst y. apply Hx. now apply list_elem_of_In.
Qed.

(** The identifier of message [i] of the loop is the draw it was given. *)
Lemma message_ids_imap (g : uuid_source) others :
  forall k,
    map (fun m => default JNull (field "id" m))
        (imap (fun i m => ag_ui_msg (g (k + i)%nat) m) others)
    = map (fun i => JStr ("msg_" +:+ g i)) (seq k (length others)).
Proof.
  induction others as [|m rest IH]; intros k; [reflexivity|].
  cbn [imap length seq map]. f_equal.
  - unfold ag_ui_msg. cbn. now rewrite Nat.add_0_r.
  - rewrite <- IH. f_equal. apply imap_ext. intros i x _. cbn.
    now rewrite Nat.add_succ_r.
Qed.

Lemma message_ids_expected (g : uuid_source) system_message others :
  map (fun m => default JNull (field "id" m))
      (expected_messages g system_message others)
  = map (fun i => JStr ("msg_" +:+ g i))
        (seq 2 (draws system_message others - 2)).
Proof.
  unfold expected_messages, draws. destruct (truthy system_message).
  - cbn [map]. rewrite message_ids_imap.
    replace (3 + length others - 2)%nat with (S (length others)) by lia.
    reflexivity.
  - rewrite message_ids_imap.
    replace (2 + length others - 2)%nat with (length others) by lia.
    reflexivity.
Qed.

Lemma draws_ge_2 system_message others :
  (2 <= draws system_message others)%nat.
Proof. unfold draws. destruct (truthy system_message); lia. Qed.

Lemma messages_have_ids (g : uuid_source) system_message others :
  Forall (fun m => exists u, field "id" m = Some (JStr u))
         (expected_messages g system_message others).
Proof.
  assert (Himap : forall k,
             Forall (fun m => exists u, field "id" m = Some (JStr u))
                    (imap (fun i m => ag_ui_msg (g (k + i)%nat) m) others)).
  { intros k. apply Forall_forall. intros m Hm.
    apply elem_of_lookup_imap in Hm as (i & x & -> & _).
    unfold ag_ui_msg. cbn. eauto. }
  unfold expected_messages. destruct (truthy system_message).
  - constructor; [cbn; eauto | apply (Himap 3%nat)].
  - apply (Himap 2%nat).
Qed.

(** C4: provided the identifier generator never returns the same value
    twice, two successive runs on the same request give every message of
    both runs its own identifier, and the two runs differ in threadId and
    in runId. *)
Theorem C4_fresh_identifiers self body (g : uuid_source) r1 g1 r2 g2 :
  (forall i j, g i = g j -> i = j) ->
  transform_openwebui_to_ag_ui self body g = (Ok r1, g1) ->
  transform_openwebui_to_ag_ui self body g1 = (Ok r2, g2) ->
  NoDup (message_ids r1 ++ message_ids r2)
  /\ Forall (fun m => exists u, field "id" m = Some (JStr u))
            (messages_of r1 ++ messages_of r2)
  /\ (exists t1 t2,
        field "threadId" r1 = Some (JStr t1)
        /\ field "threadId" r2 = Some (JStr t2) /\ t1 <> t2)
  /\ (exists n1 n2,
        field "runId" r1 = Some (JStr n1)
        /\ field "runId" r2 = Some (JStr n2) /\ n1 <> n2).
Proof.
  intros Hfresh Hrun1 Hrun2.
  apply transform_inv in Hrun1 as (sys1 & o1 & m1 & _ & _ & -> & ->).
  apply transform_inv in Hrun2 as (sys2 & o2 & m2 & _ & _ & -> & _).
  pose proof (draws_ge_2 sys1 o1) as Hk1.
  set (k1 := draws sys1 o1) in *.
  split; [|split; [|split]].
  - unfold message_ids. rewrite !messages_of_run, !message_ids_expected.
    fold k1.
    rewrite (map_ext (fun i => JStr ("msg_" +:+ advance k1 g i))
                     (fun i => (fun j => JStr ("msg_" +:+ g j)) (k1 + i)%nat))
      by (intros i; now rewrite advance_spec).
    rewrite <- (map_map (fun i => (k1 + i)%nat)
                        (fun j => JStr ("msg_" +:+ g j))).
    rewrite <- map_app. apply NoDup_map_injective.
    + intros x y [= Heq]. auto.
    + apply NoDup_app. split; [apply NoDup_seq|]. split.
      * intros x Hx Hy. apply elem_of_seq in Hx.
        rewrite list_elem_of_In in Hy.
        apply in_map_iff in Hy as (j & <- & Hj). apply in_seq in Hj. lia.
      * apply NoDup_map_injective; [intros; lia | apply NoDup_seq].
  - rewrite !messages_of_run. apply Forall_app. split; apply messages_have_ids.
  - eexists _, _. split; [reflexivity|]. split; [reflexivity|].
    rewrite advance_spec. intros Heq.
    apply (inj (String.append _)) in Heq.
    apply (inj (String.append _)) in Heq.
    apply Hfresh in Heq. lia.
  - eexists _, _. split; [reflexivity|]. split; [reflexivity|].
    rewrite advance_spec. intros [= Heq]. apply Hfresh in Heq. lia.
Qed.

Lemma eq_str_false v text : eq_str v text = false -> v <> JStr text.
Proof.
  intros Hne ->. simpl in Hne. now rewrite String.eqb_refl in Hne.
Qed.

Lemma find_is_system msgs :
  existsb is_system msgs = true ->
  exists s, List.find is_system msgs = Some s /\ is_system s = true.
Proof.
  induction msgs as [|m rest IH]; simpl; [discriminate|].
  destruct (is_system m) eqn:Hm; simpl; eauto.
Qed.

Lemma is_system_truthy s : is_system s = true -> truthy s = true.
Proof.
  unfold is_system, field. destruct s as [| | | | |?|d]; try discriminate.
  destruct d; [discriminate | reflexivity].
Qed.

Lemma imap_renders (f : nat -> string) others :
  forallb has_role others = true ->
  Forall2 renders (imap (fun i m => ag_ui_msg (f i) m) others) others.
Proof.
  revert f. induction others as [|m rest IH]; intros f Hwf; cbn [imap].
  - constructor.
  - simpl in Hwf. apply andb_prop in Hwf as [Hm Hrest]. constructor.
    + apply has_role_obj in Hm as (d & role & -> & Hrole).
      unfold renders, ag_ui_msg. cbn. rewrite Hrole. split; reflexivity.
    + apply (IH (fun i => f (S i)) Hrest).
Qed.

Lemma renders_not_system outs ms :
  Forall2 renders outs ms ->
  Forall (fun m => is_system m = false) ms ->
  Forall (fun out => field "role" out <> Some (JStr "system")) outs.
Proof.
  induction 1 as [|out m outs ms [Hrole _] _ IH]; intros Hms; constructor.
  - apply Forall_inv in Hms. unfold is_system in Hms. rewrite Hrole.
    destruct (field "role" m) as [role|]; [|discriminate].
    apply eq_str_false in Hms. congruence.
  - apply IH. now apply Forall_inv_tail in Hms.
Qed.

Lemma filter_not_system msgs :
  Forall (fun m => is_system m = false)
         (List.filter (fun m => negb (is_system m)) msgs).
Proof.
  apply Forall_forall. intros m Hm. rewrite list_elem_of_In in Hm.
  apply filter_In in Hm as [_ Hm]. now apply negb_true_iff in Hm.
Qed.

(** C5, as amended: when the request has a message whose role is "system",
    the RunAgentInput has exactly one message of role "system" and it is
    the first one, wherever the system-role messages stood in the request;
    the messages after it are the request's messages of any other role, in
    their original order, so that every system-role message after the first
    is dropped; a well-formed request is always transcoded.  What the
    content of the first message holds (line 80) is left out of the
    statement. *)
Theorem C5_system_message_first self body msgs g :
  dict_lookup "messages" body = Some (JList msgs) ->
  existsb is_system msgs = true ->
  (forall r g',
      transform_openwebui_to_ag_ui self body g = (Ok r, g') ->
      exists first rest,
        messages_of r = first :: rest
        /\ field "role" first = Some (JStr "system")
        /\ Forall (fun out => field "role" out <> Some (JStr "system")) rest
        /\ Forall2 renders rest
             (List.filter (fun m => negb (is_system m)) msgs))
  /\ (well_formed_request body = true ->
      exists r g', transform_openwebui_to_ag_ui self body g = (Ok r, g')).
Proof.
  intros Hmsgs Hsys. split; [|apply transform_total].
  intros r g' Hrun.
  apply transform_inv in Hrun
    as (system_message & others & model & Hpop & _ & -> & _).
  unfold dict_get in Hpop. rewrite Hmsgs in Hpop.
  apply pop_system_message_list_inv in Hpop as (Hwf & -> & ->).
  destruct (find_is_system _ Hsys) as (s & Hfind & Hs).
  rewrite Hfind. change (default JNull (Some s)) with s.
  rewrite messages_of_run.
  unfold expected_messages. rewrite (is_system_truthy _ Hs).
  assert (Hrest : Forall2 renders
            (imap (fun i m => ag_ui_msg (g (3 + i)%nat) m)
                  (List.filter (fun m => negb (is_system m)) msgs))
            (List.filter (fun m => negb (is_system m)) msgs)).
  { apply (imap_renders (fun i => g (3 + i)%nat)).
    now apply forallb_has_role_filter. }
  eexists _, _. split; [reflexivity|].
  split; [reflexivity|]. split; [|exact Hrest].
  apply (renders_not_system _ _ Hrest), filter_not_system.
Qed.

End TransformClaims.

Lemma example_run_eq :
  transform_openwebui_to_ag_ui (H := example_runtime)
    (Pipe_init (fun _ => None)) example_body example_source
  = (Ok example_run, advance 5 example_source).
Proof. reflexivity. Qed.

Lemma example_rerun_eq :
  transform_openwebui_to_ag_ui (H := example_runtime)
    (Pipe_init (fun _ => None)) example_body (advance 5 example_source)
  = (Ok example_rerun, advance 5 (advance 5 example_source)).
Proof. reflexivity. Qed.

Lemma C1_model_resolution_witness :
  dict_lookup "model" example_body
  = Some (JStr "aguimiddleware.openaigpt4omini")
  /\ split_once "." "aguimiddleware.openaigpt4omini"
     = Some ("aguimiddleware", "openaigpt4omini")
  /\ dict_lookup "openaigpt4omini"
       (get_model_mapping (Pipe_init (fun _ => None))) = None
  /\ forwarded_model example_run = Some (JStr "agui-agent").
Proof.
  do 3 (split; [reflexivity|]).
  exact (proj2 (proj1 (C1_model_resolution (H := example_runtime)
                  (Pipe_init (fun _ => None)) example_body
                  "aguimiddleware.openaigpt4omini" example_source
                  example_run (advance 5 example_source)
                  eq_refl example_run_eq)
                 "aguimiddleware" "openaigpt4omini" eq_refl) eq_refl).
Defined.

Lemma C3_sampling_parameters_mirrored_witness :
  well_formed_request example_body = true
  /\ exists params,
       original_params example_run = Some (JObj params)
       /\ map fst params = sampling_parameters
       /\ forall k, In k sampling_parameters ->
            dict_lookup k params
            = Some (default JNull (dict_lookup k example_body)).
Proof.
  split; [reflexivity|].
  exact (proj1 (C3_sampling_parameters_mirrored (H := example_runtime)
                  (Pipe_init (fun _ => None)) example_body example_source)
           example_run (advance 5 example_source) example_run_eq).
Defined.

Lemma C4_fresh_identifiers_witness :
  (forall i j, example_source i = example_source j -> i = j)
  /\ NoDup (message_ids example_run ++ message_ids example_rerun)
  /\ field "threadId" example_run <> field "threadId" example_rerun
  /\ field "runId" example_run <> field "runId" example_rerun.
Proof.
  assert (Hfresh : forall i j, example_source i = example_source j -> i = j)
    by (intros i j Hij; exact (pretty_nat_inj _ _ Hij)).
  split; [exact Hfresh|].
  destruct (C4_fresh_identifiers (H := example_runtime)
              (Pipe_init (fun _ => None)) example_body example_source
              example_run (advance 5 example_source)
              example_rerun (advance 5 (advance 5 example_source))
              Hfresh example_run_eq example_rerun_eq)
    as (Hids & _ & (t1 & t2 & Ht1 & Ht2 & Ht) & (n1 & n2 & Hn1 & Hn2 & Hn)).
  split; [exact Hids|].
  rewrite Ht1, Ht2, Hn1, Hn2. split; congruence.
Defined.

Lemma C5_system_message_first_witness :
  dict_lookup "messages" example_body
  = Some (JList [JObj [("role", JStr "user"); ("content", JStr "Hello!")];
                 JObj [("role", JStr "system"); ("content", JStr "Be brief.")];
                 JObj [("content", JStr "ok"); ("role", JStr "assistant")]])
  /\ map (field "role") (messages_of example_run)
     = [Some (JStr "system"); Some (JStr "user"); Some (JStr "assistant")].
Proof.
  split; [reflexivity|].
  destruct (proj1 (C5_system_message_first (H := example_runtime)
                     (Pipe_init (fun _ => None)) example_body _
                     example_source eq_refl eq_refl)
              example_run (advance 5 example_source) example_run_eq)
    as (first & rest & Hm & Hfirst & _).
  rewrite Hm. cbn [map]. rewrite Hfirst.
  injection Hm as _ <-. reflexivity.
Defined.

(** C1 as stated fails: an unmapped model id without separator is not
    replaced by the default model. *)
Lemma C1_unmapped_plain_id_kept :
  let self := Pipe_init (fun _ => None) in
  let body :=
    [("messages",
      JList [JObj [("role", JStr "user"); ("content", JStr "Hello!")]]);
     ("model", JStr "gpt-4")] in
  dict_lookup "gpt-4" (get_model_mapping self) = None
  /\ (exists r,
        fst (transform_openwebui_to_ag_ui (H := example_runtime) self body
               example_source) = Ok r
        /\ forwarded_model r = Some (JStr "gpt-4"))
  /\ JStr "gpt-4" <> JStr (DEFAULT_MODEL (valves self)).
Proof.
  cbv zeta. split; [reflexivity|]. split.
  - eexists. split; [vm_compute; reflexivity | reflexivity].
  - discriminate.
Qed.

(** C5 as stated fails on a request with two system-role messages: the
    RunAgentInput has one message after the first where the request has two
    besides its first system-role message, so the remaining messages are
    not all kept; and the content of its first message is not the content
    of the system-role message. *)
Lemma C5_later_system_message_dropped :
  let hello := JObj [("role", JStr "user"); ("content", JStr "Hello!")] in
  let brief := JObj [("role", JStr "system"); ("content", JStr "Be brief.")] in
  let kind := JObj [("role", JStr "system"); ("content", JStr "Be kind.")] in
  let body := [("messages", JList [hello; brief; kind])] in
  exists r first rest,
    fst (transform_openwebui_to_ag_ui (H := example_runtime)
           (Pipe_init (fun _ => None)) body example_source) = Ok r
    /\ messages_of r = first :: rest
    /\ field "role" first = Some (JStr "system")
    /\ field "content" first
       = Some (JStr "{'role': 'system', 'content': 'Be brief.'}")
    /\ field "content" first <> field "content" brief
    /\ map (field "content") rest = [Some (JStr "Hello!")]
    /\ ~ Forall2 renders rest [hello; kind].
Proof.
  cbv zeta. eexists _, _, _.
  split; [vm_compute; reflexivity|].
  split; [vm_compute; reflexivity|].
  split; [reflexivity|]. split; [reflexivity|].
  split; [discriminate|]. split; [reflexivity|].
  intros Hall. apply Forall2_length in Hall. discriminate.
Qed.

(** * Response relaying *)

Section Relay.
Context `{PyRuntime}.

Lemma stream_streaming self req body_text lines failure :
  stream_ag_ui_request self
    (always (Responded (streaming body_text lines failure))) req
  = close_generator self (read_events lines failure).
Proof. reflexivity. Qed.

Lemma close_generator_app self chunks later e :
  close_generator self (chunks ++ later, e)
  = chunks ++ close_generator self (later, e).
Proof. destruct e; simpl; now rewrite ?app_assoc. Qed.

Lemma read_events_continue raw chunks rest failure :
  handle_line raw = Continue chunks ->
  read_events (raw :: rest) failure
  = (chunks ++ fst (read_events rest failure),
     snd (read_events rest failure)).
Proof.
  intros Hline. simpl. rewrite Hline.
  now destruct (read_events rest failure).
Qed.

(** A line that yields nothing and lets the loop go on can be removed. *)
Lemma read_events_skip pre raw rest failure :
  handle_line raw = Continue [] ->
  read_events (pre ++ raw :: rest) failure = read_events (pre ++ rest) failure.
Proof.
  intros Hline. induction pre as [|p pre IH]; simpl.
  - rewrite Hline. now destruct (read_events rest failure).
  - now rewrite IH.
Qed.

(** Nothing after a line that leaves the loop is read. *)
Lemma read_events_break pre raw chunks rest failure :
  handle_line raw = Break chunks ->
  read_events (pre ++ raw :: rest) failure = read_events (pre ++ [raw]) None.
Proof.
  intros Hline. induction pre as [|p pre IH]; simpl.
  - now rewrite Hline.
  - now rewrite IH.
Qed.

Lemma startswith_nonempty p s a :
  startswith (String a p) s = true -> String.eqb s "" = false.
Proof. destruct s; [discriminate | reflexivity]. Qed.

Lemma handle_line_carries raw event :
  carries raw event -> handle_line raw = dispatch_event event.
Proof.
  intros (Hvalid & Hdata & Hjson). unfold handle_line, bytes_decode_utf8.
  rewrite (startswith_nonempty _ _ _ Hdata), Hvalid, Hdata, Hjson.
  reflexivity.
Qed.

Lemma handle_line_rejected raw :
  utf8_valid raw = true ->
  startswith "data: " raw = true ->
  json_loads (str_drop 6 raw) = None ->
  handle_line raw = Continue [].
Proof.
  intros Hvalid Hdata Hjson. unfold handle_line, bytes_decode_utf8.
  now rewrite (startswith_nonempty _ _ _ Hdata), Hvalid, Hdata, Hjson.
Qed.

Lemma event_line_dispatch raw kind fields :
  event_line raw kind fields ->
  exists event,
    handle_line raw = dispatch_event event
    /\ dict_get event "type" (JStr "") = JStr kind
    /\ Forall (fun kv => dict_lookup (fst kv) event = Some (snd kv)) fields.
Proof.
  intros (event & Hraw & Htype & Hfields). exists event.
  split; [now apply handle_line_carries|]. split; [|exact Hfields].
  unfold dict_get. now rewrite Htype.
Qed.

Lemma handle_line_advisory raw kind fields :
  event_line raw kind fields ->
  In kind ["TEXT_MESSAGE_START"; "TEXT_MESSAGE_END"; "RUN_STARTED"] ->
  handle_line raw = Continue [].
Proof.
  intros Hraw Hkind.
  apply event_line_dispatch in Hraw as (event & -> & Htype & _).
  unfold dispatch_event. rewrite Htype.
  simpl in Hkind. destruct Hkind as [<-|[<-|[<-|[]]]]; reflexivity.
Qed.

Lemma handle_line_finished raw fields :
  event_line raw "RUN_FINISHED" fields -> handle_line raw = Break [].
Proof.
  intros Hraw.
  apply event_line_dispatch in Hraw as (event & -> & Htype & _).
  unfold dispatch_event. now rewrite Htype.
Qed.

Lemma handle_line_content raw delta :
  event_line raw "TEXT_MESSAGE_CONTENT" [("delta", JStr delta)] ->
  delta <> "" ->
  handle_line raw = Continue [JStr delta].
Proof.
  intros Hraw Hdelta.
  apply event_line_dispatch in Hraw as (event & -> & Htype & Hfields).
  apply Forall_inv in Hfields. cbn [fst snd] in Hfields.
  unfold dispatch_event. rewrite Htype. cbn [eq_str String.eqb Ascii.eqb Bool.eqb].
  unfold dict_get at 1 2. rewrite Hfields. cbn [truthy].
  apply String.eqb_neq in Hdelta. now rewrite Hdelta.
Qed.

(** C2: the event sequence RUN_STARTED, TEXT_MESSAGE_START,
    TEXT_MESSAGE_CONTENT with delta "Hi", TEXT_MESSAGE_CONTENT with delta
    " there", TEXT_MESSAGE_END, RUN_FINISHED, however its events are
    encoded and whatever follows it on the stream, yields the chunks "Hi"
    and " there" and nothing else; in general nothing after a RUN_FINISHED
    event is read. *)
Theorem C2_literal_sequence self req body_text rest failure :
  (forall l1 l2 l3 l4 l5 l6,
      event_line l1 "RUN_STARTED" [] ->
      event_line l2 "TEXT_MESSAGE_START" [] ->
      event_line l3 "TEXT_MESSAGE_CONTENT" [("delta", JStr "Hi")] ->
      event_line l4 "TEXT_MESSAGE_CONTENT" [("delta", JStr " there")] ->
      event_line l5 "TEXT_MESSAGE_END" [] ->
      event_line l6 "RUN_FINISHED" [] ->
      stream_ag_ui_request self
        (always
           (Responded
              (streaming body_text ([l1; l2; l3; l4; l5; l6] ++ rest) failure)))
        req
      = [JStr "Hi"; JStr " there"])
  /\ (forall pre finish,
        event_line finish "RUN_FINISHED" [] ->
        stream_ag_ui_request self
          (always
             (Responded (streaming body_text (pre ++ finish :: rest) failure)))
          req
        = stream_ag_ui_request self
            (always (Responded (streaming body_text (pre ++ [finish]) None)))
            req).
Proof.
  split.
  - intros l1 l2 l3 l4 l5 l6 H1 H2 H3 H4 H5 H6.
    rewrite stream_streaming. cbn [app read_events].
    rewrite (handle_line_advisory _ _ _ H1) by (simpl; auto).
    rewrite (handle_line_advisory _ _ _ H2) by (simpl; auto).
    rewrite (handle_line_content _ _ H3) by discriminate.
    rewrite (handle_line_content _ _ H4) by discriminate.
    rewrite (handle_line_advisory _ _ _ H5) by (simpl; auto).
    rewrite (handle_line_finished _ _ H6).
    reflexivity.
  - intros pre finish Hfinish. rewrite !stream_streaming.
    now rewrite (read_events_break _ _ _ _ _ (handle_line_finished _ _ Hfinish)).
Qed.

(** C6, as amended: a line that decodes as UTF-8, starts with "data: " and
    whose remainder [json.loads] rejects with [json.JSONDecodeError] is
    skipped and the loop goes on: whatever lines come before and after it,
    the stream yields the chunks of the stream without that line, and
    between two TEXT_MESSAGE_CONTENT events of non-empty delta it yields the
    two deltas and nothing else.  [limits] are the limits of the interpreter
    that runs the pipe: a remainder on which [json.loads] meets one of them
    is not rejected with [json.JSONDecodeError]. *)
Theorem C6_malformed_line_skipped self req body_text limits pre bad rest
  failure :
  utf8_valid bad = true ->
  startswith "data: " bad = true ->
  json_loads_limited limits (str_drop 6 bad) = Rejected ->
  stream_ag_ui_request self
    (always (Responded (streaming body_text (pre ++ bad :: rest) failure))) req
  = stream_ag_ui_request self
      (always (Responded (streaming body_text (pre ++ rest) failure))) req
  /\ (forall before after d1 d2,
        event_line before "TEXT_MESSAGE_CONTENT" [("delta", JStr d1)] ->
        event_line after "TEXT_MESSAGE_CONTENT" [("delta", JStr d2)] ->
        d1 <> "" ->
        d2 <> "" ->
        stream_ag_ui_request self
          (always
             (Responded (streaming body_text [before; bad; after] None)))
          req
        = [JStr d1; JStr d2]).
Proof.
  intros Hvalid Hdata Hjson.
  apply json_loads_limited_rejected in Hjson.
  pose proof (handle_line_rejected _ Hvalid Hdata Hjson) as Hbad.
  split.
  - rewrite !stream_streaming.
    now rewrite (read_events_skip _ _ _ _ Hbad).
  - intros before after d1 d2 Hbefore Hafter Hd1 Hd2.
    rewrite stream_streaming. cbn [read_events].
    rewrite (handle_line_content _ _ Hbefore Hd1), Hbad,
      (handle_line_content _ _ Hafter Hd2).
    reflexivity.
Qed.

Lemma stream_continue self req body_text raw chunks rest failure :
  handle_line raw = Continue chunks ->
  stream_ag_ui_request self
    (always (Responded (streaming body_text (raw :: rest) failure))) req
  = chunks
    ++ stream_ag_ui_request self
         (always (Responded (streaming body_text rest failure))) req.
Proof.
  intros Hline. rewrite !stream_streaming.
  rewrite (read_events_continue _ _ _ _ Hline).
  destruct (read_events rest failure) as [later e].
  apply close_generator_app.
Qed.

Lemma dispatch_nothing_to_relay event :
  nothing_to_relay event -> dispatch_event event = Continue [].
Proof.
  unfold nothing_to_relay, event_type_is, absent_or_empty, dispatch_event,
    dict_get.
  intros [[[Htype|Htype] [Hfield|Hfield]]|[Htype [Hfield|Hfield]]];
    rewrite Htype, Hfield; reflexivity.
Qed.

Lemma dispatch_relay event text :
  text <> "" ->
  ((event_type_is event "TEXT_MESSAGE_CONTENT"
    \/ event_type_is event "TOOL_CALL_ARGS")
   /\ dict_lookup "delta" event = Some (JStr text) ->
   dispatch_event event = Continue [JStr text])
  /\ (event_type_is event "TOOL_CALL_RESULT"
      /\ dict_lookup "content" event = Some (JStr text) ->
      dispatch_event event = Continue [JStr (tool_result_block text)]).
Proof.
  intros Htext. apply String.eqb_neq in Htext.
  unfold event_type_is, dispatch_event, dict_get, tool_result_block.
  split.
  - intros [[Htype|Htype] Hfield]; rewrite Htype, Hfield; cbn;
      now rewrite Htext.
  - intros [Htype Hfield]. rewrite Htype, Hfield. cbn. now rewrite Htext.
Qed.

(** C9: a TEXT_MESSAGE_CONTENT or TOOL_CALL_ARGS event whose delta is
    absent or empty, and a TOOL_CALL_RESULT event whose content is absent or
    empty, leave no trace in the output; with a non-empty text in that field
    the same events yield a chunk. *)
Theorem C9_empty_fields_suppressed self req body_text pre raw event rest
  failure :
  carries raw event ->
  (nothing_to_relay event ->
   stream_ag_ui_request self
     (always (Responded (streaming body_text (pre ++ raw :: rest) failure)))
     req
   = stream_ag_ui_request self
       (always (Responded (streaming body_text (pre ++ rest) failure))) req)
  /\ (forall content,
        content <> "" ->
        ((event_type_is event "TEXT_MESSAGE_CONTENT"
          \/ event_type_is event "TOOL_CALL_ARGS")
         /\ dict_lookup "delta" event = Some (JStr content) ->
         stream_ag_ui_request self
           (always (Responded (streaming body_text (raw :: rest) failure)))
           req
         = JStr content
           :: stream_ag_ui_request self
                (always (Responded (streaming body_text rest failure))) req)
        /\ (event_type_is event "TOOL_CALL_RESULT"
            /\ dict_lookup "content" event = Some (JStr content) ->
            stream_ag_ui_request self
              (always (Responded (streaming body_text (raw :: rest) failure)))
              req
            = JStr (tool_result_block content)
              :: stream_ag_ui_request self
                   (always (Responded (streaming body_text rest failure)))
                   req)).
Proof.
  intros Hraw. apply handle_line_carries in Hraw. split.
  - intros Hnothing. rewrite !stream_streaming.
    rewrite (read_events_skip pre raw rest failure); [reflexivity|].
    rewrite Hraw. now apply dispatch_nothing_to_relay.
  - intros content Hcontent.
    destruct (dispatch_relay event content Hcontent) as [Hdelta Hresult].
    split; intros Hevent.
    + apply (stream_continue self req body_text raw [JStr content]).
      rewrite Hraw. now apply Hdelta.
    + apply (stream_continue self req body_text raw
               [JStr (tool_result_block content)]).
      rewrite Hraw. now apply Hresult.
Qed.

Lemma validation_loop_items items errs :
  Forall2 (fun item e => validation_item item (fst e) (snd e)) items errs ->
  forall acc,
    validation_loop acc items = Ok (acc ++ map rendered_error errs).
Proof.
  induction 1 as [|item e items errs (d & -> & Hloc & Hmsg) _ IH];
    intros acc; cbn [validation_loop map].
  - now rewrite app_nil_r.
  - cbn [py_get mbind result_bind]. unfold dict_get. rewrite Hloc, Hmsg.
    cbn [py_iter mbind result_bind]. rewrite IH, <- app_assoc. reflexivity.
Qed.

Lemma stream_unprocessable self req body_text lines failure :
  stream_ag_ui_request self
    (always (Responded (unprocessable body_text lines failure))) req
  = match error_response_message (unprocessable body_text lines failure) with
    | Ok message => [JStr message]
    | Raise e => [JStr (exception_message e)]
    end.
Proof. reflexivity. Qed.

(** C7: a 422 response whose body is the JSON list with the single error
    (loc body, model; msg field required) yields the one chunk
    "Validation Error: body.model: field required" whatever lines the
    response would stream; in general each error is rendered as its loc
    joined by "." followed by ": " and its msg, and the errors are joined
    by "; ". *)
Theorem C7_validation_errors self req lines failure :
  stream_ag_ui_request self
    (always
       (Responded
          (unprocessable
             (q "[{'loc':['body','model'],'msg':'field required'}]")
             lines failure)))
    req
  = [JStr "Validation Error: body.model: field required"]
  /\ (forall body_text items errs,
        json_loads body_text = Some (JList items) ->
        Forall2 (fun item e => validation_item item (fst e) (snd e))
                items errs ->
        stream_ag_ui_request self
          (always (Responded (unprocessable body_text lines failure))) req
        = [JStr ("Validation Error: "
                 +:+ str_join "; " (map rendered_error errs))]).
Proof.
  assert (Hgeneral : forall body_text items errs,
             json_loads body_text = Some (JList items) ->
             Forall2 (fun item e => validation_item item (fst e) (snd e))
                     items errs ->
             stream_ag_ui_request self
               (always (Responded (unprocessable body_text lines failure)))
               req
             = [JStr ("Validation Error: "
                      +:+ str_join "; " (map rendered_error errs))]).
  { intros body_text items errs Hjson Hitems.
    rewrite stream_unprocessable. unfold error_response_message.
    cbn [status_code text unprocessable]. rewrite Hjson.
    change (422 =? 422)%Z with true. cbn iota.
    now rewrite (validation_loop_items _ _ Hitems). }
  split; [|exact Hgeneral].
  apply (Hgeneral _ [JObj [("loc", JList [JStr "body"; JStr "model"]);
                            ("msg", JStr "field required")]]
           [([JStr "body"; JStr "model"], JStr "field required")]).
  - vm_compute. reflexivity.
  - repeat constructor. eexists. repeat split; reflexivity.
Qed.


(** C8: on a 200 response whose body is a JSON object, the non-streaming
    function returns the value of the first of the fields content, message,
    text, result that the object has (the last one through [str]), and the
    object itself pretty-printed with indent 2 when it has none of them. *)
Theorem C8_extraction_order self req lines failure :
  has_state req ->
  (forall body_text result,
      json_loads body_text = Some (JObj result) ->
      non_stream_ag_ui_request self
        (always (Responded (streaming body_text lines failure))) req
      = match dict_lookup "content" result with
        | Some v => v
        | None =>
            match dict_lookup "message" result with
            | Some v => v
            | None =>
                match dict_lookup "text" result with
                | Some v => v
                | None =>
                    match dict_lookup "result" result with
                    | Some v => JStr (py_str v)
                    | None => JStr (json_dumps (Some 2%nat) (JObj result))
                    end
                end
            end
        end)
  /\ non_stream_ag_ui_request self
       (always (Responded (streaming (q "{'content':'answer'}") lines failure)))
       req
     = JStr "answer"
  /\ non_stream_ag_ui_request self
       (always (Responded (streaming (q "{'foo':'bar'}") lines failure))) req
     = JStr (q "{" +:+ newline +:+ q "  'foo': 'bar'" +:+ newline +:+ "}").
Proof.
  intros (d & st & -> & Hstate).
  assert (Hgeneral : forall body_text result,
      json_loads body_text = Some (JObj result) ->
      non_stream_ag_ui_request self
        (always (Responded (streaming body_text lines failure)))
        (JObj d)
      = match dict_lookup "content" result with
        | Some v => v
        | None =>
            match dict_lookup "message" result with
            | Some v => v
            | None =>
                match dict_lookup "text" result with
                | Some v => v
                | None =>
                    match dict_lookup "result" result with
                    | Some v => JStr (py_str v)
                    | None => JStr (json_dumps (Some 2%nat) (JObj result))
                    end
                end
            end
        end).
  { intros body_text result Hjson.
    unfold non_stream_ag_ui_request, set_non_streaming.
    cbn [py_getitem]. rewrite Hstate.
    cbn [mbind result_bind py_setitem always non_stream_result].
    cbn [status_code text streaming]. change (negb (200 =? 200)%Z) with false.
    cbn iota. rewrite Hjson. unfold dict_contains, dict_get.
    destruct (dict_lookup "content" result); [reflexivity|].
    destruct (dict_lookup "message" result); [reflexivity|].
    destruct (dict_lookup "text" result); [reflexivity|].
    destruct (dict_lookup "result" result); reflexivity. }
  split; [exact Hgeneral|]. split.
  - rewrite (Hgeneral _ [("content", JStr "answer")]); [reflexivity|].
    vm_compute. reflexivity.
  - rewrite (Hgeneral _ [("foo", JStr "bar")]); [|vm_compute; reflexivity].
    vm_compute. reflexivity.
Qed.

End Relay.

Lemma C2_literal_sequence_witness :
  stream_ag_ui_request (H := example_runtime) example_pipe
    (always
       (Responded
          (streaming ""
             ([wire_run_started; wire_message_start; wire_hi; wire_there;
               wire_message_end; wire_run_finished] ++ [wire_hi; wire_truncated])
             (Some ConnectionError))))
    example_run
  = [JStr "Hi"; JStr " there"].
Proof.
  apply (proj1 (C2_literal_sequence (H := example_runtime) example_pipe
                  example_run "" [wire_hi; wire_truncated]
                  (Some ConnectionError)));
    solve_event_line.
Defined.

Lemma C6_malformed_line_skipped_witness :
  utf8_valid wire_truncated = true
  /\ startswith "data: " wire_truncated = true
  /\ json_loads_limited example_limits (str_drop 6 wire_truncated) = Rejected
  /\ stream_ag_ui_request (H := example_runtime) example_pipe
       (always
          (Responded
             (streaming "" ([wire_hi] ++ wire_truncated :: [wire_there]) None)))
       example_run
     = stream_ag_ui_request (H := example_runtime) example_pipe
         (always (Responded (streaming "" ([wire_hi] ++ [wire_there]) None)))
         example_run
  /\ stream_ag_ui_request (H := example_runtime) example_pipe
       (always
          (Responded (streaming "" [wire_hi; wire_truncated; wire_there] None)))
       example_run
     = [JStr "Hi"; JStr " there"].
Proof.
  assert (Hvalid : utf8_valid wire_truncated = true) by reflexivity.
  assert (Hdata : startswith "data: " wire_truncated = true) by reflexivity.
  assert (Hjson : json_loads_limited example_limits
                    (str_drop 6 wire_truncated) = Rejected)
    by (vm_compute; reflexivity).
  split; [exact Hvalid|]. split; [exact Hdata|]. split; [exact Hjson|].
  destruct (C6_malformed_line_skipped (H := example_runtime) example_pipe
              example_run "" example_limits [wire_hi] wire_truncated
              [wire_there] None Hvalid Hdata Hjson) as [Hskip Hbetween].
  split; [exact Hskip|].
  apply Hbetween; solve [solve_event_line | discriminate].
Defined.

(** C6 as stated fails: a line that starts with the marker and goes on with
    the byte 0xFF cannot be parsed, and it is not skipped.  Decoding the
    line (line 211) raises outside the inner [try]: the stream ends with an
    error chunk and the event after the line is lost. *)
Lemma C6_undecodable_data_line :
  let bad := "data: " +:+ chr 255 in
  startswith "data: " bad = true
  /\ utf8_valid bad = false
  /\ json_loads (str_drop 6 bad) = None
  /\ stream_ag_ui_request (H := example_runtime) example_pipe
       (always (Responded (streaming "" [wire_hi; bad; wire_there] None)))
       example_run
     = [JStr "Hi"; JStr "Error: UnicodeDecodeError"]
  /\ stream_ag_ui_request (H := example_runtime) example_pipe
       (always (Responded (streaming "" [wire_hi; wire_there] None)))
       example_run
     = [JStr "Hi"; JStr " there"].
Proof.
  cbv zeta. repeat split; vm_compute; reflexivity.
Qed.

Lemma C7_validation_errors_witness :
  json_loads
    (q "[{'loc':['body','messages',0,'role'],'msg':'field required'},{'loc':['body','runId'],'msg':'none is not an allowed value'}]")
  = Some
      (JList
         [JObj [("loc", JList [JStr "body"; JStr "messages"; JInt 0; JStr "role"]);
                ("msg", JStr "field required")];
          JObj [("loc", JList [JStr "body"; JStr "runId"]);
                ("msg", JStr "none is not an allowed value")]])
  /\ stream_ag_ui_request (H := example_runtime) example_pipe
       (always
          (Responded
             (unprocessable
                (q "[{'loc':['body','messages',0,'role'],'msg':'field required'},{'loc':['body','runId'],'msg':'none is not an allowed value'}]")
                [wire_hi] None)))
       example_run
     = [JStr "Validation Error: body.messages.0.role: field required; body.runId: none is not an allowed value"].
Proof.
  assert (Hjson :
    json_loads
      (q "[{'loc':['body','messages',0,'role'],'msg':'field required'},{'loc':['body','runId'],'msg':'none is not an allowed value'}]")
    = Some
        (JList
           [JObj [("loc", JList [JStr "body"; JStr "messages"; JInt 0; JStr "role"]);
                  ("msg", JStr "field required")];
            JObj [("loc", JList [JStr "body"; JStr "runId"]);
                  ("msg", JStr "none is not an allowed value")]]))
    by (vm_compute; reflexivity).
  split; [exact Hjson|].
  refine (proj2 (C7_validation_errors (H := example_runtime) example_pipe
                   example_run [wire_hi] None) _ _
            [([JStr "body"; JStr "messages"; JInt 0; JStr "role"],
              JStr "field required");
             ([JStr "body"; JStr "runId"],
              JStr "none is not an allowed value")] Hjson _).
  repeat constructor; eexists; repeat split; reflexivity.
Defined.

Lemma C8_extraction_order_witness :
  has_state example_run
  /\ json_loads (q "{'result': 42, 'text': 'second', 'message': 'first'}")
     = Some (JObj [("result", JInt 42); ("text", JStr "second");
                   ("message", JStr "first")])
  /\ non_stream_ag_ui_request (H := example_runtime) example_pipe
       (always
          (Responded
             (streaming (q "{'result': 42, 'text': 'second', 'message': 'first'}")
                [] None)))
       example_run
     = JStr "first".
Proof.
  assert (Hstate : has_state example_run)
    by (eexists _, _; split; reflexivity).
  assert (Hjson :
    json_loads (q "{'result': 42, 'text': 'second', 'message': 'first'}")
    = Some (JObj [("result", JInt 42); ("text", JStr "second");
                  ("message", JStr "first")]))
    by (vm_compute; reflexivity).
  split; [exact Hstate|]. split; [exact Hjson|].
  exact (proj1 (C8_extraction_order (H := example_runtime) example_pipe
                  example_run [] None Hstate) _ _ Hjson).
Defined.

Lemma C9_empty_fields_suppressed_witness :
  carries wire_empty_delta
    [("type", JStr "TEXT_MESSAGE_CONTENT"); ("messageId", JStr "m1");
     ("delta", JStr "")]
  /\ stream_ag_ui_request (H := example_runtime) example_pipe
       (always
          (Responded
             (streaming "" ([wire_hi] ++ wire_empty_delta :: [wire_there])
                None)))
       example_run
     = stream_ag_ui_request (H := example_runtime) example_pipe
         (always (Responded (streaming "" ([wire_hi] ++ [wire_there]) None)))
         example_run.
Proof.
  assert (Hraw : carries wire_empty_delta
                   [("type", JStr "TEXT_MESSAGE_CONTENT");
                    ("messageId", JStr "m1"); ("delta", JStr "")])
    by solve_carries.
  split; [exact Hraw|].
  apply (proj1 (C9_empty_fields_suppressed (H := example_runtime) example_pipe
                  example_run "" [wire_hi] wire_empty_delta _ [wire_there]
                  None Hraw)).
  left. split; [left; reflexivity | right; reflexivity].
Defined.


(** * More on the stream loop *)

Section RelayOrder.
Context `{PyRuntime}.

(** Lines that let the loop go on contribute their chunks in order. *)
Lemma read_events_prefix pre chunks rest failure :
  Forall2 (fun raw cs => handle_line raw = Continue cs) pre chunks ->
  read_events (pre ++ rest) failure
  = (concat chunks ++ fst (read_events rest failure),
     snd (read_events rest failure)).
Proof.
  induction 1 as [|raw cs pre chunks Hraw _ IH]; cbn [app concat].
  - now destruct (read_events rest failure).
  - rewrite (read_events_continue _ _ _ _ Hraw), IH.
    cbn [fst snd]. now rewrite app_assoc.
Qed.

Lemma stream_prefix self req body_text pre chunks rest failure :
  Forall2 (fun raw cs => handle_line raw = Continue cs) pre chunks ->
  stream_ag_ui_request self
    (always (Responded (streaming body_text (pre ++ rest) failure))) req
  = concat chunks
    ++ stream_ag_ui_request self
         (always (Responded (streaming body_text rest failure))) req.
Proof.
  intros Hpre. rewrite !stream_streaming, (read_events_prefix _ _ _ _ Hpre).
  destruct (read_events rest failure) as [later e]. apply close_generator_app.
Qed.

(** X1: chunks come out in the order of the lines that produce them, and
    the end of the stream without a RUN_FINISHED event is not an error:
    when no line leaves the loop, the output is the concatenation of the
    chunks of the lines, followed by one connection-failure chunk exactly
    when the transport broke. *)
Theorem X1_stream_in_order self req body_text lines chunks :
  Forall2 (fun raw cs => handle_line raw = Continue cs) lines chunks ->
  stream_ag_ui_request self
    (always (Responded (streaming body_text lines None))) req
  = concat chunks
  /\ forall failure,
      stream_ag_ui_request self
        (always (Responded (streaming body_text lines (Some failure)))) req
      = concat chunks ++ [JStr (transport_message self failure)].
Proof.
  intros Hlines. split; [|intros failure].
  - rewrite <- (app_nil_r lines), (stream_prefix _ _ _ _ _ _ _ Hlines).
    rewrite stream_streaming. cbn. now rewrite app_nil_r.
  - rewrite <- (app_nil_r lines), (stream_prefix _ _ _ _ _ _ _ Hlines).
    rewrite stream_streaming. reflexivity.
Qed.

Lemma stream_stop self req body_text pre chunks raw last rest failure :
  Forall2 (fun raw cs => handle_line raw = Continue cs) pre chunks ->
  handle_line raw = Break last ->
  stream_ag_ui_request self
    (always (Responded (streaming body_text (pre ++ raw :: rest) failure))) req
  = concat chunks ++ last.
Proof.
  intros Hpre Hraw. rewrite (stream_prefix _ _ _ _ _ _ _ Hpre).
  rewrite stream_streaming. cbn [read_events]. now rewrite Hraw.
Qed.

Lemma stream_throw self req body_text pre chunks raw e rest failure :
  Forall2 (fun raw cs => handle_line raw = Continue cs) pre chunks ->
  handle_line raw = Throw e ->
  stream_ag_ui_request self
    (always (Responded (streaming body_text (pre ++ raw :: rest) failure))) req
  = concat chunks ++ [JStr (exception_message e)].
Proof.
  intros Hpre Hraw. rewrite (stream_prefix _ _ _ _ _ _ _ Hpre).
  rewrite stream_streaming. cbn [read_events]. now rewrite Hraw.
Qed.

(** X2: a RUN_ERROR event ends the stream with one chunk that carries its
    message ("Unknown error" when it has none); what follows on the stream,
    a transport failure included, is never seen. *)
Theorem X2_run_error_ends_stream self req body_text pre chunks raw event rest
  failure :
  Forall2 (fun raw cs => handle_line raw = Continue cs) pre chunks ->
  carries raw event ->
  event_type_is event "RUN_ERROR" ->
  stream_ag_ui_request self
    (always (Responded (streaming body_text (pre ++ raw :: rest) failure))) req
  = concat chunks
    ++ [JStr ("Error from AG-UI endpoint: "
              +:+ py_str (dict_get event "message" (JStr "Unknown error")))].
Proof.
  intros Hpre Hraw Htype. apply (stream_stop _ _ _ _ _ _ _ _ _ Hpre).
  rewrite (handle_line_carries _ _ Hraw). unfold dispatch_event.
  assert (Hkind : dict_get event "type" (JStr "") = JStr "RUN_ERROR")
    by (unfold dict_get; now rewrite Htype).
  now rewrite Hkind.
Qed.

(** X3: a data line whose payload is JSON but not an object is fatal: the
    chunks of the lines before it are followed by one "Error: ..." chunk
    for the AttributeError, and nothing after it is read. *)
Theorem X3_non_object_event_is_fatal self req body_text pre chunks raw v rest
  failure :
  Forall2 (fun raw cs => handle_line raw = Continue cs) pre chunks ->
  carries_value raw v ->
  is_object v = false ->
  stream_ag_ui_request self
    (always (Responded (streaming body_text (pre ++ raw :: rest) failure))) req
  = concat chunks ++ [JStr (exception_message (AttributeError v "get"))].
Proof.
  intros Hpre (Hvalid & Hdata & Hjson) Hv.
  apply (stream_throw _ _ _ _ _ _ _ _ _ Hpre).
  unfold handle_line, bytes_decode_utf8.
  rewrite (startswith_nonempty _ _ _ Hdata), Hvalid, Hdata, Hjson.
  destruct v; try reflexivity. discriminate.
Qed.

(** X4: a non-empty line that is not valid UTF-8 is fatal in the same way,
    whatever it would have contained. *)
Theorem X4_undecodable_line_is_fatal self req body_text pre chunks raw rest
  failure :
  Forall2 (fun raw cs => handle_line raw = Continue cs) pre chunks ->
  raw <> "" ->
  utf8_valid raw = false ->
  stream_ag_ui_request self
    (always (Responded (streaming body_text (pre ++ raw :: rest) failure))) req
  = concat chunks ++ [JStr (exception_message (UnicodeDecodeError raw))].
Proof.
  intros Hpre Hraw Hvalid. apply (stream_throw _ _ _ _ _ _ _ _ _ Hpre).
  unfold handle_line, bytes_decode_utf8.
  apply String.eqb_neq in Hraw. now rewrite Hraw, Hvalid.
Qed.

Lemma eq_str_ne v text : v <> JStr text -> eq_str v text = false.
Proof.
  destruct v; try reflexivity. simpl. intros Hne.
  apply String.eqb_neq. congruence.
Qed.

(** X5: blank lines, lines without the "data: " prefix (comments, event
    names, keep-alives) and events whose type is none of the ten known
    ones (or missing) are ignored: removing such a line from any stream
    leaves the output unchanged. *)
Theorem X5_ignored_lines self req body_text pre raw rest failure :
  raw = ""
  \/ (utf8_valid raw = true /\ startswith "data: " raw = false)
  \/ (exists event,
        carries raw event
        /\ forall kind, In kind known_event_types ->
                        dict_get event "type" (JStr "") <> JStr kind) ->
  stream_ag_ui_request self
    (always (Responded (streaming body_text (pre ++ raw :: rest) failure))) req
  = stream_ag_ui_request self
      (always (Responded (streaming body_text (pre ++ rest) failure))) req.
Proof.
  intros Hraw. rewrite !stream_streaming.
  rewrite (read_events_skip pre raw rest failure); [reflexivity|].
  destruct Hraw as [->|[[Hvalid Hdata]|(event & Hcarries & Hkind)]].
  - reflexivity.
  - unfold handle_line, bytes_decode_utf8. rewrite Hvalid, Hdata.
    now destruct (String.eqb raw "").
  - rewrite (handle_line_carries _ _ Hcarries). unfold dispatch_event.
    rewrite !eq_str_ne by (apply Hkind; simpl; tauto). reflexivity.
Qed.

End RelayOrder.

Section RelayShape.
Context `{PyRuntime}.

Lemma dispatch_event_chunks event :
  Forall (fun c => truthy c = true) (step_chunks (dispatch_event event))
  /\ (length (step_chunks (dispatch_event event)) <= 1)%nat.
Proof.
  unfold dispatch_event.
  repeat match goal with
         | |- context [if ?b then _ else _] => destruct b eqn:?
         end;
    cbn [step_chunks length]; (split; [|lia]);
    repeat constructor; assumption.
Qed.

Lemma handle_line_chunks raw :
  Forall (fun c => truthy c = true) (step_chunks (handle_line raw))
  /\ (length (step_chunks (handle_line raw)) <= 1)%nat.
Proof.
  unfold handle_line.
  destruct (String.eqb raw ""); [split; [constructor | simpl; lia]|].
  destruct (bytes_decode_utf8 raw) as [line|e];
    [|split; [constructor | simpl; lia]].
  destruct (startswith "data: " line); [|split; [constructor | simpl; lia]].
  destruct (json_loads (str_drop 6 line)) as [event_data|];
    [|split; [constructor | simpl; lia]].
  destruct event_data; try (split; [constructor | simpl; lia]).
  apply dispatch_event_chunks.
Qed.

Lemma read_events_chunks lines failure :
  Forall (fun c => truthy c = true) (fst (read_events lines failure))
  /\ (length (fst (read_events lines failure)) <= length lines)%nat.
Proof.
  induction lines as [|raw rest [IHt IHl]]; cbn [read_events].
  - destruct failure; split; simpl; auto.
  - destruct (handle_line_chunks raw) as [Ht Hl].
    destruct (handle_line raw) as [cs|cs|e]; cbn [step_chunks] in Ht, Hl.
    + destruct (read_events rest failure) as [later e]. cbn [fst] in *.
      split; [now apply Forall_app | rewrite length_app; simpl; lia].
    + cbn [fst]. split; [assumption | simpl; lia].
    + split; simpl; [constructor | lia].
Qed.

Lemma error_chunk_shape response :
  exists message,
    match error_response_message response with
    | Ok message => [JStr message]
    | Raise e => [JStr (exception_message e)]
    end = [JStr message]
    /\ message <> "".
Proof.
  unfold error_response_message, generic_error, exception_message.
  destruct (status_code response =? 422)%Z; [|eexists; split; [reflexivity|discriminate]].
  destruct (json_loads (text response)) as [[| | | | |error_data|]|];
    try (eexists; split; [reflexivity|discriminate]).
  destruct (validation_loop [] error_data); cbn [mbind result_bind];
    eexists; split; try reflexivity; discriminate.
Qed.

Lemma truthy_JStr s : s <> "" -> truthy (JStr s) = true.
Proof. intros Hs. simpl. apply String.eqb_neq in Hs. now rewrite Hs. Qed.

(** X6: no chunk the generator yields is empty (or otherwise falsy),
    whatever the endpoint does: text and argument deltas are relayed only
    when truthy, and every other chunk is a non-empty text. *)
Theorem X6_no_empty_chunk self requests_post req :
  Forall (fun c => truthy c = true)
         (stream_ag_ui_request self requests_post req).
Proof.
  unfold stream_ag_ui_request.
  destruct (requests_post _ _ _) as [response|failure].
  - destruct (negb (status_code response =? 200)%Z).
    + destruct (error_chunk_shape response) as (message & -> & Hne).
      repeat constructor. now apply truthy_JStr.
    + destruct (read_events_chunks (iter_lines response)
                  (stream_failure response)) as [Ht _].
      unfold close_generator. destruct (read_events _ _) as [chunks e].
      cbn [fst] in Ht. destruct e as [|e|[|m]]; [assumption|..];
        apply Forall_app; (split; [assumption|]); repeat constructor.
  - destruct failure; repeat constructor.
Qed.

(** X7: a request that fails, or is answered with a status other than 200,
    yields exactly one chunk; an event stream yields at most one chunk per
    line, plus at most one closing error chunk. *)
Theorem X7_chunk_count self requests_post req :
  match
    requests_post (AG_UI_ENDPOINT_URL (valves self)) req stream_headers
  with
  | PostFailed _ =>
      length (stream_ag_ui_request self requests_post req) = 1%nat
  | Responded response =>
      if (status_code response =? 200)%Z
      then (length (stream_ag_ui_request self requests_post req)
            <= S (length (iter_lines response)))%nat
      else length (stream_ag_ui_request self requests_post req) = 1%nat
  end.
Proof.
  unfold stream_ag_ui_request. cbv zeta.
  destruct (requests_post _ _ _) as [response|failure]; [|reflexivity].
  destruct (status_code response =? 200)%Z; cbn [negb].
  - destruct (read_events_chunks (iter_lines response)
                (stream_failure response)) as [_ Hl].
    unfold close_generator. destruct (read_events _ _) as [chunks e].
    cbn [fst] in Hl. destruct e; rewrite ?length_app; simpl; lia.
  - now destruct (error_chunk_shape response) as (message & -> & _).
Qed.

Lemma non_stream_with_state self requests_post d st :
  dict_lookup "state" d = Some (JObj st) ->
  non_stream_ag_ui_request self requests_post (JObj d)
  = non_stream_result self
      (requests_post (AG_UI_ENDPOINT_URL (valves self))
         (JObj (dict_set "state" (JObj (dict_set "stream" (JBool false) st)) d))
         json_headers).
Proof.
  intros Hstate. unfold non_stream_ag_ui_request, set_non_streaming.
  cbn [py_getitem]. now rewrite Hstate.
Qed.

(** X8: the two functions report failures alike: when the request fails or
    the status is not 200, the single chunk of the streaming function is
    the value the non-streaming function returns (for a request that has a
    state dict). *)
Theorem X8_failures_reported_alike self outcome req :
  has_state req ->
  match outcome with
  | PostFailed _ => True
  | Responded response => status_code response <> 200%Z
  end ->
  stream_ag_ui_request self (always outcome) req
  = [non_stream_ag_ui_request self (always outcome) req].
Proof.
  intros (d & st & -> & Hstate) Hbad.
  rewrite (non_stream_with_state _ _ _ _ Hstate).
  unfold stream_ag_ui_request, always, non_stream_result.
  destruct outcome as [response|failure]; [|reflexivity].
  apply Z.eqb_neq in Hbad. rewrite Hbad. cbn [negb].
  now destruct (error_response_message response).
Qed.

(** X9: the non-streaming function returns a text in every case but one:
    on a 200 response whose body is an object, the value of content,
    message or text is handed back as it is, whatever its type. *)
Theorem X9_non_stream_returns_text self outcome req :
  is_string (non_stream_ag_ui_request self (always outcome) req) = true
  \/ exists response result k,
       outcome = Responded response
       /\ status_code response = 200%Z
       /\ json_loads (text response) = Some (JObj result)
       /\ In k ["content"; "message"; "text"]
       /\ dict_lookup k result
          = Some (non_stream_ag_ui_request self (always outcome) req).
Proof.
  unfold non_stream_ag_ui_request.
  destruct (set_non_streaming req) as [req'|e]; [|now left].
  unfold always, non_stream_result.
  destruct outcome as [response|failure]; [|now left].
  destruct (status_code response =? 200)%Z eqn:Hstatus; cbn [negb].
  2: { left. now destruct (error_response_message response). }
  apply Z.eqb_eq in Hstatus.
  destruct (json_loads (text response)) as [v|] eqn:Hjson; [|now left].
  destruct v as [| | | | | |result]; try now left.
  unfold dict_contains, dict_get.
  destruct (dict_lookup "content" result) as [v|] eqn:Hc.
  { right. exists response, result, "content". simpl. tauto. }
  destruct (dict_lookup "message" result) as [v|] eqn:Hm.
  { right. exists response, result, "message". simpl. tauto. }
  destruct (dict_lookup "text" result) as [v|] eqn:Ht.
  { right. exists response, result, "text". simpl. tauto. }
  left. now destruct (dict_lookup "result" result).
Qed.

End RelayShape.

(** * More on error responses *)

Section ErrorResponses.
Context `{PyRuntime}.

Lemma failures_alike self outcome d st :
  dict_lookup "state" d = Some (JObj st) ->
  match outcome with
  | PostFailed _ => True
  | Responded response => status_code response <> 200%Z
  end ->
  stream_ag_ui_request self (always outcome) (JObj d)
  = [non_stream_ag_ui_request self (always outcome) (JObj d)].
Proof.
  intros Hstate Hbad.
  rewrite (non_stream_with_state _ _ _ _ Hstate).
  unfold stream_ag_ui_request, always, non_stream_result.
  destruct outcome as [response|failure]; [|reflexivity].
  apply Z.eqb_neq in Hbad. rewrite Hbad. cbn [negb].
  now destruct (error_response_message response).
Qed.

Lemma validation_loop_prefix items dls :
  Forall2 (fun item dl => item_with_loc item (fst dl) (snd dl)) items dls ->
  forall acc rest,
    validation_loop acc (items ++ rest)
    = validation_loop
        (acc ++ map (fun dl => rendered_item (snd dl) (fst dl)) dls) rest.
Proof.
  induction 1 as [|item dl items dls [-> Hloc] _ IH]; intros acc rest;
    cbn [app map validation_loop].
  - now rewrite app_nil_r.
  - cbn [py_get mbind result_bind]. rewrite Hloc.
    cbn [py_iter mbind result_bind]. rewrite IH, <- app_assoc. reflexivity.
Qed.

Lemma unprocessable_message body_text lines failure error_data :
  json_loads body_text = Some (JList error_data) ->
  error_response_message (unprocessable body_text lines failure)
  = (validation_errors ← validation_loop [] error_data;
     Ok ("Validation Error: " +:+ str_join "; " validation_errors)).
Proof.
  intros Hjson. unfold error_response_message.
  cbn [status_code text unprocessable]. rewrite Hjson.
  change (422 =? 422)%Z with true. reflexivity.
Qed.

(** X10: on a 422 response whose body is a JSON list of dicts, both
    functions give "Validation Error: " followed by the errors joined by
    "; ", where an error without loc is rendered with an empty location
    and an error without msg with "Unknown error"; an empty list gives the
    bare prefix. *)
Theorem X10_validation_defaults self req body_text lines failure items dls :
  json_loads body_text = Some (JList items) ->
  Forall2 (fun item dl => item_with_loc item (fst dl) (snd dl)) items dls ->
  stream_ag_ui_request self
    (always (Responded (unprocessable body_text lines failure))) req
  = [JStr ("Validation Error: "
           +:+ str_join "; "
                 (map (fun dl => rendered_item (snd dl) (fst dl)) dls))]
  /\ (has_state req ->
      non_stream_ag_ui_request self
        (always (Responded (unprocessable body_text lines failure))) req
      = JStr ("Validation Error: "
              +:+ str_join "; "
                    (map (fun dl => rendered_item (snd dl) (fst dl)) dls))).
Proof.
  intros Hjson Hitems.
  assert (Hmsg : error_response_message
                   (unprocessable body_text lines failure)
                 = Ok ("Validation Error: "
                       +:+ str_join "; "
                             (map (fun dl => rendered_item (snd dl) (fst dl))
                                  dls))).
  { rewrite (unprocessable_message _ _ _ _ Hjson).
    rewrite <- (app_nil_r items), (validation_loop_prefix _ _ Hitems).
    reflexivity. }
  assert (Hstream :
    stream_ag_ui_request self
      (always (Responded (unprocessable body_text lines failure))) req
    = [JStr ("Validation Error: "
             +:+ str_join "; "
                   (map (fun dl => rendered_item (snd dl) (fst dl)) dls))]).
  { rewrite stream_unprocessable. now rewrite Hmsg. }
  split; [exact Hstream|].
  intros (d & st & -> & Hstate).
  pose proof (failures_alike self
                (Responded (unprocessable body_text lines failure)) d st
                Hstate) as Halike.
  rewrite Hstream in Halike. symmetry.
  assert (Hbad : status_code (unprocessable body_text lines failure)
                 <> 200%Z) by discriminate.
  now injection (Halike Hbad).
Qed.

(** X11: on a 422 response whose body is a JSON list, the first item that
    is not a dict, or whose loc is null, a boolean or a number, turns the
    answer into the "Error: ..." text of the exception it raises; the
    errors before it are not reported. *)
Theorem X11_validation_item_raises self req body_text lines failure items dls
  bad more :
  json_loads body_text = Some (JList (items ++ bad :: more)) ->
  Forall2 (fun item dl => item_with_loc item (fst dl) (snd dl)) items dls ->
  (is_object bad = false ->
   stream_ag_ui_request self
     (always (Responded (unprocessable body_text lines failure))) req
   = [JStr (exception_message (AttributeError bad "get"))])
  /\ (forall d v,
        bad = JObj d ->
        dict_lookup "loc" d = Some v ->
        not_iterable v = true ->
        stream_ag_ui_request self
          (always (Responded (unprocessable body_text lines failure))) req
        = [JStr (exception_message (TypeError "iter" v))]).
Proof.
  intros Hjson Hitems.
  assert (Hmsg : forall e,
             (forall acc, validation_loop acc (bad :: more) = Raise e) ->
             stream_ag_ui_request self
               (always (Responded (unprocessable body_text lines failure)))
               req
             = [JStr (exception_message e)]).
  { intros e Hbad. rewrite stream_unprocessable.
    rewrite (unprocessable_message _ _ _ _ Hjson).
    now rewrite (validation_loop_prefix _ _ Hitems), Hbad. }
  split.
  - intros Hobj. apply Hmsg. intros acc.
    destruct bad; try reflexivity. discriminate.
  - intros d v -> Hloc Hv. apply Hmsg. intros acc.
    cbn [validation_loop py_get mbind result_bind]. unfold dict_get.
    rewrite Hloc. destruct v; try discriminate; reflexivity.
Qed.

End ErrorResponses.

(** * The request that is posted *)

Section Posted.
Context `{PyRuntime}.

Lemma dict_lookup_set_eq k v d : dict_lookup k (dict_set k v d) = Some v.
Proof.
  induction d as [|[k' v'] d IH]; cbn [dict_set dict_lookup].
  - now rewrite String.eqb_refl.
  - destruct (String.eqb k k') eqn:Hk; cbn [dict_lookup]; rewrite ?Hk;
      [now rewrite String.eqb_refl | exact IH].
Qed.

Lemma dict_lookup_set_ne k k' v d :
  k' <> k -> dict_lookup k' (dict_set k v d) = dict_lookup k' d.
Proof.
  intros Hne. induction d as [|[k0 v0] d IH]; cbn [dict_set dict_lookup].
  - apply String.eqb_neq in Hne. now rewrite Hne.
  - destruct (String.eqb k k0) eqn:Hk; cbn [dict_lookup].
    + apply String.eqb_eq in Hk. subst k0.
      apply String.eqb_neq in Hne. now rewrite Hne.
    + now rewrite IH.
Qed.

Lemma dict_set_keys k v v0 d :
  dict_lookup k d = Some v0 -> map fst (dict_set k v d) = map fst d.
Proof.
  induction d as [|[k' v'] d IH]; cbn [dict_set dict_lookup map fst];
    [discriminate|].
  destruct (String.eqb k k') eqn:Hk; cbn [map fst].
  - apply String.eqb_eq in Hk. now subst.
  - intros Hd. now rewrite IH.
Qed.

(** X12: the non-streaming function posts the request it was given with
    state["stream"] set to False and nothing else changed: same keys in
    the same order, same value under every key but "state", same value
    under every key of the state but "stream".  A request without a state
    key gets the "Error: ..." text of the KeyError back, and the endpoint
    is not contacted. *)
Theorem X12_non_stream_marks_state self requests_post d :
  (forall st,
      dict_lookup "state" d = Some (JObj st) ->
      exists d' st',
        non_stream_ag_ui_request self requests_post (JObj d)
        = non_stream_result self
            (requests_post (AG_UI_ENDPOINT_URL (valves self)) (JObj d')
               json_headers)
        /\ map fst d' = map fst d
        /\ (forall k, k <> "state" -> dict_lookup k d' = dict_lookup k d)
        /\ dict_lookup "state" d' = Some (JObj st')
        /\ dict_lookup "stream" st' = Some (JBool false)
        /\ (forall k, k <> "stream" -> dict_lookup k st' = dict_lookup k st))
  /\ (dict_lookup "state" d = None ->
      non_stream_ag_ui_request self requests_post (JObj d)
      = JStr (exception_message (KeyError "state"))).
Proof.
  split.
  - intros st Hstate.
    exists (dict_set "state" (JObj (dict_set "stream" (JBool false) st)) d),
           (dict_set "stream" (JBool false) st).
    split; [now apply non_stream_with_state|].
    split; [now apply (dict_set_keys _ _ _ _ Hstate)|].
    split; [intros k Hk; now apply dict_lookup_set_ne|].
    split; [apply dict_lookup_set_eq|].
    split; [apply dict_lookup_set_eq|].
    intros k Hk. now apply dict_lookup_set_ne.
  - intros Hstate. unfold non_stream_ag_ui_request, set_non_streaming.
    cbn [py_getitem]. now rewrite Hstate.
Qed.

Lemma run_agent_input_state body thread_id run_id msgs model :
  field "state" (run_agent_input body thread_id run_id msgs model)
  = Some (JObj []).
Proof. reflexivity. Qed.

(** X13: [pipe] on a well-formed request.  Unless the request carries a
    falsy stream flag, the result is the generator over the RunAgentInput
    that [transform_openwebui_to_ag_ui] builds; with a falsy flag it is the
    non-streaming value, and what is posted is that RunAgentInput with the
    state {"stream": False} and every other field as built. *)
Theorem X13_pipe_dispatch self requests_post body g :
  well_formed_request body = true ->
  exists r g',
    transform_openwebui_to_ag_ui self body g = (Ok r, g')
    /\ (truthy (dict_get body "stream" (JBool true)) = true ->
        pipe self requests_post body g
        = (Chunks (stream_ag_ui_request self requests_post r), g'))
    /\ (truthy (dict_get body "stream" (JBool true)) = false ->
        exists posted,
          pipe self requests_post body g
          = (Value
               (non_stream_result self
                  (requests_post (AG_UI_ENDPOINT_URL (valves self)) posted
                     json_headers)),
             g')
          /\ field "state" posted = Some (JObj [("stream", JBool false)])
          /\ forall k, k <> "state" -> field k posted = field k r).
Proof.
  intros Hwf. destruct (transform_total self body g Hwf) as (r & g' & Hrun).
  exists r, g'. split; [exact Hrun|].
  unfold pipe. rewrite Hrun. split; intros ->; [reflexivity|].
  apply transform_inv in Hrun as (sys & others & model & _ & _ & -> & _).
  eexists. split; [reflexivity|]. split; [reflexivity|].
  intros k Hk. cbn [field]. now apply dict_lookup_set_ne.
Qed.

Lemma remove_system_message_loop_missing_role pre d rest :
  forallb has_role pre = true ->
  dict_lookup "role" d = None ->
  remove_system_message_loop (pre ++ JObj d :: rest) = Raise (KeyError "role").
Proof.
  intros Hpre Hrole. induction pre as [|m pre IH];
    cbn [app remove_system_message_loop].
  - cbn [py_getitem]. now rewrite Hrole.
  - cbn [forallb] in Hpre. apply andb_prop in Hpre as [Hm Hpre].
    apply has_role_obj in Hm as (dm & role & -> & Hm).
    cbn [py_getitem]. rewrite Hm. cbn [mbind result_bind].
    now rewrite (IH Hpre).
Qed.

Lemma get_system_message_loop_missing_role pre d rest :
  forallb has_role pre = true ->
  dict_lookup "role" d = None ->
  (exists m, get_system_message_loop (pre ++ JObj d :: rest) = Ok m)
  \/ get_system_message_loop (pre ++ JObj d :: rest) = Raise (KeyError "role").
Proof.
  intros Hpre Hrole. induction pre as [|m pre IH];
    cbn [app get_system_message_loop].
  - right. cbn [py_getitem]. now rewrite Hrole.
  - cbn [forallb] in Hpre. apply andb_prop in Hpre as [Hm Hpre].
    apply has_role_obj in Hm as (dm & role & -> & Hm).
    cbn [py_getitem]. rewrite Hm. cbn [mbind result_bind].
    destruct (eq_str role "system"); [left; eauto | now apply IH].
Qed.

(** X14: a message without a role makes the request fail, although line
    87 names a default role: [pop_system_message] indexes the role of every
    message first.  [transform_openwebui_to_ag_ui] raises KeyError before
    it draws any identifier, and [pipe] returns the "Error: ..." text
    without contacting the endpoint. *)
Theorem X14_message_without_role self requests_post body pre d rest g :
  dict_lookup "messages" body = Some (JList (pre ++ JObj d :: rest)) ->
  forallb has_role pre = true ->
  dict_lookup "role" d = None ->
  transform_openwebui_to_ag_ui self body g = (Raise (KeyError "role"), g)
  /\ pipe self requests_post body g
     = (Value (JStr (exception_message (KeyError "role"))), g).
Proof.
  intros Hmsgs Hpre Hrole.
  assert (Hpop : pop_system_message (dict_get body "messages" (JList []))
                 = Raise (KeyError "role")).
  { unfold dict_get. rewrite Hmsgs.
    unfold pop_system_message, get_system_message, remove_system_message.
    cbn [py_iter mbind result_bind].
    destruct (get_system_message_loop_missing_role pre d rest Hpre Hrole)
      as [[m ->]| ->]; [|reflexivity].
    cbn [mbind result_bind].
    now rewrite (remove_system_message_loop_missing_role _ _ _ Hpre Hrole). }
  assert (Hrun : transform_openwebui_to_ag_ui self body g
                 = (Raise (KeyError "role"), g)).
  { unfold transform_openwebui_to_ag_ui, mbind, gen_bind, lift.
    now rewrite Hpop. }
  split; [exact Hrun|]. unfold pipe. now rewrite Hrun.
Qed.

End Posted.

(** * More on request transcoding *)

Section TransformMore.
Context `{PyRuntime}.

Lemma find_none_filter msgs :
  existsb is_system msgs = false ->
  List.find is_system msgs = None
  /\ List.filter (fun m => negb (is_system m)) msgs = msgs.
Proof.
  induction msgs as [|m rest IH]; cbn [existsb List.find List.filter];
    [auto|].
  destruct (is_system m); [discriminate|]. cbn [orb negb].
  intros Hrest. destruct (IH Hrest) as [-> ->]. auto.
Qed.

(** X15: without a system message (and in particular without messages at
    all) the RunAgentInput has one message per message of the request, in
    the same order, each with the role and the content of its source (the
    empty string for a missing content). *)
Theorem X15_messages_kept_in_order self body msgs g r g' :
  dict_get body "messages" (JList []) = JList msgs ->
  existsb is_system msgs = false ->
  transform_openwebui_to_ag_ui self body g = (Ok r, g') ->
  Forall2 renders (messages_of r) msgs.
Proof.
  intros Hmsgs Hsys Hrun.
  apply transform_inv in Hrun
    as (system_message & others & model & Hpop & _ & -> & _).
  rewrite Hmsgs in Hpop.
  apply pop_system_message_list_inv in Hpop as (Hwf & -> & ->).
  destruct (find_none_filter _ Hsys) as [-> ->].
  rewrite messages_of_run. unfold expected_messages. cbn [default truthy].
  change (from_option (fun x => x) JNull None) with JNull.
  apply (imap_renders (fun i => g (2 + i)%nat) msgs Hwf).
Qed.

(** X16: where the identifiers come from.  The thread id is the configured
    prefix, an underscore and the first draw; the run id is "run_" and the
    second draw; the messages get "msg_" and the following draws in
    output order; and the run consumes exactly two draws plus one per
    message of the RunAgentInput. *)
Theorem X16_identifier_layout self body (g : uuid_source) r g' :
  transform_openwebui_to_ag_ui self body g = (Ok r, g') ->
  field "threadId" r
  = Some (JStr (THREAD_ID_PREFIX (valves self) +:+ "_" +:+ g 0%nat))
  /\ field "runId" r = Some (JStr ("run_" +:+ g 1%nat))
  /\ message_ids r
     = map (fun i => JStr ("msg_" +:+ g i))
           (seq 2 (length (messages_of r)))
  /\ forall n, g' n = g (2 + length (messages_of r) + n)%nat.
Proof.
  intros Hrun.
  apply transform_inv in Hrun
    as (system_message & others & model & _ & _ & -> & ->).
  split; [reflexivity|]. split; [reflexivity|].
  assert (Hlen : length (expected_messages g system_message others)
                 = (draws system_message others - 2)%nat).
  { unfold expected_messages, draws.
    destruct (truthy system_message); cbn [length]; rewrite length_imap; lia. }
  unfold message_ids. rewrite messages_of_run, Hlen. split.
  - apply message_ids_expected.
  - intros n. rewrite advance_spec. f_equal.
    pose proof (draws_ge_2 system_message others). lia.
Qed.

(** X17: the default model stands in only for a missing "model" key.  A
    request without the key is resolved as if it named DEFAULT_MODEL; a
    request whose model is present but falsy (null, the empty string, 0,
    false) has that value forwarded as it is. *)
Theorem X17_default_model_only_when_absent self body g r g' :
  transform_openwebui_to_ag_ui self body g = (Ok r, g') ->
  (dict_lookup "model" body = None ->
   forwarded_model r = Some (resolved self (DEFAULT_MODEL (valves self))))
  /\ (forall v,
        dict_lookup "model" body = Some v ->
        truthy v = false ->
        forwarded_model r = Some v).
Proof.
  intros Hrun.
  apply transform_inv in Hrun
    as (system_message & others & model & _ & Hres & -> & _).
  rewrite forwarded_model_run. split.
  - intros Hmodel.
    rewrite (resolve_model_requested self body (DEFAULT_MODEL (valves self)))
      in Hres by (unfold dict_get; now rewrite Hmodel).
    congruence.
  - intros v Hmodel Hv. unfold resolve_model, dict_get in Hres.
    rewrite Hmodel, Hv in Hres. cbn [mbind result_bind] in Hres.
    destruct v as [| | | |s| |]; cbn [mapping_get] in Hres;
      try discriminate; try congruence.
    cbn [truthy] in Hv. apply negb_false_iff, String.eqb_eq in Hv. subst s.
    cbn in Hres. congruence.
Qed.

Lemma split_once_app prefix suffix :
  split_once "." prefix = None ->
  split_once "." (prefix +:+ "." +:+ suffix) = Some (prefix, suffix).
Proof.
  induction prefix as [|a prefix IH]; [reflexivity|].
  change (String a prefix +:+ "." +:+ suffix)
    with (String a (prefix +:+ "." +:+ suffix)).
  cbn [split_once].
  destruct (Ascii.eqb a "."); [discriminate|].
  destruct (split_once "." prefix) as [[l r0]|]; [discriminate|].
  intros _. now rewrite IH.
Qed.

(** X18: every model the pipe advertises, requested the way the host names
    it (a prefix without separator, ".", the advertised id), is resolved to
    its advertised name, whatever the valves. *)
Theorem X18_advertised_models_resolve self body prefix m model_id model_name
  g r g' :
  In m (pipes self) ->
  field "id" m = Some (JStr model_id) ->
  field "name" m = Some (JStr model_name) ->
  split_once "." prefix = None ->
  dict_lookup "model" body = Some (JStr (prefix +:+ "." +:+ model_id)) ->
  transform_openwebui_to_ag_ui self body g = (Ok r, g') ->
  forwarded_model r = Some (JStr model_name).
Proof.
  intros Hm Hid Hname Hprefix Hmodel Hrun.
  apply transform_inv in Hrun
    as (system_message & others & model & _ & Hres & -> & _).
  rewrite forwarded_model_run.
  rewrite (resolve_model_requested self body (prefix +:+ "." +:+ model_id))
    in Hres by (unfold dict_get; now rewrite Hmodel).
  injection Hres as <-. unfold resolved.
  rewrite (split_once_app _ _ Hprefix).
  destruct Hm as [<-|[]]. cbn in Hid, Hname.
  injection Hid as <-. injection Hname as <-. reflexivity.
Qed.

End TransformMore.

(** * The game agent *)

Section Game.

Lemma run_tools_app state calls1 calls2 :
  run_tools state (calls1 ++ calls2)
  = run_tools (run_tools state calls1) calls2.
Proof. apply fold_left_app. Qed.

Lemma run_tool_consistent state call :
  streaks_consistent state -> streaks_consistent (run_tool state call).
Proof.
  unfold streaks_consistent. intros (H0 & Hbest & Hsolved).
  destruct call as [|points_earned [|]|new_name|];
    cbn [run_tool get_game_state update_score set_player_name reset_game
         snd current_streak best_streak problems_solved];
    try (repeat split; lia).
  destruct (best_streak state <? current_streak state + 1)%Z eqn:Hlt;
    cbn [current_streak best_streak problems_solved];
    [apply Z.ltb_lt in Hlt | apply Z.ltb_ge in Hlt]; repeat split; lia.
Qed.

(** X19: whatever tools the agent calls and in whatever order, the streak
    counters stay consistent: the current streak is never negative, never
    above the best streak and never above the number of problems solved,
    provided that held at the start (as it does for a new game). *)
Theorem X19_streaks_stay_consistent state calls :
  streaks_consistent state ->
  streaks_consistent (run_tools state calls).
Proof.
  revert state. induction calls as [|call calls IH]; intros state Hstate;
    [exact Hstate|].
  apply IH, run_tool_consistent, Hstate.
Qed.

Lemma run_tool_best state call :
  (best_streak state <= best_streak (run_tool state call))%Z.
Proof.
  destruct call as [|points_earned [|]|new_name|];
    cbn [run_tool get_game_state update_score set_player_name reset_game
         snd best_streak current_streak]; try lia.
  destruct (best_streak state <? current_streak state + 1)%Z eqn:Hlt;
    cbn [best_streak]; [apply Z.ltb_lt in Hlt|]; lia.
Qed.

Lemma run_tool_name state call :
  player_name (run_tool state call) = last_name [call] (player_name state).
Proof.
  destruct call as [|points_earned [|]|new_name|];
    cbn [run_tool get_game_state update_score set_player_name reset_game
         snd player_name best_streak current_streak last_name];
    try reflexivity.
  now destruct (best_streak state <? current_streak state + 1)%Z.
Qed.

(** X20: no tool ever lowers the best streak or forgets the player: after
    any calls, a reset included, the best streak is at least what it was,
    and the player's name is the one the last [set_player_name] gave (the
    original one if there was none). *)
Theorem X20_best_streak_and_name_survive state calls :
  (best_streak state <= best_streak (run_tools state calls))%Z
  /\ player_name (run_tools state calls) = last_name calls (player_name state).
Proof.
  revert state. induction calls as [|call calls IH]; intros state.
  - split; [cbn; lia | reflexivity].
  - destruct (IH (run_tool state call)) as [Hbest Hname].
    change (run_tools state (call :: calls))
      with (run_tools (run_tool state call) calls).
    split.
    + pose proof (run_tool_best state call). lia.
    + rewrite Hname, run_tool_name.
      destruct call as [|? [|]|?|]; reflexivity.
Qed.

Lemma run_tool_totals state call :
  score (run_tool state call) = score_since_reset [call] (score state)
  /\ problems_solved (run_tool state call)
     = solved_since_reset [call] (problems_solved state).
Proof.
  destruct call as [|points_earned [|]|new_name|];
    cbn [run_tool get_game_state update_score set_player_name reset_game
         snd score problems_solved best_streak current_streak
         score_since_reset solved_since_reset];
    try (split; reflexivity).
  now destruct (best_streak state <? current_streak state + 1)%Z.
Qed.

(** X21: the score is the sum of the points of the correctly solved
    problems since the last reset, and the number of problems solved is
    their count; wrong answers and the other tools leave both alone. *)
Theorem X21_score_and_solved_totals state calls :
  score (run_tools state calls) = score_since_reset calls (score state)
  /\ problems_solved (run_tools state calls)
     = solved_since_reset calls (problems_solved state).
Proof.
  revert state. induction calls as [|call calls IH]; intros state.
  - split; reflexivity.
  - change (run_tools state (call :: calls))
      with (run_tools (run_tool state call) calls).
    destruct (IH (run_tool state call)) as [-> ->].
    destruct (run_tool_totals state call) as [-> ->].
    destruct call as [|? [|]|?|]; split; reflexivity.
Qed.

End Game.

(** * The further properties at concrete inputs *)

Lemma X1_stream_in_order_witness :
  stream_ag_ui_request (H := example_runtime) example_pipe
    (always
       (Responded (streaming "" [wire_hi; ""; wire_tool_end; wire_there] None)))
    example_run
  = [JStr "Hi"; JStr newline; JStr " there"].
Proof.
  refine (proj1 (X1_stream_in_order (H := example_runtime) example_pipe
                   example_run "" [wire_hi; ""; wire_tool_end; wire_there]
                   [[JStr "Hi"]; []; [JStr newline]; [JStr " there"]] _)).
  repeat constructor; vm_compute; reflexivity.
Defined.

Lemma X2_run_error_ends_stream_witness :
  stream_ag_ui_request (H := example_runtime) example_pipe
    (always
       (Responded
          (streaming "" ([wire_hi] ++ wire_run_error :: [wire_there])
             (Some ConnectionError))))
    example_run
  = [JStr "Hi"; JStr "Error from AG-UI endpoint: boom"].
Proof.
  refine (X2_run_error_ends_stream (H := example_runtime) example_pipe
            example_run "" [wire_hi] [[JStr "Hi"]] wire_run_error
            [("type", JStr "RUN_ERROR"); ("message", JStr "boom")]
            [wire_there] (Some ConnectionError) _ _ _).
  - repeat constructor; vm_compute; reflexivity.
  - solve_carries.
  - reflexivity.
Defined.

Lemma X3_non_object_event_is_fatal_witness :
  stream_ag_ui_request (H := example_runtime) example_pipe
    (always
       (Responded (streaming "" ([wire_hi] ++ "data: 5" :: [wire_there]) None)))
    example_run
  = [JStr "Hi"; JStr "Error: AttributeError"].
Proof.
  refine (X3_non_object_event_is_fatal (H := example_runtime) example_pipe
            example_run "" [wire_hi] [[JStr "Hi"]] "data: 5" (JInt 5)
            [wire_there] None _ _ eq_refl).
  - repeat constructor; vm_compute; reflexivity.
  - solve_carries.
Defined.

Lemma X4_undecodable_line_is_fatal_witness :
  stream_ag_ui_request (H := example_runtime) example_pipe
    (always
       (Responded
          (streaming "" ([wire_hi] ++ ("data: " +:+ chr 255) :: [wire_there])
             None)))
    example_run
  = [JStr "Hi"; JStr "Error: UnicodeDecodeError"].
Proof.
  refine (X4_undecodable_line_is_fatal (H := example_runtime) example_pipe
            example_run "" [wire_hi] [[JStr "Hi"]] ("data: " +:+ chr 255)
            [wire_there] None _ _ _).
  - repeat constructor; vm_compute; reflexivity.
  - discriminate.
  - vm_compute. reflexivity.
Defined.

Lemma X5_ignored_lines_witness :
  stream_ag_ui_request (H := example_runtime) example_pipe
    (always
       (Responded
          (streaming ""
             ([wire_hi]
                ++ q "data: {'type':'STATE_SNAPSHOT','snapshot':{'score':1}}"
                :: [wire_there])
             None)))
    example_run
  = stream_ag_ui_request (H := example_runtime) example_pipe
      (always (Responded (streaming "" ([wire_hi] ++ [wire_there]) None)))
      example_run.
Proof.
  apply (X5_ignored_lines (H := example_runtime)).
  right. right.
  exists [("type", JStr "STATE_SNAPSHOT");
          ("snapshot", JObj [("score", JInt 1)])].
  split; [solve_carries|].
  intros kind Hkind. cbn in Hkind.
  repeat (destruct Hkind as [<-|Hkind]; [discriminate|]). destruct Hkind.
Defined.

Lemma X8_failures_reported_alike_witness :
  stream_ag_ui_request (H := example_runtime) example_pipe
    (always
       (Responded
          {| status_code := 503; text := "Service Unavailable";
             iter_lines := []; stream_failure := None |}))
    example_run
  = [non_stream_ag_ui_request (H := example_runtime) example_pipe
       (always
          (Responded
             {| status_code := 503; text := "Service Unavailable";
                iter_lines := []; stream_failure := None |}))
       example_run].
Proof.
  apply (X8_failures_reported_alike (H := example_runtime)).
  - eexists _, _. split; reflexivity.
  - discriminate.
Defined.

Lemma X10_validation_defaults_witness :
  stream_ag_ui_request (H := example_runtime) example_pipe
    (always
       (Responded
          (unprocessable (q "[{}, {'loc': ['body', 0], 'type': 'missing'}]")
             [] None)))
    example_run
  = [JStr "Validation Error: : Unknown error; body.0: Unknown error"].
Proof.
  refine (proj1 (X10_validation_defaults (H := example_runtime) example_pipe
                   example_run
                   (q "[{}, {'loc': ['body', 0], 'type': 'missing'}]") [] None
                   [JObj [];
                    JObj [("loc", JList [JStr "body"; JInt 0]);
                          ("type", JStr "missing")]]
                   [([], []);
                    ([("loc", JList [JStr "body"; JInt 0]);
                      ("type", JStr "missing")],
                     [JStr "body"; JInt 0])] _ _)).
  - vm_compute. reflexivity.
  - repeat constructor.
Defined.

Lemma X11_validation_item_raises_witness :
  stream_ag_ui_request (H := example_runtime) example_pipe
    (always
       (Responded
          (unprocessable (q "[{'loc': ['body'], 'msg': 'bad'}, 'oops']") []
             None)))
    example_run
  = [JStr "Error: AttributeError"].
Proof.
  refine (proj1 (X11_validation_item_raises (H := example_runtime)
                   example_pipe example_run
                   (q "[{'loc': ['body'], 'msg': 'bad'}, 'oops']") [] None
                   [JObj [("loc", JList [JStr "body"]); ("msg", JStr "bad")]]
                   [([("loc", JList [JStr "body"]); ("msg", JStr "bad")],
                     [JStr "body"])]
                   (JStr "oops") [] _ _) eq_refl).
  - vm_compute. reflexivity.
  - repeat constructor.
Defined.

Lemma X12_non_stream_marks_state_witness :
  (exists d',
     non_stream_ag_ui_request (H := example_runtime) example_pipe
       (fun _ posted _ =>
          Responded (streaming (json_dumps (H := example_runtime) None posted)
                       [] None))
       (JObj [("runId", JStr "r1"); ("state", JObj [("score", JInt 3)])])
     = non_stream_result (H := example_runtime) example_pipe
         (Responded
            (streaming (json_dumps (H := example_runtime) None (JObj d'))
               [] None))
     /\ map fst d' = ["runId"; "state"]
     /\ dict_lookup "runId" d' = Some (JStr "r1"))
  /\ non_stream_ag_ui_request (H := example_runtime) example_pipe
       (always (Responded (streaming (q "{'content': 'answer'}") [] None)))
       (JObj [("runId", JStr "r1")])
     = JStr "Error: KeyError".
Proof.
  split.
  - destruct (proj1 (X12_non_stream_marks_state (H := example_runtime)
                       example_pipe
                       (fun _ posted _ =>
                          Responded
                            (streaming
                               (json_dumps (H := example_runtime) None posted)
                               [] None))
                       [("runId", JStr "r1");
                        ("state", JObj [("score", JInt 3)])])
                _ eq_refl) as (d' & st' & Heq & Hkeys & Hother & _).
    exists d'. split; [exact Heq|]. split; [exact Hkeys|].
    now rewrite Hother.
  - exact (proj2 (X12_non_stream_marks_state (H := example_runtime)
                    example_pipe
                    (always
                       (Responded
                          (streaming (q "{'content': 'answer'}") [] None)))
                    [("runId", JStr "r1")]) eq_refl).
Defined.

Lemma X13_pipe_dispatch_witness :
  well_formed_request example_body = true
  /\ fst (pipe (H := example_runtime) example_pipe
            (always
               (Responded
                  (streaming ""
                     [wire_run_started; wire_hi; wire_there; wire_run_finished]
                     None)))
            example_body example_source)
     = Chunks [JStr "Hi"; JStr " there"].
Proof.
  split; [reflexivity|].
  destruct (X13_pipe_dispatch (H := example_runtime) example_pipe
              (always
                 (Responded
                    (streaming ""
                       [wire_run_started; wire_hi; wire_there;
                        wire_run_finished]
                       None)))
              example_body example_source eq_refl)
    as (r & g' & Hrun & Hstream & _).
  unfold example_pipe in Hrun. rewrite example_run_eq in Hrun.
  injection Hrun as <- <-.
  rewrite (Hstream eq_refl). vm_compute. reflexivity.
Defined.

Lemma X14_message_without_role_witness :
  fst (pipe (H := example_runtime) example_pipe
         (always (Responded (streaming "" [wire_hi] None)))
         [("messages",
           JList [JObj [("role", JStr "user"); ("content", JStr "Hello!")];
                  JObj [("content", JStr "no role")]])]
         example_source)
  = Value (JStr "Error: KeyError").
Proof.
  refine (f_equal fst
            (proj2 (X14_message_without_role (H := example_runtime)
                      example_pipe
                      (always (Responded (streaming "" [wire_hi] None)))
                      [("messages",
                        JList [JObj [("role", JStr "user");
                                     ("content", JStr "Hello!")];
                               JObj [("content", JStr "no role")]])]
                      [JObj [("role", JStr "user");
                             ("content", JStr "Hello!")]]
                      [("content", JStr "no role")] [] example_source
                      eq_refl eq_refl eq_refl))).
Defined.

Lemma X15_messages_kept_in_order_witness :
  match
    fst (transform_openwebui_to_ag_ui (H := example_runtime) example_pipe
           [("messages",
             JList [JObj [("role", JStr "user"); ("content", JStr "Hello!")];
                    JObj [("role", JStr "assistant")]])]
           example_source)
  with
  | Ok r =>
      Forall2 renders (messages_of r)
        [JObj [("role", JStr "user"); ("content", JStr "Hello!")];
         JObj [("role", JStr "assistant")]]
  | Raise _ => False
  end.
Proof.
  destruct (transform_openwebui_to_ag_ui (H := example_runtime) example_pipe
              [("messages",
                JList [JObj [("role", JStr "user");
                             ("content", JStr "Hello!")];
                       JObj [("role", JStr "assistant")]])]
              example_source) as [[r|e] g'] eqn:Hrun; cbn [fst].
  - exact (X15_messages_kept_in_order (H := example_runtime) example_pipe
             [("messages",
               JList [JObj [("role", JStr "user");
                            ("content", JStr "Hello!")];
                      JObj [("role", JStr "assistant")]])]
             [JObj [("role", JStr "user"); ("content", JStr "Hello!")];
              JObj [("role", JStr "assistant")]]
             example_source r g' eq_refl eq_refl Hrun).
  - vm_compute in Hrun. discriminate.
Defined.

Lemma X16_identifier_layout_witness :
  field "threadId" example_run = Some (JStr "openwebui_0")
  /\ field "runId" example_run = Some (JStr "run_1")
  /\ message_ids example_run = [JStr "msg_2"; JStr "msg_3"; JStr "msg_4"].
Proof.
  destruct (X16_identifier_layout (H := example_runtime) example_pipe
              example_body example_source example_run
              (advance 5 example_source) example_run_eq)
    as (Hthread & Hrun_id & Hids & _).
  split; [exact Hthread|]. split; [exact Hrun_id|]. exact Hids.
Defined.

Lemma X17_default_model_only_when_absent_witness :
  match
    fst (transform_openwebui_to_ag_ui (H := example_runtime) example_pipe
           [("model", JStr "")] example_source)
  with
  | Ok r => forwarded_model r = Some (JStr "")
  | Raise _ => False
  end.
Proof.
  destruct (transform_openwebui_to_ag_ui (H := example_runtime) example_pipe
              [("model", JStr "")] example_source) as [[r|e] g'] eqn:Hrun;
    cbn [fst].
  - exact (proj2 (X17_default_model_only_when_absent (H := example_runtime)
                    example_pipe [("model", JStr "")] example_source r g'
                    Hrun)
             (JStr "") eq_refl eq_refl).
  - vm_compute in Hrun. discriminate.
Defined.

Lemma X18_advertised_models_resolve_witness :
  match
    fst (transform_openwebui_to_ag_ui (H := example_runtime) example_pipe
           [("model", JStr "aguimiddleware.agui-agent")] example_source)
  with
  | Ok r => forwarded_model r = Some (JStr "agui-agent")
  | Raise _ => False
  end.
Proof.
  destruct (transform_openwebui_to_ag_ui (H := example_runtime) example_pipe
              [("model", JStr "aguimiddleware.agui-agent")] example_source)
    as [[r|e] g'] eqn:Hrun; cbn [fst].
  - exact (X18_advertised_models_resolve (H := example_runtime) example_pipe
             [("model", JStr "aguimiddleware.agui-agent")] "aguimiddleware"
             (JObj [("id", JStr "agui-agent"); ("name", JStr "agui-agent")])
             "agui-agent" "agui-agent" example_source r g'
             (or_introl eq_refl) eq_refl eq_refl eq_refl eq_refl Hrun).
  - vm_compute in Hrun. discriminate.
Defined.

Lemma X19_streaks_stay_consistent_witness :
  streaks_consistent GameState_default
  /\ streaks_consistent
       (run_tools GameState_default
          [Call_set_player_name "Bob"; Call_update_score 10 true;
           Call_update_score 15 true; Call_update_score 5 false;
           Call_reset_game; Call_update_score (-3) true]).
Proof.
  assert (Hstart : streaks_consistent GameState_default)
    by (unfold streaks_consistent; cbn; lia).
  split; [exact Hstart|].
  exact (X19_streaks_stay_consistent GameState_default _ Hstart).
Defined.
